(** * Resolution.ts: the resolution router of the domain resolution library

    A shallow embedding of [src/Resolution.ts]: the source normalizer
    ([normalizeSource]), the constructor, the backend selection
    ([getResolutionMethods], [getNamingMethod], [getNamingMethodOrThrow],
    [findNamingService]), the domain canonicalization ([prepareDomain]) and
    the public entry points that dispatch to a naming-service backend.

    Conventions of the embedding.
    - In the router a JavaScript string is a [string]: one [ascii] per
      UTF-16 code unit, so the strings covered are those whose code units
      lie in U+0000..U+00FF (the Latin-1 range, which contains ASCII).  On
      that range [String.prototype.trim] and [String.prototype.toLowerCase]
      are written out exactly.  The module [Utf16] has the strings in full,
      as lists of code units, with [trim] and [toLowerCase] on all of
      Unicode and the domain canonicalization over them; the router's
      canonicalization is its restriction to the strings below U+0100.
    - A JavaScript value is a [JsValue]; a plain object is a finite map from
      property names to values.
    - A call that may throw, and an [async] call whose promise may reject,
      both return a [Result]: [Ok v] for a returned (resolved) value,
      [Throw e] for a thrown error (rejected promise).
    - The backends ([Ens], [Zns], [Cns], [Udapi]) are external collaborators:
      a backend is a record of the operations the router calls on it. *)

From stdpp Require Import base option list strings gmap fin_maps.
From Stdlib Require Import Ascii String NArith ZArith Bool.

Local Open Scope string_scope.

(** ** JavaScript strings: [trim] and [toLowerCase] *)

Module JsString.

(** Code unit of a character. *)
Definition code (c : ascii) : N := N_of_ascii c.

(** WhiteSpace and LineTerminator code units below U+0100, the ones
    [trim] strips: TAB, LF, VT, FF, CR, SPACE and NO-BREAK SPACE. *)
Definition isWhiteSpace (c : ascii) : bool :=
  let n := code c in
  ((9 <=? n) && (n <=? 13) || (n =? 32) || (n =? 160))%N.

(** Code units with a lowercase mapping below U+0100: A..Z and the
    Latin-1 capitals U+00C0..U+00DE except the multiplication sign
    U+00D7. *)
Definition isUpper (c : ascii) : bool :=
  let n := code c in
  ((65 <=? n) && (n <=? 90)
   || (192 <=? n) && (n <=? 222) && negb (n =? 215))%N.

Definition lowerChar (c : ascii) : ascii :=
  if isUpper c then ascii_of_N (code c + 32) else c.

Fixpoint toLowerCase (s : string) : string :=
  match s with
  | EmptyString => EmptyString
  | String c s' => String (lowerChar c) (toLowerCase s')
  end.

Fixpoint trimStart (s : string) : string :=
  match s with
  | EmptyString => EmptyString
  | String c s' => if isWhiteSpace c then trimStart s' else s
  end.

Fixpoint trimEnd (s : string) : string :=
  match s with
  | EmptyString => EmptyString
  | String c s' =>
      match trimEnd s' with
      | EmptyString => if isWhiteSpace c then EmptyString else String c EmptyString
      | t => String c t
      end
  end.

Definition trim (s : string) : string := trimEnd (trimStart s).

(** Truthiness of a string: only the empty string is falsy. *)
Definition truthy (s : string) : bool :=
  match s with EmptyString => false | _ => true end.

(** A string that does not start with white space. *)
Definition startsClean (s : string) : bool :=
  match s with
  | EmptyString => true
  | String c _ => negb (isWhiteSpace c)
  end.

End JsString.

(** ** JavaScript values *)

(** The values a loosely-typed configuration field can hold.  A plain
    object is the finite map of its own enumerable properties.  Numbers
    are kept as integers and symbols and functions by a name: the router
    examines of them the [typeof] tag and the truthiness only. *)
#[warnings="-register-all"]
Inductive JsValue : Type :=
| JUndefined
| JNull
| JBoolean (b : bool)
| JNumber (n : Z)
| JBigInt (n : Z)
| JString (s : string)
| JSymbol (description : string)
| JFunction (fname : string)
| JObject (props : gmap string JsValue).

(** The [typeof] operator. *)
Definition typeOf (v : JsValue) : string :=
  match v with
  | JUndefined => "undefined"
  | JNull => "object"
  | JBoolean _ => "boolean"
  | JNumber _ => "number"
  | JBigInt _ => "bigint"
  | JString _ => "string"
  | JSymbol _ => "symbol"
  | JFunction _ => "function"
  | JObject _ => "object"
  end.

(** ToBoolean, the truthiness used by [?:], [if], [!] and [||]. *)
Definition toBoolean (v : JsValue) : bool :=
  match v with
  | JUndefined | JNull => false
  | JBoolean b => b
  | JNumber n | JBigInt n => negb (n =? 0)%Z
  | JString s => JsString.truthy s
  | JSymbol _ | JFunction _ | JObject _ => true
  end.

(** The own enumerable properties an object spread [...v] copies from a
    value that reaches the [object] case of a [typeof] switch: those of
    the object, and none for [null]. *)
Definition spreadProps (v : JsValue) : gmap string JsValue :=
  match v with
  | JObject props => props
  | _ => ∅
  end.

(** ** Errors and results *)

(** Modelled from the spec: the enum [NamingServiceName] of [./types] and
    the identity tag [name] of a backend, a closed set of tags: the three
    naming services and the remote API. *)
Inductive NamingServiceName : Type := ENS | CNS | ZNS.

Inductive ResolutionMethod : Type :=
| Named (n : NamingServiceName)
| UDAPI.

#[global] Instance NamingServiceName_eq_dec : EqDecision NamingServiceName.
Proof. solve_decision. Defined.

#[global] Instance ResolutionMethod_eq_dec : EqDecision ResolutionMethod.
Proof. solve_decision. Defined.

(** Modelled from the spec: the enum [ResolutionErrorCode] of
    [./errors/resolutionError], the kinds of the resolution-error taxonomy;
    the router itself raises the first two. *)
Inductive ResolutionErrorCode : Type :=
| UnsupportedDomain
| NamingServiceDown
| RecordNotFound
| BackendFailure (kind : string).

(** The options object a [ResolutionError] is constructed with. *)
Record ErrorOptions : Type := {
  err_domain : option string;
  err_method : option NamingServiceName;
}.

(** [{ domain }] *)
Definition withDomain (domain : string) : ErrorOptions :=
  {| err_domain := Some domain; err_method := None |}.

(** [{ method: name }] *)
Definition withMethod (name : NamingServiceName) : ErrorOptions :=
  {| err_domain := None; err_method := Some name |}.

(** A thrown value: an instance of [ResolutionError], or any other error
    (the plain [Error] of a bad configuration, a defect of a backend). *)
Inductive JsError : Type :=
| ResolutionError (code : ResolutionErrorCode) (options : ErrorOptions)
| PlainError (message : string).

(** [error instanceof ResolutionError] *)
Definition instanceofResolutionError (e : JsError) : bool :=
  match e with
  | ResolutionError _ _ => true
  | PlainError _ => false
  end.

Inductive Result (A : Type) : Type :=
| Ok (value : A)
| Throw (error : JsError).

Arguments Ok {A} value.
Arguments Throw {A} error.

Definition bind {A B : Type} (r : Result A) (k : A -> Result B) : Result B :=
  match r with
  | Ok a => k a
  | Throw e => Throw e
  end.

Declare Scope result_scope.
Delimit Scope result_scope with result.
Notation "'let*' x ':=' r 'in' k" := (bind r (fun x => k))
  (at level 10, x name, r at level 100, k at level 200) : result_scope.
Local Open Scope result_scope.

(** [try { return await body } catch (error) { handler }] *)
Definition tryCatch {A : Type} (body : Result A) (handler : JsError -> Result A)
  : Result A :=
  match body with
  | Ok a => Ok a
  | Throw e => handler e
  end.

(** ** The source normalizer *)

(** A source descriptor ([SourceDefinition]) is a plain object. *)
Abbreviation SourceDefinition := (gmap string JsValue) (only parsing).

(** [SourceDefinition | false] *)
Inductive NormalizedSource : Type :=
| Disabled
| Enabled (definition : SourceDefinition).

(** [normalizeSource(source, provider?)]; an omitted [provider] is
    [JUndefined]. *)
Definition normalizeSource (source provider : JsValue) : Result NormalizedSource :=
  let t := typeOf source in
  if String.eqb t "undefined" then
    Ok (Enabled {[ "provider" := provider ]})
  else if String.eqb t "boolean" then
    Ok (if toBoolean source then Enabled {[ "provider" := provider ]} else Disabled)
  else if String.eqb t "string" then
    Ok (Enabled {[ "url" := source ]})
  else if String.eqb t "object" then
    Ok (Enabled (spreadProps source ∪ {[ "provider" := provider ]}))
  else
    Throw (PlainError "Unsupported configuration").

(** ** Naming-service backends *)

(** [ResolutionResponse] of [./types]: a record bundle, a plain object. *)
Abbreviation ResolutionResponse := (gmap string JsValue) (only parsing).

(** Modelled from the spec: the capability contract [NamingService] of
    [./namingService] (section 6): the operations the router calls on a
    backend.  The predicates and the hashing are pure and synchronous;
    every other operation is asynchronous and may fail with an error. *)
Module NamingService.

Record Backend : Type := {
  isSupportedDomain : string -> bool;
  isSupportedNetwork : bool;
  resolve : string -> Result (option ResolutionResponse);
  address : string -> string -> Result string;
  owner : string -> Result (option string);
  resolver : string -> Result string;
  record : string -> string -> Result string;
  getAllKeys : string -> Result (list string);
  chatId : string -> Result string;
  chatpk : string -> Result string;
  ipfsHash : string -> Result string;
  httpUrl : string -> Result string;
  email : string -> Result string;
  namehash : string -> string;
  childhash : string -> string -> string;
  serviceName : string -> NamingServiceName;
  reverse : string -> string -> Result (option string);
}.

(** A constructed backend: its operations under its identity tag. *)
Record t : Type := {
  name : ResolutionMethod;
  backend : Backend;
}.

End NamingService.

Abbreviation NamingService := NamingService.t.

Coercion NamingService.backend : NamingService.t >-> NamingService.Backend.

(** What [Resolution.ts] imports: the constants of [./types] and the
    constructors of the four backend classes, each of which may throw. *)
Record Imports : Type := {
  UnclaimedDomainResponse : ResolutionResponse;
  DefaultAPI : JsValue;
  Ens : SourceDefinition -> Result NamingService.Backend;
  Zns : SourceDefinition -> Result NamingService.Backend;
  Cns : SourceDefinition -> Result NamingService.Backend;
  Udapi : JsValue -> Result NamingService.Backend;
}.

(** ** The router *)

(** The fields of a [Resolution] instance; an unset optional field is
    [None]. *)
Record Resolution : Type := {
  blockchain : bool;
  ens : option NamingService;
  zns : option NamingService;
  cns : option NamingService;
  api : option NamingService;
}.

(** The [Blockchain] configuration object; an absent field is
    [JUndefined]. *)
Record Blockchain : Type := {
  cfg_ens : JsValue;
  cfg_zns : JsValue;
  cfg_cns : JsValue;
  cfg_web3Provider : JsValue;
}.

(** [Blockchain | boolean] *)
Inductive BlockchainOption : Type :=
| BlockchainFlag (b : bool)
| BlockchainObject (c : Blockchain).

(** The argument of the constructor; an absent option is [None] and takes
    its default. *)
Record Options : Type := {
  opt_blockchain : option BlockchainOption;
  opt_api : option JsValue;
}.

(** [{}] as a [Blockchain] object. *)
Definition emptyBlockchain : Blockchain :=
  {| cfg_ens := JUndefined; cfg_zns := JUndefined; cfg_cns := JUndefined;
     cfg_web3Provider := JUndefined |}.

(** [private prepareDomain(domain)] *)
Definition prepareDomain (domain : string) : string :=
  if JsString.truthy domain
  then JsString.toLowerCase (JsString.trim domain)
  else "".

(** [private getResolutionMethods()]: the array of the mode's fields with
    the unset ones filtered out. *)
Definition getResolutionMethods (r : Resolution) : list NamingService :=
  omap id (if blockchain r then [ens r; zns r; cns r] else [api r]).

(** [private getNamingMethod(domain)] *)
Definition getNamingMethod (r : Resolution) (domain : string)
  : option NamingService :=
  let domain := prepareDomain domain in
  List.find (fun method : NamingService => NamingService.isSupportedDomain method domain)
            (getResolutionMethods r).

(** [private getNamingMethodOrThrow(domain)] *)
Definition getNamingMethodOrThrow (r : Resolution) (domain : string)
  : Result NamingService :=
  let domain := prepareDomain domain in
  match getNamingMethod r domain with
  | None => Throw (ResolutionError UnsupportedDomain (withDomain domain))
  | Some method => Ok method
  end.

(** [private findNamingService(name)] *)
Definition findNamingService (r : Resolution) (n : NamingServiceName)
  : Result NamingService :=
  match List.find (fun m : NamingService => bool_decide (NamingService.name m = Named n))
                  (getResolutionMethods r) with
  | None => Throw (ResolutionError NamingServiceDown (withMethod n))
  | Some service => Ok service
  end.

(** *** Public entry points *)

(** [async addressOrThrow(domain, currencyTicker)] *)
Definition addressOrThrow (r : Resolution) (domain currencyTicker : string)
  : Result string :=
  let domain := prepareDomain domain in
  let* method := getNamingMethodOrThrow r domain in
  NamingService.address method domain currencyTicker.

(** [async address(domain, currencyTicker)]; [None] is [null]. *)
Definition address (r : Resolution) (domain currencyTicker : string)
  : Result (option string) :=
  let domain := prepareDomain domain in
  tryCatch
    (let* a := addressOrThrow r domain currencyTicker in Ok (Some a))
    (fun error =>
       if instanceofResolutionError error then Ok None else Throw error).

(** [async chatId(domain)] *)
Definition chatId (r : Resolution) (domain : string) : Result string :=
  let domain := prepareDomain domain in
  let* method := getNamingMethodOrThrow r domain in
  NamingService.chatId method domain.

(** [async chatPk(domain)] *)
Definition chatPk (r : Resolution) (domain : string) : Result string :=
  let domain := prepareDomain domain in
  let* method := getNamingMethodOrThrow r domain in
  NamingService.chatpk method domain.

(** [async ipfsHash(domain)] *)
Definition ipfsHash (r : Resolution) (domain : string) : Result string :=
  let domain := prepareDomain domain in
  let* method := getNamingMethodOrThrow r domain in
  NamingService.ipfsHash method domain.

(** [async httpUrl(domain)] *)
Definition httpUrl (r : Resolution) (domain : string) : Result string :=
  let domain := prepareDomain domain in
  let* method := getNamingMethodOrThrow r domain in
  NamingService.httpUrl method domain.

(** [async ipfsRedirect(domain)]: the selection canonicalizes the domain
    for itself; the call forwarded to the backend carries the argument as
    it was passed. *)
Definition ipfsRedirect (r : Resolution) (domain : string) : Result string :=
  let* method := getNamingMethodOrThrow r domain in
  NamingService.record method domain "ipfs.redirect_domain.value".

(** [async email(domain)] *)
Definition email (r : Resolution) (domain : string) : Result string :=
  let domain := prepareDomain domain in
  let* method := getNamingMethodOrThrow r domain in
  NamingService.email method domain.

(** [async resolver(domain)] *)
Definition resolver (r : Resolution) (domain : string) : Result string :=
  let domain := prepareDomain domain in
  let* method := getNamingMethodOrThrow r domain in
  NamingService.resolver method domain.

(** [async owner(domain)]: [(await method.owner(domain)) || null]. *)
Definition owner (r : Resolution) (domain : string) : Result (option string) :=
  let domain := prepareDomain domain in
  let* method := getNamingMethodOrThrow r domain in
  let* o := NamingService.owner method domain in
  Ok (match o with
      | Some a => if JsString.truthy a then Some a else None
      | None => None
      end).

(** [async record(domain, recordKey)] *)
Definition record (r : Resolution) (domain recordKey : string) : Result string :=
  let domain := prepareDomain domain in
  let* method := getNamingMethodOrThrow r domain in
  NamingService.record method domain recordKey.

(** [async reverse(address, currencyTicker)] *)
Definition reverse (r : Resolution) (addr currencyTicker : string)
  : Result (option string) :=
  let* service := findNamingService r ENS in
  NamingService.reverse service addr currencyTicker.

(** [namehash(domain)] *)
Definition namehash (r : Resolution) (domain : string) : Result string :=
  let domain := prepareDomain domain in
  let* method := getNamingMethodOrThrow r domain in
  Ok (NamingService.namehash method domain).

(** [childhash(parent, label, method)] *)
Definition childhash (r : Resolution) (parent label : string)
    (method : NamingServiceName) : Result string :=
  let* service := findNamingService r method in
  Ok (NamingService.childhash service parent label).

(** [isValidHash(domain, hash)]; [===] on two strings. *)
Definition isValidHash (r : Resolution) (domain hash : string) : Result bool :=
  let domain := prepareDomain domain in
  let* h := namehash r domain in
  Ok (String.eqb h hash).

(** [isSupportedDomain(domain)] *)
Definition isSupportedDomain (r : Resolution) (domain : string) : bool :=
  let domain := prepareDomain domain in
  match getNamingMethod r domain with
  | Some _ => true
  | None => false
  end.

(** [isSupportedDomainInNetwork(domain)] *)
Definition isSupportedDomainInNetwork (r : Resolution) (domain : string) : bool :=
  let domain := prepareDomain domain in
  match getNamingMethod r domain with
  | Some method => NamingService.isSupportedNetwork method
  | None => false
  end.

(** [serviceName(domain)] *)
Definition serviceName (r : Resolution) (domain : string)
  : Result NamingServiceName :=
  let domain := prepareDomain domain in
  let* method := getNamingMethodOrThrow r domain in
  Ok (NamingService.serviceName method domain).

(** [async getAllKeys(domain)] *)
Definition getAllKeys (r : Resolution) (domain : string)
  : Result (list string) :=
  let domain := prepareDomain domain in
  let* method := getNamingMethodOrThrow r domain in
  NamingService.getAllKeys method domain.

Section WithImports.

Variable env : Imports.

(** [new Ens(source)] and its siblings: the class's operations under the
    class's tag. *)
Definition newEns (source : SourceDefinition) : Result NamingService :=
  let* b := Ens env source in Ok {| NamingService.name := Named ENS; NamingService.backend := b |}.

Definition newZns (source : SourceDefinition) : Result NamingService :=
  let* b := Zns env source in Ok {| NamingService.name := Named ZNS; NamingService.backend := b |}.

Definition newCns (source : SourceDefinition) : Result NamingService :=
  let* b := Cns env source in Ok {| NamingService.name := Named CNS; NamingService.backend := b |}.

Definition newUdapi (apiConfig : JsValue) : Result NamingService :=
  let* b := Udapi env apiConfig in Ok {| NamingService.name := UDAPI; NamingService.backend := b |}.

(** [if (source) { this.field = new Class(source) }] *)
Definition construct (new : SourceDefinition -> Result NamingService)
    (source : NormalizedSource) : Result (option NamingService) :=
  match source with
  | Disabled => Ok None
  | Enabled definition => let* s := new definition in Ok (Some s)
  end.

(** [console.warn] in the constructor: whether the deprecation warning
    of [web3Provider] is written. *)
Definition constructorWarns (o : Options) : bool :=
  match opt_blockchain o with
  | Some (BlockchainObject c) => toBoolean (cfg_web3Provider c)
  | _ => false
  end.

(** [constructor({ blockchain = true, api = DefaultAPI } = {})] *)
Definition constructor (o : Options) : Result Resolution :=
  let blockchainOpt := default (BlockchainFlag true) (opt_blockchain o) in
  let apiOpt := default (DefaultAPI env) (opt_api o) in
  match blockchainOpt with
  | BlockchainFlag false =>
      let* udapi := newUdapi apiOpt in
      Ok {| blockchain := false;
            ens := None; zns := None; cns := None; api := Some udapi |}
  | _ =>
      let c := match blockchainOpt with
               | BlockchainObject c => c
               | BlockchainFlag _ => emptyBlockchain
               end in
      let web3provider := cfg_web3Provider c in
      let* ensSource := normalizeSource (cfg_ens c) web3provider in
      let* znsSource := normalizeSource (cfg_zns c) JUndefined in
      let* cnsSource := normalizeSource (cfg_cns c) web3provider in
      let* e := construct newEns ensSource in
      let* z := construct newZns znsSource in
      let* c := construct newCns cnsSource in
      Ok {| blockchain := true;
            ens := e; zns := z; cns := c; api := None |}
  end.

(** [async resolve(domain)]: [result || UnclaimedDomainResponse]. *)
Definition resolve (r : Resolution) (domain : string)
  : Result ResolutionResponse :=
  let domain := prepareDomain domain in
  let* method := getNamingMethodOrThrow r domain in
  let* result := NamingService.resolve method domain in
  Ok (match result with
      | Some bundle => bundle
      | None => UnclaimedDomainResponse env
      end).

End WithImports.

(** ** Sample collaborators

    Concrete backends and instances on which the statements below are
    exercised. *)

Module Sample.

(** [s.endsWith(ext)] *)
Fixpoint endsWith (ext s : string) : bool :=
  String.eqb s ext
  || match s with
     | EmptyString => false
     | String _ s' => endsWith ext s'
     end.

(** A backend that claims the domains ending with [ext] and answers with
    the very domain string it is handed, so that what the router forwards
    can be read off the answer.  Its [address] knows the ticker ETH, has a
    defect on the empty ticker and reports any other record as missing. *)
Definition echo (ext : string) (tag : NamingServiceName)
  : NamingService.Backend :=
  {| NamingService.isSupportedDomain := endsWith ext;
     NamingService.isSupportedNetwork := true;
     NamingService.resolve := fun d =>
       Ok (if String.eqb d ("brad" ++ ext)
           then Some {[ "domain" := JString d ]}
           else None);
     NamingService.address := fun d t =>
       if String.eqb t "ETH" then Ok ("0x" ++ d)
       else if String.eqb t EmptyString
            then Throw (PlainError "Cannot read property of undefined")
            else Throw (ResolutionError RecordNotFound (withDomain d));
     NamingService.owner := fun d => Ok (Some ("owner of " ++ d));
     NamingService.resolver := fun d => Ok ("resolver of " ++ d);
     NamingService.record := fun d k => Ok (k ++ " of " ++ d);
     NamingService.getAllKeys := fun d => Ok [d];
     NamingService.chatId := fun d => Ok d;
     NamingService.chatpk := fun d => Ok d;
     NamingService.ipfsHash := fun d => Ok d;
     NamingService.httpUrl := fun d => Ok d;
     NamingService.email := fun d => Ok d;
     NamingService.namehash := fun d => "0x" ++ d;
     NamingService.childhash := fun parent label => parent ++ label;
     NamingService.serviceName := fun _ => tag;
     NamingService.reverse := fun a t => Ok (Some ("reverse of " ++ a)) |}.

Definition unclaimed : gmap string JsValue :=
  {[ "addresses" := JObject ∅ ]}.

(** The three naming services by their extensions, and a remote API that
    claims every domain. *)
Definition env : Imports :=
  {| UnclaimedDomainResponse := unclaimed;
     DefaultAPI := JObject {[ "url" := JString "https://api.example/v1" ]};
     Ens := fun _ => Ok (echo ".eth" ENS);
     Zns := fun _ => Ok (echo ".zil" ZNS);
     Cns := fun _ => Ok (echo ".crypto" CNS);
     Udapi := fun _ => Ok (echo EmptyString ENS) |}.

Definition ensService : NamingService :=
  {| NamingService.name := Named ENS; NamingService.backend := echo ".eth" ENS |}.

Definition znsService : NamingService :=
  {| NamingService.name := Named ZNS; NamingService.backend := echo ".zil" ZNS |}.

Definition cnsService : NamingService :=
  {| NamingService.name := Named CNS; NamingService.backend := echo ".crypto" CNS |}.

Definition apiService : NamingService :=
  {| NamingService.name := UDAPI; NamingService.backend := echo EmptyString ENS |}.

(** [new Resolution()] *)
Definition defaultOptions : Options :=
  {| opt_blockchain := None; opt_api := None |}.

Definition blockchainInstance : Resolution :=
  {| blockchain := true;
     ens := Some ensService; zns := Some znsService; cns := Some cnsService;
     api := None |}.

(** [new Resolution({ blockchain: false })] *)
Definition apiOptions : Options :=
  {| opt_blockchain := Some (BlockchainFlag false); opt_api := None |}.

Definition apiInstance : Resolution :=
  {| blockchain := false;
     ens := None; zns := None; cns := None;
     api := Some apiService |}.

(** [new Resolution({ blockchain: { ens: false } })] *)
Definition noEnsOptions : Options :=
  {| opt_blockchain :=
       Some (BlockchainObject
               {| cfg_ens := JBoolean false; cfg_zns := JUndefined;
                  cfg_cns := JUndefined; cfg_web3Provider := JUndefined |});
     opt_api := None |}.

Definition noEnsInstance : Resolution :=
  {| blockchain := true;
     ens := None; zns := Some znsService; cns := Some cnsService;
     api := None |}.

(** [new Resolution({ blockchain: { ens: null, zns: false, cns: false } })] *)
Definition nullEnsOptions : Options :=
  {| opt_blockchain :=
       Some (BlockchainObject
               {| cfg_ens := JNull; cfg_zns := JBoolean false;
                  cfg_cns := JBoolean false; cfg_web3Provider := JUndefined |});
     opt_api := None |}.

Definition ensOnlyInstance : Resolution :=
  {| blockchain := true;
     ens := Some ensService; zns := None; cns := None;
     api := None |}.

(** [new Resolution({ blockchain: { ens: 42 } })] *)
Definition numberEns : Blockchain :=
  {| cfg_ens := JNumber 42; cfg_zns := JUndefined;
     cfg_cns := JUndefined; cfg_web3Provider := JUndefined |}.

(** Two backends that both claim the synthetic domain [brad.eth]: an
    ENS-like one by the extension [.eth], a CNS-like one by the final
    letter. *)
Definition overlappingInstance : Resolution :=
  {| blockchain := true;
     ens := Some ensService;
     zns := None;
     cns := Some {| NamingService.name := Named CNS;
                    NamingService.backend := echo "h" CNS |};
     api := None |}.

End Sample.

(** ** The selection and the source union in the words of the specification *)

(** Whether a field of the instance holds a backend whose supported-domain
    predicate returns true on the domain. *)
Definition claimedBy (field : option NamingService) (domain : string) : bool :=
  match field with
  | Some service => NamingService.isSupportedDomain service domain
  | None => false
  end.

(** The backend selection as the specification words it: in blockchain
    mode the ENS-like, then the ZNS-like, then the CNS-like backend, in API
    mode the API backend alone; the first that claims the domain. *)
Definition firstInPriorityOrder (r : Resolution) (domain : string)
  : option NamingService :=
  if blockchain r then
    if claimedBy (ens r) domain then ens r
    else if claimedBy (zns r) domain then zns r
    else if claimedBy (cns r) domain then cns r
    else None
  else
    if claimedBy (api r) domain then api r else None.

(** Whether the runtime type of a value is in the union the normalizer
    handles: undefined, boolean, string, object. *)
Definition inSourceUnion (v : JsValue) : bool :=
  existsb (String.eqb (typeOf v)) ["undefined"; "boolean"; "string"; "object"].

(** [new Resolution({ blockchain: c, api: a })] *)
Definition withBlockchain (c : Blockchain) (a : option JsValue) : Options :=
  {| opt_blockchain := Some (BlockchainObject c); opt_api := a |}.

(** ** The construction modes in the words of the specification *)

(** [!!blockchain] of the constructor's option, its default applied. *)
Definition truthyBlockchain (o : Options) : bool :=
  match default (BlockchainFlag true) (opt_blockchain o) with
  | BlockchainFlag b => b
  | BlockchainObject _ => true
  end.

(** The [Blockchain] object the constructor reads its sources from. *)
Definition blockchainObject (o : Options) : Blockchain :=
  match opt_blockchain o with
  | Some (BlockchainObject c) => c
  | _ => emptyBlockchain
  end.

(** A field of the instance is unset or holds a backend of the given
    identity. *)
Definition hasTag (tag : ResolutionMethod) (field : option NamingService) : Prop :=
  match field with
  | Some service => NamingService.name service = tag
  | None => True
  end.

(** ** The static constructors *)

(** The adapters of [./utils/Eip1993Factories], which turn a provider of
    another calling convention into a provider of the EIP-1193 one. *)
Module Eip1993Factories.

Record t : Type := {
  fromWeb3Version0Provider : JsValue -> JsValue;
  fromWeb3Version1Provider : JsValue -> JsValue;
  fromEthersProvider : JsValue -> JsValue;
}.

End Eip1993Factories.

(** [static infura(infura, network = 'mainnet')]; [signedInfuraLink] is the
    function of [./utils], an omitted [network] is [None]. *)
Definition infura (env : Imports) (signedInfuraLink : string -> string -> string)
    (infuraId : string) (network : option string) : Result Resolution :=
  let network := default "mainnet" network in
  constructor env
    {| opt_blockchain :=
         Some (BlockchainObject
                 {| cfg_ens :=
                      JObject {[ "url" := JString (signedInfuraLink infuraId network);
                                 "network" := JString network ]};
                    cfg_zns := JUndefined;
                    cfg_cns :=
                      JObject {[ "url" := JString (signedInfuraLink infuraId network);
                                 "network" := JString network ]};
                    cfg_web3Provider := JUndefined |});
       opt_api := None |}.

(** [static fromEip1193Provider(provider)] *)
Definition fromEip1193Provider (env : Imports) (provider : JsValue)
  : Result Resolution :=
  constructor env
    {| opt_blockchain :=
         Some (BlockchainObject
                 {| cfg_ens := JObject {[ "provider" := provider ]};
                    cfg_zns := JBoolean true;
                    cfg_cns := JObject {[ "provider" := provider ]};
                    cfg_web3Provider := JUndefined |});
       opt_api := None |}.

(** [static fromWeb3Version0Provider(provider)] *)
Definition fromWeb3Version0Provider (env : Imports)
    (factories : Eip1993Factories.t) (provider : JsValue) : Result Resolution :=
  fromEip1193Provider env
    (Eip1993Factories.fromWeb3Version0Provider factories provider).

(** [static fromWeb3Version1Provider(provider)] *)
Definition fromWeb3Version1Provider (env : Imports)
    (factories : Eip1993Factories.t) (provider : JsValue) : Result Resolution :=
  fromEip1193Provider env
    (Eip1993Factories.fromWeb3Version1Provider factories provider).

(** [static fromEthersProvider(provider)] *)
Definition fromEthersProvider (env : Imports)
    (factories : Eip1993Factories.t) (provider : JsValue) : Result Resolution :=
  fromEip1193Provider env
    (Eip1993Factories.fromEthersProvider factories provider).

(** ** Vocabulary of the further properties *)

Module Canonical.

(** No character of the string has a lowercase mapping. *)
Fixpoint noUpper (s : string) : bool :=
  match s with
  | EmptyString => true
  | String c s' => negb (JsString.isUpper c) && noUpper s'
  end.

(** The string does not end with white space. *)
Fixpoint endsClean (s : string) : bool :=
  match s with
  | EmptyString => true
  | String c EmptyString => negb (JsString.isWhiteSpace c)
  | String _ s' => endsClean s'
  end.

(** The string is white space throughout. *)
Fixpoint allWhiteSpace (s : string) : bool :=
  match s with
  | EmptyString => true
  | String c s' => JsString.isWhiteSpace c && allWhiteSpace s'
  end.

(** A domain in canonical form: trimmed and in lower case. *)
Definition canonical (s : string) : bool :=
  noUpper s && JsString.startsClean s && endsClean s.

End Canonical.

(** Whether some configured backend claims the domain. *)
Definition someBackendClaims (r : Resolution) (domain : string) : bool :=
  existsb (fun m : NamingService => NamingService.isSupportedDomain m domain)
          (getResolutionMethods r).

(** The error every dispatching entry point raises on a domain that no
    configured backend claims. *)
Definition unsupportedDomain {A : Type} (domain : string) : Result A :=
  Throw (ResolutionError UnsupportedDomain (withDomain (prepareDomain domain))).

(** The field of the instance that holds the backend of a naming service. *)
Definition fieldOf (r : Resolution) (n : NamingServiceName)
  : option NamingService :=
  match n with
  | ENS => ens r
  | ZNS => zns r
  | CNS => cns r
  end.

(** A source that settles the provider of its backend by itself: the
    disabling [false], a url string, or an object with a [provider] field
    of its own. *)
Definition settlesProvider (source : JsValue) : bool :=
  match source with
  | JBoolean false => true
  | JString _ => true
  | JObject props => bool_decide (is_Some (props !! "provider"))
  | _ => false
  end.

(** The [Blockchain] object with its [web3Provider] replaced. *)
Definition withWeb3Provider (c : Blockchain) (provider : JsValue) : Blockchain :=
  {| cfg_ens := cfg_ens c; cfg_zns := cfg_zns c; cfg_cns := cfg_cns c;
     cfg_web3Provider := provider |}.

(** [{ ens: false, zns: false, cns: false, web3Provider }] *)
Definition allDisabled (provider : JsValue) : Blockchain :=
  {| cfg_ens := JBoolean false; cfg_zns := JBoolean false;
     cfg_cns := JBoolean false; cfg_web3Provider := provider |}.

(** The instance with no backend at all. *)
Definition noBackend : Resolution :=
  {| blockchain := true; ens := None; zns := None; cns := None; api := None |}.

(** The instance in blockchain mode whose three backends are built from
    the given descriptors. *)
Definition builtFrom (env : Imports) (ensSource znsSource cnsSource : gmap string JsValue)
    (r : Resolution) : Prop :=
  exists ensBackend znsBackend cnsBackend,
    Ens env ensSource = Ok ensBackend
    /\ Zns env znsSource = Ok znsBackend
    /\ Cns env cnsSource = Ok cnsBackend
    /\ r = {| blockchain := true;
              ens := Some {| NamingService.name := Named ENS;
                             NamingService.backend := ensBackend |};
              zns := Some {| NamingService.name := Named ZNS;
                             NamingService.backend := znsBackend |};
              cns := Some {| NamingService.name := Named CNS;
                             NamingService.backend := cnsBackend |};
              api := None |}.

(** Further sample collaborators. *)
Module Sample2.

(** The echo backend on a network it does not support, whose owner lookup
    answers the empty string. *)
Definition offNetwork (ext : string) (tag : NamingServiceName)
  : NamingService.Backend :=
  let b := Sample.echo ext tag in
  {| NamingService.isSupportedDomain := NamingService.isSupportedDomain b;
     NamingService.isSupportedNetwork := false;
     NamingService.resolve := NamingService.resolve b;
     NamingService.address := NamingService.address b;
     NamingService.owner := fun _ => Ok (Some EmptyString);
     NamingService.resolver := NamingService.resolver b;
     NamingService.record := NamingService.record b;
     NamingService.getAllKeys := NamingService.getAllKeys b;
     NamingService.chatId := NamingService.chatId b;
     NamingService.chatpk := NamingService.chatpk b;
     NamingService.ipfsHash := NamingService.ipfsHash b;
     NamingService.httpUrl := NamingService.httpUrl b;
     NamingService.email := NamingService.email b;
     NamingService.namehash := NamingService.namehash b;
     NamingService.childhash := NamingService.childhash b;
     NamingService.serviceName := NamingService.serviceName b;
     NamingService.reverse := NamingService.reverse b |}.

Definition offNetworkEns : NamingService :=
  {| NamingService.name := Named ENS;
     NamingService.backend := offNetwork ".eth" ENS |}.

(** An ENS-like backend off its network before a CNS-like backend that
    claims the same domains and is on its network. *)
Definition shadowedInstance : Resolution :=
  {| blockchain := true;
     ens := Some offNetworkEns;
     zns := None;
     cns := Some {| NamingService.name := Named CNS;
                    NamingService.backend := Sample.echo "h" CNS |};
     api := None |}.

(** [{ ens: "https://rpc.example", zns: true, cns: { provider: "own" } }] *)
Definition ownProviders : Blockchain :=
  {| cfg_ens := JString "https://rpc.example";
     cfg_zns := JBoolean true;
     cfg_cns := JObject {[ "provider" := JString "own" ]};
     cfg_web3Provider := JUndefined |}.

Definition signedInfuraLink (infuraId network : string) : string :=
  "https://" ++ network ++ ".infura.io/v3/" ++ infuraId.

Definition factories : Eip1993Factories.t :=
  {| Eip1993Factories.fromWeb3Version0Provider := fun p => JObject {[ "v0" := p ]};
     Eip1993Factories.fromWeb3Version1Provider := fun p => JObject {[ "v1" := p ]};
     Eip1993Factories.fromEthersProvider := fun p => JObject {[ "ethers" := p ]} |}.

End Sample2.

(** ** The Unicode Character Database, version 14.0.0

    The data [String.prototype.toLowerCase] reads: the code points whose
    lowercase mapping is not the code point itself, each with that mapping
    (the simple mappings of UnicodeData.txt and the one unconditional
    lowercase entry of SpecialCasing.txt, U+0130), and the ranges of the
    derived properties Cased and Case_Ignorable, which decide the
    Final_Sigma condition.  Code points are written in decimal. *)

Module Unicode14.

Definition lowercase : list (N * list N) := [
  (65, [97]); (66, [98]); (67, [99]); (68, [100]); (69, [101]); (70, [102]);
  (71, [103]); (72, [104]); (73, [105]); (74, [106]); (75, [107]);
  (76, [108]); (77, [109]); (78, [110]); (79, [111]); (80, [112]);
  (81, [113]); (82, [114]); (83, [115]); (84, [116]); (85, [117]);
  (86, [118]); (87, [119]); (88, [120]); (89, [121]); (90, [122]);
  (192, [224]); (193, [225]); (194, [226]); (195, [227]); (196, [228]);
  (197, [229]); (198, [230]); (199, [231]); (200, [232]); (201, [233]);
  (202, [234]); (203, [235]); (204, [236]); (205, [237]); (206, [238]);
  (207, [239]); (208, [240]); (209, [241]); (210, [242]); (211, [243]);
  (212, [244]); (213, [245]); (214, [246]); (216, [248]); (217, [249]);
  (218, [250]); (219, [251]); (220, [252]); (221, [253]); (222, [254]);
  (256, [257]); (258, [259]); (260, [261]); (262, [263]); (264, [265]);
  (266, [267]); (268, [269]); (270, [271]); (272, [273]); (274, [275]);
  (276, [277]); (278, [279]); (280, [281]); (282, [283]); (284, [285]);
  (286, [287]); (288, [289]); (290, [291]); (292, [293]); (294, [295]);
  (296, [297]); (298, [299]); (300, [301]); (302, [303]); (304, [105; 775]);
  (306, [307]); (308, [309]); (310, [311]); (313, [314]); (315, [316]);
  (317, [318]); (319, [320]); (321, [322]); (323, [324]); (325, [326]);
  (327, [328]); (330, [331]); (332, [333]); (334, [335]); (336, [337]);
  (338, [339]); (340, [341]); (342, [343]); (344, [345]); (346, [347]);
  (348, [349]); (350, [351]); (352, [353]); (354, [355]); (356, [357]);
  (358, [359]); (360, [361]); (362, [363]); (364, [365]); (366, [367]);
  (368, [369]); (370, [371]); (372, [373]); (374, [375]); (376, [255]);
  (377, [378]); (379, [380]); (381, [382]); (385, [595]); (386, [387]);
  (388, [389]); (390, [596]); (391, [392]); (393, [598]); (394, [599]);
  (395, [396]); (398, [477]); (399, [601]); (400, [603]); (401, [402]);
  (403, [608]); (404, [611]); (406, [617]); (407, [616]); (408, [409]);
  (412, [623]); (413, [626]); (415, [629]); (416, [417]); (418, [419]);
  (420, [421]); (422, [640]); (423, [424]); (425, [643]); (428, [429]);
  (430, [648]); (431, [432]); (433, [650]); (434, [651]); (435, [436]);
  (437, [438]); (439, [658]); (440, [441]); (444, [445]); (452, [454]);
  (453, [454]); (455, [457]); (456, [457]); (458, [460]); (459, [460]);
  (461, [462]); (463, [464]); (465, [466]); (467, [468]); (469, [470]);
  (471, [472]); (473, [474]); (475, [476]); (478, [479]); (480, [481]);
  (482, [483]); (484, [485]); (486, [487]); (488, [489]); (490, [491]);
  (492, [493]); (494, [495]); (497, [499]); (498, [499]); (500, [501]);
  (502, [405]); (503, [447]); (504, [505]); (506, [507]); (508, [509]);
  (510, [511]); (512, [513]); (514, [515]); (516, [517]); (518, [519]);
  (520, [521]); (522, [523]); (524, [525]); (526, [527]); (528, [529]);
  (530, [531]); (532, [533]); (534, [535]); (536, [537]); (538, [539]);
  (540, [541]); (542, [543]); (544, [414]); (546, [547]); (548, [549]);
  (550, [551]); (552, [553]); (554, [555]); (556, [557]); (558, [559]);
  (560, [561]); (562, [563]); (570, [11365]); (571, [572]); (573, [410]);
  (574, [11366]); (577, [578]); (579, [384]); (580, [649]); (581, [652]);
  (582, [583]); (584, [585]); (586, [587]); (588, [589]); (590, [591]);
  (880, [881]); (882, [883]); (886, [887]); (895, [1011]); (902, [940]);
  (904, [941]); (905, [942]); (906, [943]); (908, [972]); (910, [973]);
  (911, [974]); (913, [945]); (914, [946]); (915, [947]); (916, [948]);
  (917, [949]); (918, [950]); (919, [951]); (920, [952]); (921, [953]);
  (922, [954]); (923, [955]); (924, [956]); (925, [957]); (926, [958]);
  (927, [959]); (928, [960]); (929, [961]); (931, [963]); (932, [964]);
  (933, [965]); (934, [966]); (935, [967]); (936, [968]); (937, [969]);
  (938, [970]); (939, [971]); (975, [983]); (984, [985]); (986, [987]);
  (988, [989]); (990, [991]); (992, [993]); (994, [995]); (996, [997]);
  (998, [999]); (1000, [1001]); (1002, [1003]); (1004, [1005]);
  (1006, [1007]); (1012, [952]); (1015, [1016]); (1017, [1010]);
  (1018, [1019]); (1021, [891]); (1022, [892]); (1023, [893]);
  (1024, [1104]); (1025, [1105]); (1026, [1106]); (1027, [1107]);
  (1028, [1108]); (1029, [1109]); (1030, [1110]); (1031, [1111]);
  (1032, [1112]); (1033, [1113]); (1034, [1114]); (1035, [1115]);
  (1036, [1116]); (1037, [1117]); (1038, [1118]); (1039, [1119]);
  (1040, [1072]); (1041, [1073]); (1042, [1074]); (1043, [1075]);
  (1044, [1076]); (1045, [1077]); (1046, [1078]); (1047, [1079]);
  (1048, [1080]); (1049, [1081]); (1050, [1082]); (1051, [1083]);
  (1052, [1084]); (1053, [1085]); (1054, [1086]); (1055, [1087]);
  (1056, [1088]); (1057, [1089]); (1058, [1090]); (1059, [1091]);
  (1060, [1092]); (1061, [1093]); (1062, [1094]); (1063, [1095]);
  (1064, [1096]); (1065, [1097]); (1066, [1098]); (1067, [1099]);
  (1068, [1100]); (1069, [1101]); (1070, [1102]); (1071, [1103]);
  (1120, [1121]); (1122, [1123]); (1124, [1125]); (1126, [1127]);
  (1128, [1129]); (1130, [1131]); (1132, [1133]); (1134, [1135]);
  (1136, [1137]); (1138, [1139]); (1140, [1141]); (1142, [1143]);
  (1144, [1145]); (1146, [1147]); (1148, [1149]); (1150, [1151]);
  (1152, [1153]); (1162, [1163]); (1164, [1165]); (1166, [1167]);
  (1168, [1169]); (1170, [1171]); (1172, [1173]); (1174, [1175]);
  (1176, [1177]); (1178, [1179]); (1180, [1181]); (1182, [1183]);
  (1184, [1185]); (1186, [1187]); (1188, [1189]); (1190, [1191]);
  (1192, [1193]); (1194, [1195]); (1196, [1197]); (1198, [1199]);
  (1200, [1201]); (1202, [1203]); (1204, [1205]); (1206, [1207]);
  (1208, [1209]); (1210, [1211]); (1212, [1213]); (1214, [1215]);
  (1216, [1231]); (1217, [1218]); (1219, [1220]); (1221, [1222]);
  (1223, [1224]); (1225, [1226]); (1227, [1228]); (1229, [1230]);
  (1232, [1233]); (1234, [1235]); (1236, [1237]); (1238, [1239]);
  (1240, [1241]); (1242, [1243]); (1244, [1245]); (1246, [1247]);
  (1248, [1249]); (1250, [1251]); (1252, [1253]); (1254, [1255]);
  (1256, [1257]); (1258, [1259]); (1260, [1261]); (1262, [1263]);
  (1264, [1265]); (1266, [1267]); (1268, [1269]); (1270, [1271]);
  (1272, [1273]); (1274, [1275]); (1276, [1277]); (1278, [1279]);
  (1280, [1281]); (1282, [1283]); (1284, [1285]); (1286, [1287]);
  (1288, [1289]); (1290, [1291]); (1292, [1293]); (1294, [1295]);
  (1296, [1297]); (1298, [1299]); (1300, [1301]); (1302, [1303]);
  (1304, [1305]); (1306, [1307]); (1308, [1309]); (1310, [1311]);
  (1312, [1313]); (1314, [1315]); (1316, [1317]); (1318, [1319]);
  (1320, [1321]); (1322, [1323]); (1324, [1325]); (1326, [1327]);
  (1329, [1377]); (1330, [1378]); (1331, [1379]); (1332, [1380]);
  (1333, [1381]); (1334, [1382]); (1335, [1383]); (1336, [1384]);
  (1337, [1385]); (1338, [1386]); (1339, [1387]); (1340, [1388]);
  (1341, [1389]); (1342, [1390]); (1343, [1391]); (1344, [1392]);
  (1345, [1393]); (1346, [1394]); (1347, [1395]); (1348, [1396]);
  (1349, [1397]); (1350, [1398]); (1351, [1399]); (1352, [1400]);
  (1353, [1401]); (1354, [1402]); (1355, [1403]); (1356, [1404]);
  (1357, [1405]); (1358, [1406]); (1359, [1407]); (1360, [1408]);
  (1361, [1409]); (1362, [1410]); (1363, [1411]); (1364, [1412]);
  (1365, [1413]); (1366, [1414]); (4256, [11520]); (4257, [11521]);
  (4258, [11522]); (4259, [11523]); (4260, [11524]); (4261, [11525]);
  (4262, [11526]); (4263, [11527]); (4264, [11528]); (4265, [11529]);
  (4266, [11530]); (4267, [11531]); (4268, [11532]); (4269, [11533]);
  (4270, [11534]); (4271, [11535]); (4272, [11536]); (4273, [11537]);
  (4274, [11538]); (4275, [11539]); (4276, [11540]); (4277, [11541]);
  (4278, [11542]); (4279, [11543]); (4280, [11544]); (4281, [11545]);
  (4282, [11546]); (4283, [11547]); (4284, [11548]); (4285, [11549]);
  (4286, [11550]); (4287, [11551]); (4288, [11552]); (4289, [11553]);
  (4290, [11554]); (4291, [11555]); (4292, [11556]); (4293, [11557]);
  (4295, [11559]); (4301, [11565]); (5024, [43888]); (5025, [43889]);
  (5026, [43890]); (5027, [43891]); (5028, [43892]); (5029, [43893]);
  (5030, [43894]); (5031, [43895]); (5032, [43896]); (5033, [43897]);
  (5034, [43898]); (5035, [43899]); (5036, [43900]); (5037, [43901]);
  (5038, [43902]); (5039, [43903]); (5040, [43904]); (5041, [43905]);
  (5042, [43906]); (5043, [43907]); (5044, [43908]); (5045, [43909]);
  (5046, [43910]); (5047, [43911]); (5048, [43912]); (5049, [43913]);
  (5050, [43914]); (5051, [43915]); (5052, [43916]); (5053, [43917]);
  (5054, [43918]); (5055, [43919]); (5056, [43920]); (5057, [43921]);
  (5058, [43922]); (5059, [43923]); (5060, [43924]); (5061, [43925]);
  (5062, [43926]); (5063, [43927]); (5064, [43928]); (5065, [43929]);
  (5066, [43930]); (5067, [43931]); (5068, [43932]); (5069, [43933]);
  (5070, [43934]); (5071, [43935]); (5072, [43936]); (5073, [43937]);
  (5074, [43938]); (5075, [43939]); (5076, [43940]); (5077, [43941]);
  (5078, [43942]); (5079, [43943]); (5080, [43944]); (5081, [43945]);
  (5082, [43946]); (5083, [43947]); (5084, [43948]); (5085, [43949]);
  (5086, [43950]); (5087, [43951]); (5088, [43952]); (5089, [43953]);
  (5090, [43954]); (5091, [43955]); (5092, [43956]); (5093, [43957]);
  (5094, [43958]); (5095, [43959]); (5096, [43960]); (5097, [43961]);
  (5098, [43962]); (5099, [43963]); (5100, [43964]); (5101, [43965]);
  (5102, [43966]); (5103, [43967]); (5104, [5112]); (5105, [5113]);
  (5106, [5114]); (5107, [5115]); (5108, [5116]); (5109, [5117]);
  (7312, [4304]); (7313, [4305]); (7314, [4306]); (7315, [4307]);
  (7316, [4308]); (7317, [4309]); (7318, [4310]); (7319, [4311]);
  (7320, [4312]); (7321, [4313]); (7322, [4314]); (7323, [4315]);
  (7324, [4316]); (7325, [4317]); (7326, [4318]); (7327, [4319]);
  (7328, [4320]); (7329, [4321]); (7330, [4322]); (7331, [4323]);
  (7332, [4324]); (7333, [4325]); (7334, [4326]); (7335, [4327]);
  (7336, [4328]); (7337, [4329]); (7338, [4330]); (7339, [4331]);
  (7340, [4332]); (7341, [4333]); (7342, [4334]); (7343, [4335]);
  (7344, [4336]); (7345, [4337]); (7346, [4338]); (7347, [4339]);
  (7348, [4340]); (7349, [4341]); (7350, [4342]); (7351, [4343]);
  (7352, [4344]); (7353, [4345]); (7354, [4346]); (7357, [4349]);
  (7358, [4350]); (7359, [4351]); (7680, [7681]); (7682, [7683]);
  (7684, [7685]); (7686, [7687]); (7688, [7689]); (7690, [7691]);
  (7692, [7693]); (7694, [7695]); (7696, [7697]); (7698, [7699]);
  (7700, [7701]); (7702, [7703]); (7704, [7705]); (7706, [7707]);
  (7708, [7709]); (7710, [7711]); (7712, [7713]); (7714, [7715]);
  (7716, [7717]); (7718, [7719]); (7720, [7721]); (7722, [7723]);
  (7724, [7725]); (7726, [7727]); (7728, [7729]); (7730, [7731]);
  (7732, [7733]); (7734, [7735]); (7736, [7737]); (7738, [7739]);
  (7740, [7741]); (7742, [7743]); (7744, [7745]); (7746, [7747]);
  (7748, [7749]); (7750, [7751]); (7752, [7753]); (7754, [7755]);
  (7756, [7757]); (7758, [7759]); (7760, [7761]); (7762, [7763]);
  (7764, [7765]); (7766, [7767]); (7768, [7769]); (7770, [7771]);
  (7772, [7773]); (7774, [7775]); (7776, [7777]); (7778, [7779]);
  (7780, [7781]); (7782, [7783]); (7784, [7785]); (7786, [7787]);
  (7788, [7789]); (7790, [7791]); (7792, [7793]); (7794, [7795]);
  (7796, [7797]); (7798, [7799]); (7800, [7801]); (7802, [7803]);
  (7804, [7805]); (7806, [7807]); (7808, [7809]); (7810, [7811]);
  (7812, [7813]); (7814, [7815]); (7816, [7817]); (7818, [7819]);
  (7820, [7821]); (7822, [7823]); (7824, [7825]); (7826, [7827]);
  (7828, [7829]); (7838, [223]); (7840, [7841]); (7842, [7843]);
  (7844, [7845]); (7846, [7847]); (7848, [7849]); (7850, [7851]);
  (7852, [7853]); (7854, [7855]); (7856, [7857]); (7858, [7859]);
  (7860, [7861]); (7862, [7863]); (7864, [7865]); (7866, [7867]);
  (7868, [7869]); (7870, [7871]); (7872, [7873]); (7874, [7875]);
  (7876, [7877]); (7878, [7879]); (7880, [7881]); (7882, [7883]);
  (7884, [7885]); (7886, [7887]); (7888, [7889]); (7890, [7891]);
  (7892, [7893]); (7894, [7895]); (7896, [7897]); (7898, [7899]);
  (7900, [7901]); (7902, [7903]); (7904, [7905]); (7906, [7907]);
  (7908, [7909]); (7910, [7911]); (7912, [7913]); (7914, [7915]);
  (7916, [7917]); (7918, [7919]); (7920, [7921]); (7922, [7923]);
  (7924, [7925]); (7926, [7927]); (7928, [7929]); (7930, [7931]);
  (7932, [7933]); (7934, [7935]); (7944, [7936]); (7945, [7937]);
  (7946, [7938]); (7947, [7939]); (7948, [7940]); (7949, [7941]);
  (7950, [7942]); (7951, [7943]); (7960, [7952]); (7961, [7953]);
  (7962, [7954]); (7963, [7955]); (7964, [7956]); (7965, [7957]);
  (7976, [7968]); (7977, [7969]); (7978, [7970]); (7979, [7971]);
  (7980, [7972]); (7981, [7973]); (7982, [7974]); (7983, [7975]);
  (7992, [7984]); (7993, [7985]); (7994, [7986]); (7995, [7987]);
  (7996, [7988]); (7997, [7989]); (7998, [7990]); (7999, [7991]);
  (8008, [8000]); (8009, [8001]); (8010, [8002]); (8011, [8003]);
  (8012, [8004]); (8013, [8005]); (8025, [8017]); (8027, [8019]);
  (8029, [8021]); (8031, [8023]); (8040, [8032]); (8041, [8033]);
  (8042, [8034]); (8043, [8035]); (8044, [8036]); (8045, [8037]);
  (8046, [8038]); (8047, [8039]); (8072, [8064]); (8073, [8065]);
  (8074, [8066]); (8075, [8067]); (8076, [8068]); (8077, [8069]);
  (8078, [8070]); (8079, [8071]); (8088, [8080]); (8089, [8081]);
  (8090, [8082]); (8091, [8083]); (8092, [8084]); (8093, [8085]);
  (8094, [8086]); (8095, [8087]); (8104, [8096]); (8105, [8097]);
  (8106, [8098]); (8107, [8099]); (8108, [8100]); (8109, [8101]);
  (8110, [8102]); (8111, [8103]); (8120, [8112]); (8121, [8113]);
  (8122, [8048]); (8123, [8049]); (8124, [8115]); (8136, [8050]);
  (8137, [8051]); (8138, [8052]); (8139, [8053]); (8140, [8131]);
  (8152, [8144]); (8153, [8145]); (8154, [8054]); (8155, [8055]);
  (8168, [8160]); (8169, [8161]); (8170, [8058]); (8171, [8059]);
  (8172, [8165]); (8184, [8056]); (8185, [8057]); (8186, [8060]);
  (8187, [8061]); (8188, [8179]); (8486, [969]); (8490, [107]);
  (8491, [229]); (8498, [8526]); (8544, [8560]); (8545, [8561]);
  (8546, [8562]); (8547, [8563]); (8548, [8564]); (8549, [8565]);
  (8550, [8566]); (8551, [8567]); (8552, [8568]); (8553, [8569]);
  (8554, [8570]); (8555, [8571]); (8556, [8572]); (8557, [8573]);
  (8558, [8574]); (8559, [8575]); (8579, [8580]); (9398, [9424]);
  (9399, [9425]); (9400, [9426]); (9401, [9427]); (9402, [9428]);
  (9403, [9429]); (9404, [9430]); (9405, [9431]); (9406, [9432]);
  (9407, [9433]); (9408, [9434]); (9409, [9435]); (9410, [9436]);
  (9411, [9437]); (9412, [9438]); (9413, [9439]); (9414, [9440]);
  (9415, [9441]); (9416, [9442]); (9417, [9443]); (9418, [9444]);
  (9419, [9445]); (9420, [9446]); (9421, [9447]); (9422, [9448]);
  (9423, [9449]); (11264, [11312]); (11265, [11313]); (11266, [11314]);
  (11267, [11315]); (11268, [11316]); (11269, [11317]); (11270, [11318]);
  (11271, [11319]); (11272, [11320]); (11273, [11321]); (11274, [11322]);
  (11275, [11323]); (11276, [11324]); (11277, [11325]); (11278, [11326]);
  (11279, [11327]); (11280, [11328]); (11281, [11329]); (11282, [11330]);
  (11283, [11331]); (11284, [11332]); (11285, [11333]); (11286, [11334]);
  (11287, [11335]); (11288, [11336]); (11289, [11337]); (11290, [11338]);
  (11291, [11339]); (11292, [11340]); (11293, [11341]); (11294, [11342]);
  (11295, [11343]); (11296, [11344]); (11297, [11345]); (11298, [11346]);
  (11299, [11347]); (11300, [11348]); (11301, [11349]); (11302, [11350]);
  (11303, [11351]); (11304, [11352]); (11305, [11353]); (11306, [11354]);
  (11307, [11355]); (11308, [11356]); (11309, [11357]); (11310, [11358]);
  (11311, [11359]); (11360, [11361]); (11362, [619]); (11363, [7549]);
  (11364, [637]); (11367, [11368]); (11369, [11370]); (11371, [11372]);
  (11373, [593]); (11374, [625]); (11375, [592]); (11376, [594]);
  (11378, [11379]); (11381, [11382]); (11390, [575]); (11391, [576]);
  (11392, [11393]); (11394, [11395]); (11396, [11397]); (11398, [11399]);
  (11400, [11401]); (11402, [11403]); (11404, [11405]); (11406, [11407]);
  (11408, [11409]); (11410, [11411]); (11412, [11413]); (11414, [11415]);
  (11416, [11417]); (11418, [11419]); (11420, [11421]); (11422, [11423]);
  (11424, [11425]); (11426, [11427]); (11428, [11429]); (11430, [11431]);
  (11432, [11433]); (11434, [11435]); (11436, [11437]); (11438, [11439]);
  (11440, [11441]); (11442, [11443]); (11444, [11445]); (11446, [11447]);
  (11448, [11449]); (11450, [11451]); (11452, [11453]); (11454, [11455]);
  (11456, [11457]); (11458, [11459]); (11460, [11461]); (11462, [11463]);
  (11464, [11465]); (11466, [11467]); (11468, [11469]); (11470, [11471]);
  (11472, [11473]); (11474, [11475]); (11476, [11477]); (11478, [11479]);
  (11480, [11481]); (11482, [11483]); (11484, [11485]); (11486, [11487]);
  (11488, [11489]); (11490, [11491]); (11499, [11500]); (11501, [11502]);
  (11506, [11507]); (42560, [42561]); (42562, [42563]); (42564, [42565]);
  (42566, [42567]); (42568, [42569]); (42570, [42571]); (42572, [42573]);
  (42574, [42575]); (42576, [42577]); (42578, [42579]); (42580, [42581]);
  (42582, [42583]); (42584, [42585]); (42586, [42587]); (42588, [42589]);
  (42590, [42591]); (42592, [42593]); (42594, [42595]); (42596, [42597]);
  (42598, [42599]); (42600, [42601]); (42602, [42603]); (42604, [42605]);
  (42624, [42625]); (42626, [42627]); (42628, [42629]); (42630, [42631]);
  (42632, [42633]); (42634, [42635]); (42636, [42637]); (42638, [42639]);
  (42640, [42641]); (42642, [42643]); (42644, [42645]); (42646, [42647]);
  (42648, [42649]); (42650, [42651]); (42786, [42787]); (42788, [42789]);
  (42790, [42791]); (42792, [42793]); (42794, [42795]); (42796, [42797]);
  (42798, [42799]); (42802, [42803]); (42804, [42805]); (42806, [42807]);
  (42808, [42809]); (42810, [42811]); (42812, [42813]); (42814, [42815]);
  (42816, [42817]); (42818, [42819]); (42820, [42821]); (42822, [42823]);
  (42824, [42825]); (42826, [42827]); (42828, [42829]); (42830, [42831]);
  (42832, [42833]); (42834, [42835]); (42836, [42837]); (42838, [42839]);
  (42840, [42841]); (42842, [42843]); (42844, [42845]); (42846, [42847]);
  (42848, [42849]); (42850, [42851]); (42852, [42853]); (42854, [42855]);
  (42856, [42857]); (42858, [42859]); (42860, [42861]); (42862, [42863]);
  (42873, [42874]); (42875, [42876]); (42877, [7545]); (42878, [42879]);
  (42880, [42881]); (42882, [42883]); (42884, [42885]); (42886, [42887]);
  (42891, [42892]); (42893, [613]); (42896, [42897]); (42898, [42899]);
  (42902, [42903]); (42904, [42905]); (42906, [42907]); (42908, [42909]);
  (42910, [42911]); (42912, [42913]); (42914, [42915]); (42916, [42917]);
  (42918, [42919]); (42920, [42921]); (42922, [614]); (42923, [604]);
  (42924, [609]); (42925, [620]); (42926, [618]); (42928, [670]);
  (42929, [647]); (42930, [669]); (42931, [43859]); (42932, [42933]);
  (42934, [42935]); (42936, [42937]); (42938, [42939]); (42940, [42941]);
  (42942, [42943]); (42944, [42945]); (42946, [42947]); (42948, [42900]);
  (42949, [642]); (42950, [7566]); (42951, [42952]); (42953, [42954]);
  (42960, [42961]); (42966, [42967]); (42968, [42969]); (42997, [42998]);
  (65313, [65345]); (65314, [65346]); (65315, [65347]); (65316, [65348]);
  (65317, [65349]); (65318, [65350]); (65319, [65351]); (65320, [65352]);
  (65321, [65353]); (65322, [65354]); (65323, [65355]); (65324, [65356]);
  (65325, [65357]); (65326, [65358]); (65327, [65359]); (65328, [65360]);
  (65329, [65361]); (65330, [65362]); (65331, [65363]); (65332, [65364]);
  (65333, [65365]); (65334, [65366]); (65335, [65367]); (65336, [65368]);
  (65337, [65369]); (65338, [65370]); (66560, [66600]); (66561, [66601]);
  (66562, [66602]); (66563, [66603]); (66564, [66604]); (66565, [66605]);
  (66566, [66606]); (66567, [66607]); (66568, [66608]); (66569, [66609]);
  (66570, [66610]); (66571, [66611]); (66572, [66612]); (66573, [66613]);
  (66574, [66614]); (66575, [66615]); (66576, [66616]); (66577, [66617]);
  (66578, [66618]); (66579, [66619]); (66580, [66620]); (66581, [66621]);
  (66582, [66622]); (66583, [66623]); (66584, [66624]); (66585, [66625]);
  (66586, [66626]); (66587, [66627]); (66588, [66628]); (66589, [66629]);
  (66590, [66630]); (66591, [66631]); (66592, [66632]); (66593, [66633]);
  (66594, [66634]); (66595, [66635]); (66596, [66636]); (66597, [66637]);
  (66598, [66638]); (66599, [66639]); (66736, [66776]); (66737, [66777]);
  (66738, [66778]); (66739, [66779]); (66740, [66780]); (66741, [66781]);
  (66742, [66782]); (66743, [66783]); (66744, [66784]); (66745, [66785]);
  (66746, [66786]); (66747, [66787]); (66748, [66788]); (66749, [66789]);
  (66750, [66790]); (66751, [66791]); (66752, [66792]); (66753, [66793]);
  (66754, [66794]); (66755, [66795]); (66756, [66796]); (66757, [66797]);
  (66758, [66798]); (66759, [66799]); (66760, [66800]); (66761, [66801]);
  (66762, [66802]); (66763, [66803]); (66764, [66804]); (66765, [66805]);
  (66766, [66806]); (66767, [66807]); (66768, [66808]); (66769, [66809]);
  (66770, [66810]); (66771, [66811]); (66928, [66967]); (66929, [66968]);
  (66930, [66969]); (66931, [66970]); (66932, [66971]); (66933, [66972]);
  (66934, [66973]); (66935, [66974]); (66936, [66975]); (66937, [66976]);
  (66938, [66977]); (66940, [66979]); (66941, [66980]); (66942, [66981]);
  (66943, [66982]); (66944, [66983]); (66945, [66984]); (66946, [66985]);
  (66947, [66986]); (66948, [66987]); (66949, [66988]); (66950, [66989]);
  (66951, [66990]); (66952, [66991]); (66953, [66992]); (66954, [66993]);
  (66956, [66995]); (66957, [66996]); (66958, [66997]); (66959, [66998]);
  (66960, [66999]); (66961, [67000]); (66962, [67001]); (66964, [67003]);
  (66965, [67004]); (68736, [68800]); (68737, [68801]); (68738, [68802]);
  (68739, [68803]); (68740, [68804]); (68741, [68805]); (68742, [68806]);
  (68743, [68807]); (68744, [68808]); (68745, [68809]); (68746, [68810]);
  (68747, [68811]); (68748, [68812]); (68749, [68813]); (68750, [68814]);
  (68751, [68815]); (68752, [68816]); (68753, [68817]); (68754, [68818]);
  (68755, [68819]); (68756, [68820]); (68757, [68821]); (68758, [68822]);
  (68759, [68823]); (68760, [68824]); (68761, [68825]); (68762, [68826]);
  (68763, [68827]); (68764, [68828]); (68765, [68829]); (68766, [68830]);
  (68767, [68831]); (68768, [68832]); (68769, [68833]); (68770, [68834]);
  (68771, [68835]); (68772, [68836]); (68773, [68837]); (68774, [68838]);
  (68775, [68839]); (68776, [68840]); (68777, [68841]); (68778, [68842]);
  (68779, [68843]); (68780, [68844]); (68781, [68845]); (68782, [68846]);
  (68783, [68847]); (68784, [68848]); (68785, [68849]); (68786, [68850]);
  (71840, [71872]); (71841, [71873]); (71842, [71874]); (71843, [71875]);
  (71844, [71876]); (71845, [71877]); (71846, [71878]); (71847, [71879]);
  (71848, [71880]); (71849, [71881]); (71850, [71882]); (71851, [71883]);
  (71852, [71884]); (71853, [71885]); (71854, [71886]); (71855, [71887]);
  (71856, [71888]); (71857, [71889]); (71858, [71890]); (71859, [71891]);
  (71860, [71892]); (71861, [71893]); (71862, [71894]); (71863, [71895]);
  (71864, [71896]); (71865, [71897]); (71866, [71898]); (71867, [71899]);
  (71868, [71900]); (71869, [71901]); (71870, [71902]); (71871, [71903]);
  (93760, [93792]); (93761, [93793]); (93762, [93794]); (93763, [93795]);
  (93764, [93796]); (93765, [93797]); (93766, [93798]); (93767, [93799]);
  (93768, [93800]); (93769, [93801]); (93770, [93802]); (93771, [93803]);
  (93772, [93804]); (93773, [93805]); (93774, [93806]); (93775, [93807]);
  (93776, [93808]); (93777, [93809]); (93778, [93810]); (93779, [93811]);
  (93780, [93812]); (93781, [93813]); (93782, [93814]); (93783, [93815]);
  (93784, [93816]); (93785, [93817]); (93786, [93818]); (93787, [93819]);
  (93788, [93820]); (93789, [93821]); (93790, [93822]); (93791, [93823]);
  (125184, [125218]); (125185, [125219]); (125186, [125220]);
  (125187, [125221]); (125188, [125222]); (125189, [125223]);
  (125190, [125224]); (125191, [125225]); (125192, [125226]);
  (125193, [125227]); (125194, [125228]); (125195, [125229]);
  (125196, [125230]); (125197, [125231]); (125198, [125232]);
  (125199, [125233]); (125200, [125234]); (125201, [125235]);
  (125202, [125236]); (125203, [125237]); (125204, [125238]);
  (125205, [125239]); (125206, [125240]); (125207, [125241]);
  (125208, [125242]); (125209, [125243]); (125210, [125244]);
  (125211, [125245]); (125212, [125246]); (125213, [125247]);
  (125214, [125248]); (125215, [125249]); (125216, [125250]);
  (125217, [125251])
]%N.

Definition cased : list (N * N) := [
  (65, 90); (97, 122); (170, 170); (181, 181); (186, 186); (192, 214);
  (216, 246); (248, 442); (444, 447); (452, 659); (661, 696); (704, 705);
  (736, 740); (837, 837); (880, 883); (886, 887); (890, 893); (895, 895);
  (902, 902); (904, 906); (908, 908); (910, 929); (931, 1013); (1015, 1153);
  (1162, 1327); (1329, 1366); (1376, 1416); (4256, 4293); (4295, 4295);
  (4301, 4301); (4304, 4346); (4349, 4351); (5024, 5109); (5112, 5117);
  (7296, 7304); (7312, 7354); (7357, 7359); (7424, 7615); (7680, 7957);
  (7960, 7965); (7968, 8005); (8008, 8013); (8016, 8023); (8025, 8025);
  (8027, 8027); (8029, 8029); (8031, 8061); (8064, 8116); (8118, 8124);
  (8126, 8126); (8130, 8132); (8134, 8140); (8144, 8147); (8150, 8155);
  (8160, 8172); (8178, 8180); (8182, 8188); (8305, 8305); (8319, 8319);
  (8336, 8348); (8450, 8450); (8455, 8455); (8458, 8467); (8469, 8469);
  (8473, 8477); (8484, 8484); (8486, 8486); (8488, 8488); (8490, 8493);
  (8495, 8500); (8505, 8505); (8508, 8511); (8517, 8521); (8526, 8526);
  (8544, 8575); (8579, 8580); (9398, 9449); (11264, 11492); (11499, 11502);
  (11506, 11507); (11520, 11557); (11559, 11559); (11565, 11565);
  (42560, 42605); (42624, 42653); (42786, 42887); (42891, 42894);
  (42896, 42954); (42960, 42961); (42963, 42963); (42965, 42969);
  (42997, 42998); (43000, 43002); (43824, 43866); (43868, 43880);
  (43888, 43967); (64256, 64262); (64275, 64279); (65313, 65338);
  (65345, 65370); (66560, 66639); (66736, 66771); (66776, 66811);
  (66928, 66938); (66940, 66954); (66956, 66962); (66964, 66965);
  (66967, 66977); (66979, 66993); (66995, 67001); (67003, 67004);
  (67456, 67456); (67459, 67461); (67463, 67504); (67506, 67514);
  (68736, 68786); (68800, 68850); (71840, 71903); (93760, 93823);
  (119808, 119892); (119894, 119964); (119966, 119967); (119970, 119970);
  (119973, 119974); (119977, 119980); (119982, 119993); (119995, 119995);
  (119997, 120003); (120005, 120069); (120071, 120074); (120077, 120084);
  (120086, 120092); (120094, 120121); (120123, 120126); (120128, 120132);
  (120134, 120134); (120138, 120144); (120146, 120485); (120488, 120512);
  (120514, 120538); (120540, 120570); (120572, 120596); (120598, 120628);
  (120630, 120654); (120656, 120686); (120688, 120712); (120714, 120744);
  (120746, 120770); (120772, 120779); (122624, 122633); (122635, 122654);
  (125184, 125251); (127280, 127305); (127312, 127337); (127344, 127369)
]%N.

Definition caseIgnorable : list (N * N) := [
  (39, 39); (46, 46); (58, 58); (94, 94); (96, 96); (168, 168); (173, 173);
  (175, 175); (180, 180); (183, 184); (688, 879); (884, 885); (890, 890);
  (900, 901); (903, 903); (1155, 1161); (1369, 1369); (1375, 1375);
  (1425, 1469); (1471, 1471); (1473, 1474); (1476, 1477); (1479, 1479);
  (1524, 1524); (1536, 1541); (1552, 1562); (1564, 1564); (1600, 1600);
  (1611, 1631); (1648, 1648); (1750, 1757); (1759, 1768); (1770, 1773);
  (1807, 1807); (1809, 1809); (1840, 1866); (1958, 1968); (2027, 2037);
  (2042, 2042); (2045, 2045); (2070, 2093); (2137, 2139); (2184, 2184);
  (2192, 2193); (2200, 2207); (2249, 2306); (2362, 2362); (2364, 2364);
  (2369, 2376); (2381, 2381); (2385, 2391); (2402, 2403); (2417, 2417);
  (2433, 2433); (2492, 2492); (2497, 2500); (2509, 2509); (2530, 2531);
  (2558, 2558); (2561, 2562); (2620, 2620); (2625, 2626); (2631, 2632);
  (2635, 2637); (2641, 2641); (2672, 2673); (2677, 2677); (2689, 2690);
  (2748, 2748); (2753, 2757); (2759, 2760); (2765, 2765); (2786, 2787);
  (2810, 2815); (2817, 2817); (2876, 2876); (2879, 2879); (2881, 2884);
  (2893, 2893); (2901, 2902); (2914, 2915); (2946, 2946); (3008, 3008);
  (3021, 3021); (3072, 3072); (3076, 3076); (3132, 3132); (3134, 3136);
  (3142, 3144); (3146, 3149); (3157, 3158); (3170, 3171); (3201, 3201);
  (3260, 3260); (3263, 3263); (3270, 3270); (3276, 3277); (3298, 3299);
  (3328, 3329); (3387, 3388); (3393, 3396); (3405, 3405); (3426, 3427);
  (3457, 3457); (3530, 3530); (3538, 3540); (3542, 3542); (3633, 3633);
  (3636, 3642); (3654, 3662); (3761, 3761); (3764, 3772); (3782, 3782);
  (3784, 3789); (3864, 3865); (3893, 3893); (3895, 3895); (3897, 3897);
  (3953, 3966); (3968, 3972); (3974, 3975); (3981, 3991); (3993, 4028);
  (4038, 4038); (4141, 4144); (4146, 4151); (4153, 4154); (4157, 4158);
  (4184, 4185); (4190, 4192); (4209, 4212); (4226, 4226); (4229, 4230);
  (4237, 4237); (4253, 4253); (4348, 4348); (4957, 4959); (5906, 5908);
  (5938, 5939); (5970, 5971); (6002, 6003); (6068, 6069); (6071, 6077);
  (6086, 6086); (6089, 6099); (6103, 6103); (6109, 6109); (6155, 6159);
  (6211, 6211); (6277, 6278); (6313, 6313); (6432, 6434); (6439, 6440);
  (6450, 6450); (6457, 6459); (6679, 6680); (6683, 6683); (6742, 6742);
  (6744, 6750); (6752, 6752); (6754, 6754); (6757, 6764); (6771, 6780);
  (6783, 6783); (6823, 6823); (6832, 6862); (6912, 6915); (6964, 6964);
  (6966, 6970); (6972, 6972); (6978, 6978); (7019, 7027); (7040, 7041);
  (7074, 7077); (7080, 7081); (7083, 7085); (7142, 7142); (7144, 7145);
  (7149, 7149); (7151, 7153); (7212, 7219); (7222, 7223); (7288, 7293);
  (7376, 7378); (7380, 7392); (7394, 7400); (7405, 7405); (7412, 7412);
  (7416, 7417); (7468, 7530); (7544, 7544); (7579, 7679); (8125, 8125);
  (8127, 8129); (8141, 8143); (8157, 8159); (8173, 8175); (8189, 8190);
  (8203, 8207); (8216, 8217); (8228, 8228); (8231, 8231); (8234, 8238);
  (8288, 8292); (8294, 8303); (8305, 8305); (8319, 8319); (8336, 8348);
  (8400, 8432); (11388, 11389); (11503, 11505); (11631, 11631);
  (11647, 11647); (11744, 11775); (11823, 11823); (12293, 12293);
  (12330, 12333); (12337, 12341); (12347, 12347); (12441, 12446);
  (12540, 12542); (40981, 40981); (42232, 42237); (42508, 42508);
  (42607, 42610); (42612, 42621); (42623, 42623); (42652, 42655);
  (42736, 42737); (42752, 42785); (42864, 42864); (42888, 42890);
  (42994, 42996); (43000, 43001); (43010, 43010); (43014, 43014);
  (43019, 43019); (43045, 43046); (43052, 43052); (43204, 43205);
  (43232, 43249); (43263, 43263); (43302, 43309); (43335, 43345);
  (43392, 43394); (43443, 43443); (43446, 43449); (43452, 43453);
  (43471, 43471); (43493, 43494); (43561, 43566); (43569, 43570);
  (43573, 43574); (43587, 43587); (43596, 43596); (43632, 43632);
  (43644, 43644); (43696, 43696); (43698, 43700); (43703, 43704);
  (43710, 43711); (43713, 43713); (43741, 43741); (43756, 43757);
  (43763, 43764); (43766, 43766); (43867, 43871); (43881, 43883);
  (44005, 44005); (44008, 44008); (44013, 44013); (64286, 64286);
  (64434, 64450); (65024, 65039); (65043, 65043); (65056, 65071);
  (65106, 65106); (65109, 65109); (65279, 65279); (65287, 65287);
  (65294, 65294); (65306, 65306); (65342, 65342); (65344, 65344);
  (65392, 65392); (65438, 65439); (65507, 65507); (65529, 65531);
  (66045, 66045); (66272, 66272); (66422, 66426); (67456, 67461);
  (67463, 67504); (67506, 67514); (68097, 68099); (68101, 68102);
  (68108, 68111); (68152, 68154); (68159, 68159); (68325, 68326);
  (68900, 68903); (69291, 69292); (69446, 69456); (69506, 69509);
  (69633, 69633); (69688, 69702); (69744, 69744); (69747, 69748);
  (69759, 69761); (69811, 69814); (69817, 69818); (69821, 69821);
  (69826, 69826); (69837, 69837); (69888, 69890); (69927, 69931);
  (69933, 69940); (70003, 70003); (70016, 70017); (70070, 70078);
  (70089, 70092); (70095, 70095); (70191, 70193); (70196, 70196);
  (70198, 70199); (70206, 70206); (70367, 70367); (70371, 70378);
  (70400, 70401); (70459, 70460); (70464, 70464); (70502, 70508);
  (70512, 70516); (70712, 70719); (70722, 70724); (70726, 70726);
  (70750, 70750); (70835, 70840); (70842, 70842); (70847, 70848);
  (70850, 70851); (71090, 71093); (71100, 71101); (71103, 71104);
  (71132, 71133); (71219, 71226); (71229, 71229); (71231, 71232);
  (71339, 71339); (71341, 71341); (71344, 71349); (71351, 71351);
  (71453, 71455); (71458, 71461); (71463, 71467); (71727, 71735);
  (71737, 71738); (71995, 71996); (71998, 71998); (72003, 72003);
  (72148, 72151); (72154, 72155); (72160, 72160); (72193, 72202);
  (72243, 72248); (72251, 72254); (72263, 72263); (72273, 72278);
  (72281, 72283); (72330, 72342); (72344, 72345); (72752, 72758);
  (72760, 72765); (72767, 72767); (72850, 72871); (72874, 72880);
  (72882, 72883); (72885, 72886); (73009, 73014); (73018, 73018);
  (73020, 73021); (73023, 73029); (73031, 73031); (73104, 73105);
  (73109, 73109); (73111, 73111); (73459, 73460); (78896, 78904);
  (92912, 92916); (92976, 92982); (92992, 92995); (94031, 94031);
  (94095, 94111); (94176, 94177); (94179, 94180); (110576, 110579);
  (110581, 110587); (110589, 110590); (113821, 113822); (113824, 113827);
  (118528, 118573); (118576, 118598); (119143, 119145); (119155, 119170);
  (119173, 119179); (119210, 119213); (119362, 119364); (121344, 121398);
  (121403, 121452); (121461, 121461); (121476, 121476); (121499, 121503);
  (121505, 121519); (122880, 122886); (122888, 122904); (122907, 122913);
  (122915, 122916); (122918, 122922); (123184, 123197); (123566, 123566);
  (123628, 123631); (125136, 125142); (125252, 125259); (127995, 127999);
  (917505, 917505); (917536, 917631); (917760, 917999)
]%N.

End Unicode14.

(** ** JavaScript strings in full: sequences of UTF-16 code units

    The router's model above keeps a string as 8-bit characters.  Here a
    string is the list of its 16-bit code units, and [trim] and
    [toLowerCase] are the ECMAScript ones on every string: [trim] strips
    the WhiteSpace and LineTerminator code points, [toLowerCase] is the
    Unicode default case conversion over the code points of the string,
    the context-sensitive Final_Sigma mapping included. *)

Module Utf16.

Definition isHighSurrogate (u : N) : bool := ((55296 <=? u) && (u <=? 56319))%N.

Definition isLowSurrogate (u : N) : bool := ((56320 <=? u) && (u <=? 57343))%N.

Definition isSurrogate (u : N) : bool := isHighSurrogate u || isLowSurrogate u.

(** WhiteSpace (TAB, VT, FF, ZWNBSP U+FEFF and the category Zs: SPACE,
    U+00A0, U+1680, U+2000..U+200A, U+202F, U+205F, U+3000) and
    LineTerminator (LF, CR, U+2028, U+2029). *)
Definition isWhiteSpace (u : N) : bool :=
  ((9 <=? u) && (u <=? 13) || (u =? 32) || (u =? 160) || (u =? 5760)
   || (8192 <=? u) && (u <=? 8202) || (u =? 8232) || (u =? 8233)
   || (u =? 8239) || (u =? 8287) || (u =? 12288) || (u =? 65279))%N.

Fixpoint trimStart (s : list N) : list N :=
  match s with
  | [] => []
  | u :: s' => if isWhiteSpace u then trimStart s' else s
  end.

Fixpoint trimEnd (s : list N) : list N :=
  match s with
  | [] => []
  | u :: s' =>
      match trimEnd s' with
      | [] => if isWhiteSpace u then [] else [u]
      | t => u :: t
      end
  end.

Definition trim (s : list N) : list N := trimEnd (trimStart s).

(** The code point of a surrogate pair. *)
Definition pairPoint (high low : N) : N :=
  (65536 + (high - 55296) * 1024 + (low - 56320))%N.

(** The code points of a string: a high surrogate followed by a low one
    is one code point, any other code unit is a code point by itself. *)
Fixpoint decode (s : list N) : list N :=
  match s with
  | [] => []
  | u :: rest =>
      match rest with
      | low :: rest' =>
          if isHighSurrogate u && isLowSurrogate low
          then pairPoint u low :: decode rest'
          else u :: decode rest
      | [] => [u]
      end
  end.

(** The code units of a code point; a number that is no code point is
    left as it is. *)
Definition encode (c : N) : list N :=
  if (c <? 65536)%N then [c]
  else if (c <? 1114112)%N
       then [(55296 + (c - 65536) / 1024)%N; (56320 + (c - 65536) mod 1024)%N]
       else [c].

Definition encodeAll (points : list N) : list N := flat_map encode points.

(** The casing data of the Unicode Character Database. *)
Record UnicodeData : Type := {
  lowercase : list (N * list N);
  cased : list (N * N);
  caseIgnorable : list (N * N);
}.

Fixpoint lookup (c : N) (table : list (N * list N)) : option (list N) :=
  match table with
  | [] => None
  | (k, mapping) :: table' => if (k =? c)%N then Some mapping else lookup c table'
  end.

Definition inRanges (c : N) (ranges : list (N * N)) : bool :=
  existsb (fun range => (fst range <=? c) && (c <=? snd range))%N ranges.

Section WithUnicodeData.

Variable ucd : UnicodeData.

(** Lowercase_Mapping of a code point. *)
Definition lowercaseMapping (c : N) : list N :=
  match lookup c (lowercase ucd) with
  | Some mapping => mapping
  | None => [c]
  end.

(** Whether the code points, read from the nearest on, are case-ignorable
    ones up to a cased letter; a code point that is both counts as
    case-ignorable. *)
Fixpoint reachesCasedLetter (points : list N) : bool :=
  match points with
  | [] => false
  | c :: points' =>
      if inRanges c (caseIgnorable ucd) then reachesCasedLetter points'
      else inRanges c (cased ucd)
  end.

(** Final_Sigma: preceded by a cased letter and not followed by one, over
    case-ignorable code points; [before] is read backwards. *)
Definition finalSigma (before after : list N) : bool :=
  reachesCasedLetter before && negb (reachesCasedLetter after).

(** The lowercase of one code point between those before it (nearest
    first) and those after it. *)
Definition lowerPoint (before : list N) (c : N) (after : list N) : list N :=
  if (c =? 931)%N
  then (if finalSigma before after then [962%N] else [963%N])
  else lowercaseMapping c.

Fixpoint lowerFrom (before points : list N) : list N :=
  match points with
  | [] => []
  | c :: after => lowerPoint before c after ++ lowerFrom (c :: before) after
  end.

(** [String.prototype.toLowerCase] *)
Definition toLowerCaseWith (s : list N) : list N :=
  encodeAll (lowerFrom [] (decode s)).

(** [private prepareDomain(domain)] on a string in full. *)
Definition prepareDomainWith (domain : list N) : list N :=
  match domain with
  | [] => []
  | _ => toLowerCaseWith (trim domain)
  end.

(** A code point that lowercasing leaves alone in every context. *)
Definition stable (c : N) : bool :=
  match lookup c (lowercase ucd) with
  | Some _ => false
  | None => negb (c =? 931)%N
  end.

(** The check on the data that the idempotence of [prepareDomain] rests
    on: a lowercase mapping is never empty and consists of code points
    that are stable, no surrogates and no white space; no surrogate has a
    mapping; the two small sigmas are stable. *)
Definition mappingOk (entry : N * list N) : bool :=
  negb (isSurrogate (fst entry))
  && match snd entry with [] => false | _ => true end
  && forallb (fun x => stable x && negb (isSurrogate x) && negb (isWhiteSpace x))
             (snd entry).

Definition wellFormed : bool :=
  forallb mappingOk (lowercase ucd) && stable 962 && stable 963.

End WithUnicodeData.

Definition unicode14 : UnicodeData :=
  {| lowercase := Unicode14.lowercase;
     cased := Unicode14.cased;
     caseIgnorable := Unicode14.caseIgnorable |}.

(** [String.prototype.toLowerCase] *)
Definition toLowerCase (s : list N) : list N := toLowerCaseWith unicode14 s.

(** [private prepareDomain(domain)] *)
Definition prepareDomain (domain : list N) : list N :=
  prepareDomainWith unicode14 domain.

(** The code units of a string of the router's model. *)
Fixpoint ofLatin1 (s : string) : list N :=
  match s with
  | EmptyString => []
  | String c s' => N_of_ascii c :: ofLatin1 s'
  end.

(** The first element of a list, if any, has the property. *)
Definition headIs (P : N -> bool) (l : list N) : bool :=
  match l with
  | [] => true
  | x :: _ => P x
  end.

(** The last element of a list, if any, has the property. *)
Fixpoint lastIs (P : N -> bool) (l : list N) : bool :=
  match l with
  | [] => true
  | [x] => P x
  | _ :: l' => lastIs P l'
  end.

Definition notWhiteSpace (u : N) : bool := negb (isWhiteSpace u).

(** The list starts with a low surrogate. *)
Definition headLow (l : list N) : bool :=
  match l with
  | [] => false
  | x :: _ => isLowSurrogate x
  end.

(** No high surrogate is followed at once by a low one. *)
Fixpoint wellPaired (points : list N) : bool :=
  match points with
  | [] => true
  | c :: points' =>
      negb (isHighSurrogate c && headLow points') && wellPaired points'
  end.

(** What a lowercase mapping may hold, by [wellFormed]. *)
Definition outOk (ucd : UnicodeData) (x : N) : bool :=
  stable ucd x && negb (isSurrogate x) && negb (isWhiteSpace x).

End Utf16.

(** * Facts about the embedding *)

Module JsStringFacts.
Import JsString.

(** *** Character facts, by enumeration of the 256 code units *)

Ltac by_cases_on_char c :=
  destruct c as [[] [] [] [] [] [] [] []]; vm_compute; reflexivity.

Lemma lowerChar_idem c : lowerChar (lowerChar c) = lowerChar c.
Proof. by_cases_on_char c. Qed.

Lemma isWhiteSpace_lowerChar c : isWhiteSpace (lowerChar c) = isWhiteSpace c.
Proof. by_cases_on_char c. Qed.

(** *** String facts *)

Lemma toLowerCase_idem s : toLowerCase (toLowerCase s) = toLowerCase s.
Proof.
  induction s as [|c s IH]; simpl; [reflexivity|].
  now rewrite lowerChar_idem, IH.
Qed.

Lemma toLowerCase_empty s : toLowerCase s = EmptyString -> s = EmptyString.
Proof. destruct s; simpl; [reflexivity | discriminate]. Qed.

Lemma trimStart_toLowerCase s :
  trimStart (toLowerCase s) = toLowerCase (trimStart s).
Proof.
  induction s as [|c s IH]; simpl; [reflexivity|].
  rewrite isWhiteSpace_lowerChar.
  destruct (isWhiteSpace c); [exact IH | reflexivity].
Qed.

Lemma trimEnd_toLowerCase s :
  trimEnd (toLowerCase s) = toLowerCase (trimEnd s).
Proof.
  induction s as [|c s IH]; simpl; [reflexivity|].
  rewrite IH, isWhiteSpace_lowerChar.
  destruct (trimEnd s) as [|d t]; simpl.
  - destruct (isWhiteSpace c); reflexivity.
  - reflexivity.
Qed.

Lemma trim_toLowerCase s : trim (toLowerCase s) = toLowerCase (trim s).
Proof. unfold trim. now rewrite trimStart_toLowerCase, trimEnd_toLowerCase. Qed.

Lemma trimStart_clean s : startsClean s = true -> trimStart s = s.
Proof.
  destruct s as [|c s]; simpl; [reflexivity|].
  now destruct (isWhiteSpace c).
Qed.

Lemma startsClean_trimStart s : startsClean (trimStart s) = true.
Proof.
  induction s as [|c s IH]; simpl; [reflexivity|].
  destruct (isWhiteSpace c) eqn:E; [exact IH | simpl; now rewrite E].
Qed.

Lemma startsClean_trimEnd s : startsClean s = true -> startsClean (trimEnd s) = true.
Proof.
  destruct s as [|c s]; simpl; [reflexivity|].
  intros H. destruct (trimEnd s); simpl.
  - destruct (isWhiteSpace c) eqn:W; [discriminate | simpl; now rewrite W].
  - exact H.
Qed.

Lemma trimEnd_idem s : trimEnd (trimEnd s) = trimEnd s.
Proof.
  induction s as [|c s IH]; simpl; [reflexivity|].
  destruct (trimEnd s) as [|d t] eqn:E.
  - destruct (isWhiteSpace c) eqn:W; simpl; [reflexivity | now rewrite W].
  - simpl in *. now rewrite IH.
Qed.

Lemma trim_idem s : trim (trim s) = trim s.
Proof.
  unfold trim.
  rewrite (trimStart_clean (trimEnd (trimStart s))).
  - apply trimEnd_idem.
  - apply startsClean_trimEnd, startsClean_trimStart.
Qed.

End JsStringFacts.

(** ** Canonicalization *)

Lemma prepareDomain_unfold d :
  prepareDomain d = JsString.toLowerCase (JsString.trim d).
Proof. destruct d; reflexivity. Qed.

Lemma prepareDomain_idem d : prepareDomain (prepareDomain d) = prepareDomain d.
Proof.
  rewrite !prepareDomain_unfold.
  rewrite JsStringFacts.trim_toLowerCase, JsStringFacts.toLowerCase_idem.
  now rewrite JsStringFacts.trim_idem.
Qed.

(** The selection looks at its argument only through [prepareDomain]. *)
Lemma getNamingMethod_prepareDomain r d :
  getNamingMethod r (prepareDomain d) = getNamingMethod r d.
Proof. unfold getNamingMethod. now rewrite prepareDomain_idem. Qed.

Lemma getNamingMethodOrThrow_prepareDomain r d :
  getNamingMethodOrThrow r (prepareDomain d) = getNamingMethodOrThrow r d.
Proof.
  unfold getNamingMethodOrThrow.
  now rewrite getNamingMethod_prepareDomain, prepareDomain_idem.
Qed.

(** [getNamingMethodOrThrow] with its canonicalizations merged into one. *)
Lemma getNamingMethodOrThrow_unfold r d :
  getNamingMethodOrThrow r d =
  match getNamingMethod r d with
  | None => Throw (ResolutionError UnsupportedDomain (withDomain (prepareDomain d)))
  | Some method => Ok method
  end.
Proof.
  unfold getNamingMethodOrThrow. now rewrite getNamingMethod_prepareDomain.
Qed.

Lemma addressOrThrow_prepareDomain r d t :
  addressOrThrow r (prepareDomain d) t = addressOrThrow r d t.
Proof.
  unfold addressOrThrow.
  now rewrite getNamingMethodOrThrow_prepareDomain, prepareDomain_idem.
Qed.

Lemma namehash_prepareDomain r d :
  namehash r (prepareDomain d) = namehash r d.
Proof.
  unfold namehash.
  now rewrite getNamingMethodOrThrow_prepareDomain, prepareDomain_idem.
Qed.

(** ** The source normalizer *)

Lemma normalizeSource_outside_union v p :
  inSourceUnion v = false ->
  normalizeSource v p = Throw (PlainError "Unsupported configuration").
Proof. destruct v as [| | | | | | | |o]; simpl; intros H; (discriminate || reflexivity). Qed.

(** The only error the normalizer raises. *)
Lemma normalizeSource_throws v p e :
  normalizeSource v p = Throw e -> e = PlainError "Unsupported configuration".
Proof.
  destruct v as [| |b| | | | | |o]; simpl; unfold normalizeSource; simpl;
    intros H; try discriminate; now inversion H.
Qed.

(** ** First match of a scan *)

Lemma find_first_match {A : Type} (f : A -> bool) (l : list A) (x : A) :
  List.find f l = Some x ->
  f x = true /\
  exists before after,
    l = (before ++ x :: after)%list /\ forallb (fun y => negb (f y)) before = true.
Proof.
  induction l as [|y l IH]; simpl; [discriminate|].
  destruct (f y) eqn:E.
  - intros [= ->]. split; [exact E|]. now exists [], l.
  - intros H. destruct (IH H) as (Hx & before & after & -> & Hb).
    split; [exact Hx|]. exists (y :: before), after. simpl. now rewrite E.
Qed.

Lemma getNamingMethod_firstInPriorityOrder r d :
  getNamingMethod r d = firstInPriorityOrder r (prepareDomain d).
Proof.
  unfold getNamingMethod, getResolutionMethods, firstInPriorityOrder.
  destruct r as [[] e z c a]; simpl.
  - destruct e as [e|], z as [z|], c as [c|]; simpl;
      repeat match goal with
        | |- context [NamingService.isSupportedDomain ?m ?x] =>
            destruct (NamingService.isSupportedDomain m x)
        end; reflexivity.
  - destruct a as [a|]; simpl; [|reflexivity].
    now destruct (NamingService.isSupportedDomain a (prepareDomain d)).
Qed.

(** ** The constructor *)

Ltac bind_inv H :=
  match type of H with
  | bind ?x _ = Ok _ =>
      let E := fresh "E" in
      destruct x eqn:E; simpl in H; [|discriminate H]
  end.

Lemma construct_tag (new : gmap string JsValue -> Result NamingService)
    (tag : ResolutionMethod) source field :
  (forall definition service,
      new definition = Ok service -> NamingService.name service = tag) ->
  construct new source = Ok field -> hasTag tag field.
Proof.
  intros Hnew. destruct source as [|definition]; simpl.
  - intros [= <-]. exact I.
  - intros H. bind_inv H. injection H as <-. simpl. eauto.
Qed.

Lemma newEns_tag env definition service :
  newEns env definition = Ok service -> NamingService.name service = Named ENS.
Proof. unfold newEns. intros H. bind_inv H. now injection H as <-. Qed.

Lemma newZns_tag env definition service :
  newZns env definition = Ok service -> NamingService.name service = Named ZNS.
Proof. unfold newZns. intros H. bind_inv H. now injection H as <-. Qed.

Lemma newCns_tag env definition service :
  newCns env definition = Ok service -> NamingService.name service = Named CNS.
Proof. unfold newCns. intros H. bind_inv H. now injection H as <-. Qed.

Lemma newUdapi_tag env apiConfig service :
  newUdapi env apiConfig = Ok service -> NamingService.name service = UDAPI.
Proof. unfold newUdapi. intros H. bind_inv H. now injection H as <-. Qed.

(** What a successful construction in blockchain mode went through. *)
Lemma constructor_blockchain_mode env o r :
  truthyBlockchain o = true ->
  constructor env o = Ok r ->
  let c := blockchainObject o in
  exists ensSource znsSource cnsSource,
    normalizeSource (cfg_ens c) (cfg_web3Provider c) = Ok ensSource
    /\ normalizeSource (cfg_zns c) JUndefined = Ok znsSource
    /\ normalizeSource (cfg_cns c) (cfg_web3Provider c) = Ok cnsSource
    /\ construct (newEns env) ensSource = Ok (ens r)
    /\ construct (newZns env) znsSource = Ok (zns r)
    /\ construct (newCns env) cnsSource = Ok (cns r)
    /\ blockchain r = true
    /\ api r = None.
Proof.
  unfold truthyBlockchain, constructor, blockchainObject.
  destruct (opt_blockchain o) as [[[]|c]|]; simpl; intros Ht H;
    try discriminate Ht;
    repeat bind_inv H; injection H as <-; simpl;
    do 3 eexists; repeat split; eassumption.
Qed.

(** What a successful construction in API mode went through. *)
Lemma constructor_api_mode env o r :
  truthyBlockchain o = false ->
  constructor env o = Ok r ->
  exists udapi,
    newUdapi env (default (DefaultAPI env) (opt_api o)) = Ok udapi
    /\ r = {| blockchain := false;
              ens := None; zns := None; cns := None; api := Some udapi |}.
Proof.
  unfold truthyBlockchain, constructor.
  destruct (opt_blockchain o) as [[[]|c]|]; simpl; intros Ht H;
    try discriminate Ht.
  bind_inv H. injection H as <-. eauto.
Qed.

Lemma constructor_tags env o r :
  constructor env o = Ok r ->
  hasTag (Named ENS) (ens r) /\ hasTag (Named ZNS) (zns r)
  /\ hasTag (Named CNS) (cns r) /\ hasTag UDAPI (api r)
  /\ blockchain r = truthyBlockchain o.
Proof.
  intros H. destruct (truthyBlockchain o) eqn:Ht.
  - destruct (constructor_blockchain_mode env o r Ht H)
      as (es & zs & cs & _ & _ & _ & He & Hz & Hc & Hb & Ha).
    rewrite Ha, Hb. repeat split.
    + exact (construct_tag _ _ _ _ (newEns_tag env) He).
    + exact (construct_tag _ _ _ _ (newZns_tag env) Hz).
    + exact (construct_tag _ _ _ _ (newCns_tag env) Hc).
  - destruct (constructor_api_mode env o r Ht H) as (u & Hu & ->). simpl.
    repeat split. exact (newUdapi_tag env _ _ Hu).
Qed.

(** In a constructed instance the ENS-like backend is found by its tag
    exactly when the field [ens] is set. *)
Lemma find_ENS_constructed env o r :
  constructor env o = Ok r ->
  List.find (fun m : NamingService => bool_decide (NamingService.name m = Named ENS))
            (getResolutionMethods r)
  = ens r
  /\ (blockchain r = false -> ens r = None).
Proof.
  intros H. destruct (constructor_tags env o r H) as (He & Hz & Hc & Ha & Hb).
  destruct (truthyBlockchain o) eqn:Ht.
  - split; [|rewrite Hb; discriminate].
    unfold getResolutionMethods. rewrite Hb.
    destruct (ens r) as [e|], (zns r) as [z|], (cns r) as [c|]; simpl in *;
      rewrite ?He, ?Hz, ?Hc; reflexivity.
  - destruct (constructor_api_mode env o r Ht H) as (u & Hu & ->). simpl in *.
    split; [|reflexivity].
    unfold getResolutionMethods. simpl. now rewrite Ha.
Qed.

(** ** Entry points that canonicalize their domain

    Every public entry point that takes a domain, [ipfsRedirect] apart,
    starts with [domain = this.prepareDomain(domain)]: called on a domain
    or on its canonical form it does the same. *)

Ltac canonical_entry :=
  intros;
  repeat match goal with
    | |- context [prepareDomain (prepareDomain ?d)] => rewrite (prepareDomain_idem d)
    end;
  reflexivity.

Lemma resolve_prepareDomain env r d :
  resolve env r (prepareDomain d) = resolve env r d.
Proof. unfold resolve. canonical_entry. Qed.

Lemma address_prepareDomain r d t :
  address r (prepareDomain d) t = address r d t.
Proof. unfold address. canonical_entry. Qed.

Lemma lookups_prepareDomain r d :
  chatId r (prepareDomain d) = chatId r d
  /\ chatPk r (prepareDomain d) = chatPk r d
  /\ ipfsHash r (prepareDomain d) = ipfsHash r d
  /\ httpUrl r (prepareDomain d) = httpUrl r d
  /\ email r (prepareDomain d) = email r d
  /\ resolver r (prepareDomain d) = resolver r d
  /\ owner r (prepareDomain d) = owner r d
  /\ getAllKeys r (prepareDomain d) = getAllKeys r d
  /\ (forall k, record r (prepareDomain d) k = record r d k).
Proof.
  unfold chatId, chatPk, ipfsHash, httpUrl, email, resolver, owner, getAllKeys,
    record.
  repeat split; canonical_entry.
Qed.

Lemma predicates_prepareDomain r d :
  isSupportedDomain r (prepareDomain d) = isSupportedDomain r d
  /\ isSupportedDomainInNetwork r (prepareDomain d) = isSupportedDomainInNetwork r d
  /\ serviceName r (prepareDomain d) = serviceName r d
  /\ (forall h, isValidHash r (prepareDomain d) h = isValidHash r d h).
Proof.
  unfold isSupportedDomain, isSupportedDomainInNetwork, serviceName, isValidHash.
  repeat split; canonical_entry.
Qed.

(** What [ipfsRedirect] hands to the selected backend. *)
Lemma ipfsRedirect_unfold r d :
  ipfsRedirect r d =
  match getNamingMethod r d with
  | None => Throw (ResolutionError UnsupportedDomain (withDomain (prepareDomain d)))
  | Some method => NamingService.record method d "ipfs.redirect_domain.value"
  end.
Proof.
  unfold ipfsRedirect. rewrite getNamingMethodOrThrow_unfold.
  now destruct (getNamingMethod r d).
Qed.

(** ** Canonical form of a domain *)

Module CanonicalFacts.
Import JsString Canonical.

Lemma isUpper_lowerChar c : isUpper (lowerChar c) = false.
Proof. JsStringFacts.by_cases_on_char c. Qed.

Lemma lowerChar_fixed c : lowerChar c = c <-> isUpper c = false.
Proof.
  split.
  - intros H. rewrite <- H. apply isUpper_lowerChar.
  - intros H. unfold lowerChar. now rewrite H.
Qed.

Lemma noUpper_toLowerCase s : noUpper (toLowerCase s) = true.
Proof.
  induction s as [|c s IH]; simpl; [reflexivity|].
  now rewrite isUpper_lowerChar, IH.
Qed.

Lemma toLowerCase_fixed s : toLowerCase s = s <-> noUpper s = true.
Proof.
  induction s as [|c s IH]; simpl; [tauto|].
  rewrite andb_true_iff, negb_true_iff, <- IH, <- lowerChar_fixed.
  split; [intros [= Hc Hs]; tauto | intros [-> ->]; reflexivity].
Qed.

Lemma length_toLowerCase s : String.length (toLowerCase s) = String.length s.
Proof. induction s as [|c s IH]; simpl; congruence. Qed.

Lemma length_trimStart s : String.length (trimStart s) <= String.length s.
Proof.
  induction s as [|c s IH]; simpl; [lia|].
  destruct (isWhiteSpace c); simpl; lia.
Qed.

Lemma length_trimEnd s : String.length (trimEnd s) <= String.length s.
Proof.
  induction s as [|c s IH]; simpl; [lia|].
  destruct (trimEnd s); [destruct (isWhiteSpace c)|]; simpl in *; lia.
Qed.

Lemma trimStart_fixed s : trimStart s = s <-> startsClean s = true.
Proof.
  split; [|apply JsStringFacts.trimStart_clean].
  intros H. rewrite <- H. apply JsStringFacts.startsClean_trimStart.
Qed.

Lemma endsClean_trimEnd s : endsClean (trimEnd s) = true.
Proof.
  induction s as [|c s IH]; simpl; [reflexivity|].
  destruct (trimEnd s) as [|d t] eqn:E.
  - destruct (isWhiteSpace c) eqn:W; simpl; [reflexivity | now rewrite W].
  - exact IH.
Qed.

Lemma trimEnd_clean s : endsClean s = true -> trimEnd s = s.
Proof.
  induction s as [|c s IH]; [reflexivity|].
  destruct s as [|d t].
  - simpl. now destruct (isWhiteSpace c).
  - intros H. change (endsClean (String d t) = true) in H.
    specialize (IH H). change (trimEnd (String c (String d t)))
      with (match trimEnd (String d t) with
            | EmptyString =>
                if isWhiteSpace c then EmptyString else String c EmptyString
            | u => String c u
            end).
    now rewrite IH.
Qed.

Lemma trimEnd_fixed s : trimEnd s = s <-> endsClean s = true.
Proof.
  split; [|apply trimEnd_clean].
  intros H. rewrite <- H. apply endsClean_trimEnd.
Qed.

Lemma startsClean_toLowerCase s : startsClean (toLowerCase s) = startsClean s.
Proof. destruct s; simpl; [reflexivity|]. now rewrite JsStringFacts.isWhiteSpace_lowerChar. Qed.

Lemma endsClean_toLowerCase s : endsClean (toLowerCase s) = endsClean s.
Proof.
  induction s as [|c s IH]; [reflexivity|].
  destruct s as [|d t]; simpl in *.
  - now rewrite JsStringFacts.isWhiteSpace_lowerChar.
  - exact IH.
Qed.

Lemma trim_clean s : startsClean (trim s) = true /\ endsClean (trim s) = true.
Proof.
  unfold trim. split.
  - apply JsStringFacts.startsClean_trimEnd, JsStringFacts.startsClean_trimStart.
  - apply endsClean_trimEnd.
Qed.

Lemma trimStart_allWhiteSpace ws : allWhiteSpace ws = true -> trimStart ws = EmptyString.
Proof.
  induction ws as [|c ws IH]; simpl; [reflexivity|].
  rewrite andb_true_iff. intros [-> H]. auto.
Qed.

Lemma trimStart_padding ws s :
  allWhiteSpace ws = true -> trimStart (ws ++ s) = trimStart s.
Proof.
  induction ws as [|c ws IH]; simpl; [reflexivity|].
  rewrite andb_true_iff. intros [-> H]. auto.
Qed.

Lemma trimEnd_allWhiteSpace ws : allWhiteSpace ws = true -> trimEnd ws = EmptyString.
Proof.
  induction ws as [|c ws IH]; simpl; [reflexivity|].
  rewrite andb_true_iff. intros [-> H]. now rewrite IH.
Qed.

Lemma trimEnd_padding s ws :
  allWhiteSpace ws = true -> trimEnd (s ++ ws) = trimEnd s.
Proof.
  intros H. induction s as [|c s IH]; simpl.
  - now apply trimEnd_allWhiteSpace.
  - now rewrite IH.
Qed.

Lemma trim_padding before s after :
  allWhiteSpace before = true -> allWhiteSpace after = true ->
  trim (before ++ s ++ after) = trim s.
Proof.
  intros Hb Ha. unfold trim. rewrite (trimStart_padding _ _ Hb).
  induction s as [|c s IH].
  - change (EmptyString ++ after) with after.
    now rewrite (trimStart_allWhiteSpace _ Ha).
  - change (String c s ++ after) with (String c (s ++ after)).
    cbn [trimStart]. destruct (isWhiteSpace c); [exact IH|].
    exact (trimEnd_padding (String c s) after Ha).
Qed.

End CanonicalFacts.

Lemma prepareDomain_canonical d : Canonical.canonical (prepareDomain d) = true.
Proof.
  rewrite prepareDomain_unfold. unfold Canonical.canonical.
  rewrite CanonicalFacts.noUpper_toLowerCase,
    CanonicalFacts.startsClean_toLowerCase, CanonicalFacts.endsClean_toLowerCase.
  now destruct (CanonicalFacts.trim_clean d) as [-> ->].
Qed.

Lemma prepareDomain_of_canonical d :
  Canonical.canonical d = true -> prepareDomain d = d.
Proof.
  unfold Canonical.canonical. rewrite !andb_true_iff. intros [[Hu Hs] He].
  rewrite prepareDomain_unfold. unfold JsString.trim.
  rewrite (JsStringFacts.trimStart_clean _ Hs), (CanonicalFacts.trimEnd_clean _ He).
  now apply CanonicalFacts.toLowerCase_fixed.
Qed.

(** ** Selection and dispatch *)

Lemma find_None_existsb {A : Type} (f : A -> bool) (l : list A) :
  List.find f l = None <-> existsb f l = false.
Proof.
  induction l as [|x l IH]; simpl; [tauto|].
  destruct (f x); simpl; [split; discriminate | exact IH].
Qed.

Lemma isSupportedDomain_unfold r d :
  isSupportedDomain r d
  = match getNamingMethod r d with Some _ => true | None => false end.
Proof. unfold isSupportedDomain. now rewrite getNamingMethod_prepareDomain. Qed.

Lemma getNamingMethodOrThrow_canonical_Some r d m :
  getNamingMethod r d = Some m ->
  getNamingMethodOrThrow r (prepareDomain d) = Ok m.
Proof.
  intros H.
  now rewrite getNamingMethodOrThrow_prepareDomain, getNamingMethodOrThrow_unfold, H.
Qed.

Lemma getNamingMethodOrThrow_canonical_None r d :
  getNamingMethod r d = None ->
  getNamingMethodOrThrow r (prepareDomain d) = unsupportedDomain d.
Proof.
  intros H.
  now rewrite getNamingMethodOrThrow_prepareDomain, getNamingMethodOrThrow_unfold, H.
Qed.

(** ** The normalizer and the fields of a constructed instance *)

Lemma normalizeSource_Disabled v p :
  normalizeSource v p = Ok Disabled <-> v = JBoolean false.
Proof.
  split; [|intros ->; reflexivity].
  destruct v as [| |[]| | | | | |o]; unfold normalizeSource; simpl;
    intros H; try discriminate H; reflexivity.
Qed.

Lemma construct_None new source :
  construct new source = Ok None <-> source = Disabled.
Proof.
  split; [|intros ->; reflexivity].
  destruct source as [|definition]; simpl; [reflexivity|].
  destruct (new definition); simpl; discriminate.
Qed.

Lemma construct_field_None new v p source field :
  normalizeSource v p = Ok source -> construct new source = Ok field ->
  field = None <-> v = JBoolean false.
Proof.
  intros Hn Hc. rewrite <- (normalizeSource_Disabled v p), Hn. split.
  - intros ->. apply construct_None in Hc. now rewrite Hc.
  - intros [= ->]. simpl in Hc. now injection Hc as <-.
Qed.

Lemma union_provider_own (o : gmap string JsValue) p :
  is_Some (o !! "provider") -> o ∪ {[ "provider" := p ]} = o.
Proof.
  intros [v Hv]. apply map_eq. intros k. rewrite lookup_union.
  destruct (decide (k = "provider")) as [->|Hk].
  - rewrite Hv. now rewrite lookup_singleton_eq.
  - rewrite lookup_singleton_ne by congruence. now destruct (o !! k).
Qed.

Lemma normalizeSource_settled v p q :
  settlesProvider v = true -> normalizeSource v p = normalizeSource v q.
Proof.
  destruct v as [| |[]| | | | | |o]; simpl; try discriminate; try reflexivity.
  rewrite bool_decide_eq_true. intros H. unfold normalizeSource; simpl.
  now rewrite !(union_provider_own o _ H).
Qed.

(** In a constructed instance in blockchain mode each naming service is
    found by its tag exactly in its field. *)
Lemma find_tag_blockchain r n :
  blockchain r = true ->
  hasTag (Named ENS) (ens r) -> hasTag (Named ZNS) (zns r) ->
  hasTag (Named CNS) (cns r) ->
  List.find (fun m : NamingService => bool_decide (NamingService.name m = Named n))
            (getResolutionMethods r)
  = fieldOf r n.
Proof.
  destruct r as [b e z c a]. unfold getResolutionMethods, fieldOf. simpl.
  intros -> He Hz Hc.
  destruct e as [e|], z as [z|], c as [c|], n; simpl in *;
    rewrite ?He, ?Hz, ?Hc; reflexivity.
Qed.

Lemma find_unique_tag (l : list NamingService) (tag : ResolutionMethod)
    (s : NamingService) :
  NoDup (map NamingService.name l) -> In s l -> NamingService.name s = tag ->
  List.find (fun m : NamingService => bool_decide (NamingService.name m = tag)) l
  = Some s.
Proof.
  induction l as [|x l IH]; simpl; [intros _ []|].
  intros Hnd [-> | Hin] Hs.
  - now rewrite bool_decide_true.
  - apply NoDup_cons in Hnd as [Hx Hnd].
    rewrite bool_decide_false; [now apply IH|].
    intros Hxt. apply Hx. rewrite Hxt, <- Hs.
    apply list_elem_of_In, in_map, Hin.
Qed.

Lemma constructed_tags_NoDup env o r :
  constructor env o = Ok r ->
  NoDup (map NamingService.name (getResolutionMethods r)).
Proof.
  intros H. destruct (constructor_tags env o r H) as (He & Hz & Hc & Ha & Hb).
  unfold getResolutionMethods.
  destruct (truthyBlockchain o) eqn:Ht; rewrite Hb.
  - destruct (ens r) as [e|], (zns r) as [z|], (cns r) as [c|]; simpl in *;
      rewrite ?He, ?Hz, ?Hc; apply (bool_decide_unpack _); reflexivity.
  - destruct (constructor_api_mode env o r Ht H) as (u & _ & ->). simpl.
    apply (bool_decide_unpack _); reflexivity.
Qed.

(** In a constructed instance a naming service is found by its tag exactly
    in its field, and the fields are unset in API mode. *)
Lemma find_tag_constructed env o r n :
  constructor env o = Ok r ->
  List.find (fun m : NamingService => bool_decide (NamingService.name m = Named n))
            (getResolutionMethods r)
  = fieldOf r n
  /\ (blockchain r = false -> fieldOf r n = None).
Proof.
  intros H. destruct (constructor_tags env o r H) as (He & Hz & Hc & Ha & Hb).
  destruct (truthyBlockchain o) eqn:Ht.
  - split; [now apply find_tag_blockchain | rewrite Hb; discriminate].
  - destruct (constructor_api_mode env o r Ht H) as (u & _ & ->).
    unfold getResolutionMethods. simpl in *. rewrite Ha.
    now destruct n.
Qed.

(** A construction from three enabled sources builds the three backends
    from the normalized descriptors. *)
Lemma constructor_builtFrom env c a r ensSource znsSource cnsSource :
  normalizeSource (cfg_ens c) (cfg_web3Provider c) = Ok (Enabled ensSource) ->
  normalizeSource (cfg_zns c) JUndefined = Ok (Enabled znsSource) ->
  normalizeSource (cfg_cns c) (cfg_web3Provider c) = Ok (Enabled cnsSource) ->
  constructor env (withBlockchain c a) = Ok r ->
  builtFrom env ensSource znsSource cnsSource r.
Proof.
  intros He Hz Hc. unfold constructor, withBlockchain; simpl.
  rewrite He, Hz, Hc; simpl. unfold newEns, newZns, newCns.
  unfold builtFrom.
  destruct (Ens env ensSource) as [be|]; simpl; [|discriminate].
  destruct (Zns env znsSource) as [bz|]; simpl; [|discriminate].
  destruct (Cns env cnsSource) as [bc|]; simpl; [|discriminate].
  intros [= <-]. now exists be, bz, bc.
Qed.

Lemma normalizeSource_inherits v p definition :
  normalizeSource v p = Ok (Enabled definition) ->
  settlesProvider v = false ->
  definition !! "provider" = Some p.
Proof.
  destruct v as [| |[]| | | | | |o]; unfold normalizeSource; simpl;
    try discriminate; intros [= <-]; try (intros _; reflexivity).
  rewrite bool_decide_eq_false, <- eq_None_not_Some. intros Ho.
  rewrite lookup_union, Ho. reflexivity.
Qed.

(** ** Strings in full: decoding, lowercasing, trimming *)

Module Utf16Facts.
Import Utf16.

Ltac split_tests :=
  repeat match goal with
    | |- context [(?a <=? ?b)%N] => destruct (N.leb_spec a b); simpl; try lia
    | |- context [(?a <? ?b)%N] => destruct (N.ltb_spec a b); simpl; try lia
    | |- context [(?a =? ?b)%N] => destruct (N.eqb_spec a b); simpl; try lia
    end.

Lemma list_pair_ind (P : list N -> Prop) :
  P [] -> (forall x, P [x]) ->
  (forall x y l, P l -> P (y :: l) -> P (x :: y :: l)) ->
  forall l, P l.
Proof.
  intros Hnil Hone Hstep l.
  assert (H : P l /\ forall x, P (x :: l)); [|exact (proj1 H)].
  induction l as [|y l [IH1 IH2]]; [now split|].
  split; [apply IH2|]. intros x. apply Hstep; auto.
Qed.

(** *** Surrogates and white space *)

Lemma isWhiteSpace_above u : (65536 <= u)%N -> isWhiteSpace u = false.
Proof. intros H. unfold isWhiteSpace. split_tests; reflexivity. Qed.

Lemma isWhiteSpace_surrogate u : isSurrogate u = true -> isWhiteSpace u = false.
Proof.
  unfold isSurrogate, isHighSurrogate, isLowSurrogate, isWhiteSpace.
  split_tests; intros; (reflexivity || discriminate).
Qed.

Lemma isHighSurrogate_above u : (65536 <= u)%N -> isHighSurrogate u = false.
Proof. intros H. unfold isHighSurrogate. split_tests; reflexivity. Qed.

Lemma isLowSurrogate_above u : (65536 <= u)%N -> isLowSurrogate u = false.
Proof. intros H. unfold isLowSurrogate. split_tests; reflexivity. Qed.

Lemma pairPoint_above high low : (65536 <= pairPoint high low)%N.
Proof. unfold pairPoint. lia. Qed.

Lemma isSurrogate_false u :
  isSurrogate u = false -> isHighSurrogate u = false /\ isLowSurrogate u = false.
Proof. unfold isSurrogate. now destruct (isHighSurrogate u), (isLowSurrogate u). Qed.

(** *** [decode] and [encode] *)

Lemma decode_pair u low rest :
  isHighSurrogate u = true -> isLowSurrogate low = true ->
  decode (u :: low :: rest) = pairPoint u low :: decode rest.
Proof. intros Hu Hl. simpl. now rewrite Hu, Hl. Qed.

Lemma decode_single u rest :
  isHighSurrogate u && headLow rest = false ->
  decode (u :: rest) = u :: decode rest.
Proof.
  destruct rest as [|low rest]; [reflexivity|]. simpl. now intros ->.
Qed.

Lemma decode_nil s : decode s = [] -> s = [].
Proof.
  destruct s as [|u [|low rest]]; simpl; try easy.
  now destruct (isHighSurrogate u && isLowSurrogate low).
Qed.

Lemma headLow_decode s : headLow (decode s) = true -> headLow s = true.
Proof.
  destruct s as [|u [|low rest]]; simpl; try easy.
  destruct (isHighSurrogate u && isLowSurrogate low); simpl; [|easy].
  now rewrite (isLowSurrogate_above _ (pairPoint_above u low)).
Qed.

Lemma wellPaired_decode s : wellPaired (decode s) = true.
Proof.
  induction s as [| x | x y l IHl IHyl] using list_pair_ind.
  - reflexivity.
  - simpl. now rewrite andb_false_r.
  - destruct (isHighSurrogate x && isLowSurrogate y) eqn:E.
    + apply andb_true_iff in E as [Hx Hy]. rewrite (decode_pair _ _ _ Hx Hy).
      simpl. now rewrite (isHighSurrogate_above _ (pairPoint_above x y)), IHl.
    + rewrite (decode_single x (y :: l) E).
      change (negb (isHighSurrogate x && headLow (decode (y :: l)))
              && wellPaired (decode (y :: l)) = true).
      rewrite IHyl, andb_true_r. apply negb_true_iff.
      destruct (headLow (decode (y :: l))) eqn:Hh; [|now rewrite andb_false_r].
      apply headLow_decode in Hh. change (isLowSurrogate y = true) in Hh.
      rewrite Hh in E. now rewrite andb_true_r in *.
Qed.

Lemma encode_nonempty c : encode c <> [].
Proof. unfold encode. now destruct (c <? 65536)%N, (c <? 1114112)%N. Qed.

Lemma headLow_encode c l : headLow (encode c ++ l) = isLowSurrogate c.
Proof.
  unfold encode.
  destruct (N.ltb_spec c 65536); [reflexivity|].
  destruct (N.ltb_spec c 1114112); [|reflexivity]. simpl.
  rewrite (isLowSurrogate_above c) by assumption.
  unfold isLowSurrogate.
  assert (Hq : ((c - 65536) / 1024 < 1024)%N)
    by (apply N.Div0.div_lt_upper_bound; lia).
  revert Hq. generalize ((c - 65536) / 1024)%N. intros q Hq.
  split_tests; reflexivity.
Qed.

Lemma headLow_encodeAll l : headLow (encodeAll l) = headLow l.
Proof. destruct l as [|c l]; [reflexivity|]. apply headLow_encode. Qed.

Lemma decode_encode_pair c rest :
  (65536 <= c)%N -> (c < 1114112)%N ->
  decode ((55296 + (c - 65536) / 1024)%N :: (56320 + (c - 65536) mod 1024)%N :: rest)
  = c :: decode rest.
Proof.
  intros Hlo Hhi.
  assert (Hd : ((c - 65536) / 1024 < 1024)%N)
    by (apply N.Div0.div_lt_upper_bound; lia).
  assert (Hm : ((c - 65536) mod 1024 < 1024)%N)
    by (apply N.mod_lt; lia).
  assert (Hdm : (c - 65536 = 1024 * ((c - 65536) / 1024) + (c - 65536) mod 1024)%N)
    by now apply N.div_mod.
  revert Hd Hm Hdm.
  generalize ((c - 65536) / 1024)%N, ((c - 65536) mod 1024)%N.
  intros q m Hd Hm Hdm.
  rewrite decode_pair.
  - f_equal. unfold pairPoint. lia.
  - unfold isHighSurrogate. split_tests; reflexivity.
  - unfold isLowSurrogate. split_tests; reflexivity.
Qed.

Lemma decode_encodeAll l : wellPaired l = true -> decode (encodeAll l) = l.
Proof.
  induction l as [|c l IH]; [reflexivity|].
  simpl. rewrite andb_true_iff, negb_true_iff. intros [Hc Hl].
  change (encodeAll (c :: l)) with (encode c ++ encodeAll l).
  unfold encode.
  destruct (N.ltb_spec c 65536) as [Hbmp|Hbig].
  - change ([c] ++ encodeAll l)%list with (c :: encodeAll l).
    rewrite decode_single by now rewrite headLow_encodeAll.
    now rewrite IH.
  - destruct (N.ltb_spec c 1114112) as [Hin|Hout].
    + cbn [app]. rewrite (decode_encode_pair c _ Hbig Hin). now rewrite IH.
    + change ([c] ++ encodeAll l)%list with (c :: encodeAll l).
      rewrite decode_single.
      * now rewrite IH.
      * now rewrite (isHighSurrogate_above c Hbig).
Qed.

(** *** First and last element *)

Lemma headIs_app P (l1 l2 : list N) :
  l1 <> [] -> headIs P (l1 ++ l2)%list = headIs P l1.
Proof. now destruct l1. Qed.

Lemma lastIs_cons P x (l : list N) : l <> [] -> lastIs P (x :: l) = lastIs P l.
Proof. now destruct l. Qed.

Lemma lastIs_app P (l1 l2 : list N) :
  l2 <> [] -> lastIs P (l1 ++ l2)%list = lastIs P l2.
Proof.
  intros H. induction l1 as [|x l1 IH]; [reflexivity|].
  change ((x :: l1) ++ l2)%list with (x :: (l1 ++ l2)%list).
  rewrite lastIs_cons; [exact IH|]. now destruct l1, l2.
Qed.

Lemma forallb_headIs P (l : list N) : forallb P l = true -> headIs P l = true.
Proof. destruct l; simpl; [reflexivity|]. now rewrite andb_true_iff. Qed.

Lemma forallb_lastIs P (l : list N) : forallb P l = true -> lastIs P l = true.
Proof.
  induction l as [|x l IH]; [reflexivity|].
  simpl forallb. rewrite andb_true_iff. intros [Hx Hl].
  destruct l as [|y l]; [exact Hx|]. rewrite lastIs_cons by discriminate. auto.
Qed.

(** *** [trim] *)

Lemma trimStart_fixed16 s : headIs notWhiteSpace s = true -> trimStart s = s.
Proof.
  destruct s as [|u s]; simpl; [reflexivity|]. unfold notWhiteSpace.
  now destruct (isWhiteSpace u).
Qed.

Lemma headIs_trimStart s : headIs notWhiteSpace (trimStart s) = true.
Proof.
  induction s as [|u s IH]; simpl; [reflexivity|].
  destruct (isWhiteSpace u) eqn:E; [exact IH|]. simpl. unfold notWhiteSpace.
  now rewrite E.
Qed.

Lemma headIs_trimEnd s :
  headIs notWhiteSpace s = true -> headIs notWhiteSpace (trimEnd s) = true.
Proof.
  destruct s as [|u s]; simpl; [reflexivity|]. unfold notWhiteSpace.
  intros H. destruct (trimEnd s); simpl; [|exact H].
  destruct (isWhiteSpace u) eqn:W; [discriminate|]. simpl. now rewrite W.
Qed.

Lemma lastIs_trimEnd s : lastIs notWhiteSpace (trimEnd s) = true.
Proof.
  induction s as [|u s IH]; [reflexivity|]. simpl trimEnd.
  destruct (trimEnd s) as [|v t] eqn:E.
  - destruct (isWhiteSpace u) eqn:W; [reflexivity|]. simpl.
    unfold notWhiteSpace. now rewrite W.
  - rewrite lastIs_cons by discriminate. exact IH.
Qed.

Lemma trimEnd_fixed16 s : lastIs notWhiteSpace s = true -> trimEnd s = s.
Proof.
  induction s as [|u s IH]; [reflexivity|].
  destruct s as [|v t].
  - simpl. unfold notWhiteSpace. now destruct (isWhiteSpace u).
  - rewrite lastIs_cons by discriminate. intros H. specialize (IH H).
    change (trimEnd (u :: v :: t))
      with (match trimEnd (v :: t) with
            | [] => if isWhiteSpace u then [] else [u]
            | w => u :: w
            end).
    now rewrite IH.
Qed.

Lemma trim_is_clean s :
  headIs notWhiteSpace (trim s) = true /\ lastIs notWhiteSpace (trim s) = true.
Proof.
  unfold trim. split; [apply headIs_trimEnd, headIs_trimStart | apply lastIs_trimEnd].
Qed.

Lemma trim_fixed s :
  headIs notWhiteSpace s = true -> lastIs notWhiteSpace s = true -> trim s = s.
Proof.
  intros Hh Hl. unfold trim. rewrite (trimStart_fixed16 s Hh). now apply trimEnd_fixed16.
Qed.

Lemma trimStart_split s :
  exists before, s = (before ++ trimStart s)%list /\ forallb isWhiteSpace before = true.
Proof.
  induction s as [|u s (b & Hs & Hb)]; [now exists []|]. simpl trimStart.
  destruct (isWhiteSpace u) eqn:E; [|now exists []].
  exists (u :: b). split; [|simpl; now rewrite E, Hb].
  change ((u :: b) ++ trimStart s)%list with (u :: (b ++ trimStart s)%list).
  now rewrite <- Hs.
Qed.

Lemma trimEnd_split s :
  exists after, s = (trimEnd s ++ after)%list /\ forallb isWhiteSpace after = true.
Proof.
  induction s as [|u s (a & Hs & Ha)]; [now exists []|]. simpl trimEnd.
  destruct (trimEnd s) as [|v t] eqn:E.
  - destruct (isWhiteSpace u) eqn:W.
    + exists (u :: a). split; [now rewrite Hs | simpl; now rewrite W, Ha].
    + exists a. split; [now rewrite Hs | exact Ha].
  - exists a. split; [now rewrite Hs | exact Ha].
Qed.

(** *** White space survives neither decoding nor encoding unseen *)

Lemma headIs_decode s :
  headIs notWhiteSpace s = true -> headIs notWhiteSpace (decode s) = true.
Proof.
  destruct s as [|u [|low rest]]; simpl; try easy.
  destruct (isHighSurrogate u && isLowSurrogate low); simpl; [|easy].
  intros _. unfold notWhiteSpace.
  now rewrite (isWhiteSpace_above _ (pairPoint_above u low)).
Qed.

Lemma lastIs_decode s :
  lastIs notWhiteSpace s = true -> lastIs notWhiteSpace (decode s) = true.
Proof.
  induction s as [| x | x y l IHl IHyl] using list_pair_ind; try easy.
  rewrite lastIs_cons by discriminate. intros H.
  destruct (isHighSurrogate x && isLowSurrogate y) eqn:E.
  - apply andb_true_iff in E as [Hx Hy]. rewrite (decode_pair _ _ _ Hx Hy).
    destruct l as [|z l].
    + simpl. unfold notWhiteSpace.
      now rewrite (isWhiteSpace_above _ (pairPoint_above x y)).
    + rewrite lastIs_cons in H by discriminate.
      rewrite lastIs_cons; [auto|]. intros Hn. now apply decode_nil in Hn.
  - rewrite (decode_single x (y :: l) E).
    rewrite lastIs_cons; [auto|]. intros Hn. now apply decode_nil in Hn.
Qed.

Lemma notWhiteSpace_encode c :
  notWhiteSpace c = true -> forallb notWhiteSpace (encode c) = true.
Proof.
  unfold encode, notWhiteSpace. intros H.
  destruct (N.ltb_spec c 65536); [simpl; now rewrite H|].
  destruct (N.ltb_spec c 1114112); [|simpl; now rewrite H].
  assert (Hq : ((c - 65536) / 1024 < 1024)%N)
    by (apply N.Div0.div_lt_upper_bound; lia).
  assert (Hm : ((c - 65536) mod 1024 < 1024)%N) by (apply N.mod_lt; lia).
  revert Hq Hm. generalize ((c - 65536) / 1024)%N, ((c - 65536) mod 1024)%N.
  intros q m Hq Hm. simpl. unfold isWhiteSpace. split_tests; reflexivity.
Qed.

Lemma encodeAll_nil l : encodeAll l = [] -> l = [].
Proof.
  destruct l as [|c l]; [reflexivity|].
  change (encodeAll (c :: l)) with (encode c ++ encodeAll l)%list.
  intros H. apply app_eq_nil in H as [H _]. now apply encode_nonempty in H.
Qed.

Lemma headIs_encodeAll l :
  headIs notWhiteSpace l = true -> headIs notWhiteSpace (encodeAll l) = true.
Proof.
  destruct l as [|c l]; [reflexivity|]. simpl headIs. intros H.
  change (encodeAll (c :: l)) with (encode c ++ encodeAll l)%list.
  rewrite headIs_app by apply encode_nonempty.
  now apply forallb_headIs, notWhiteSpace_encode.
Qed.

Lemma lastIs_encodeAll l :
  lastIs notWhiteSpace l = true -> lastIs notWhiteSpace (encodeAll l) = true.
Proof.
  induction l as [|c l IH]; [reflexivity|].
  change (encodeAll (c :: l)) with (encode c ++ encodeAll l)%list.
  destruct l as [|d l].
  - simpl lastIs. intros H. change (encodeAll []) with (@nil N).
    rewrite app_nil_r. now apply forallb_lastIs, notWhiteSpace_encode.
  - rewrite lastIs_cons by discriminate. intros H.
    rewrite lastIs_app; [auto|]. intros Hn. now apply encodeAll_nil in Hn.
Qed.

End Utf16Facts.

(** ** Lowercasing under well-formed casing data *)

Module LowercaseFacts.
Import Utf16 Utf16Facts.

Section WithData.

Variable ucd : UnicodeData.
Hypothesis Hwf : wellFormed ucd = true.

Lemma lookup_In c table mapping :
  lookup c table = Some mapping -> In (c, mapping) table.
Proof.
  induction table as [|[k m] table IH]; simpl; [discriminate|].
  destruct (N.eqb_spec k c) as [->|Hne].
  - intros [= ->]. now left.
  - intros H. right. auto.
Qed.

Lemma stable_sigmas : stable ucd 962 = true /\ stable ucd 963 = true.
Proof.
  unfold wellFormed in Hwf. rewrite !andb_true_iff in Hwf. tauto.
Qed.

Lemma mapping_ok c mapping :
  lookup c (lowercase ucd) = Some mapping ->
  isSurrogate c = false /\ mapping <> [] /\ forallb (outOk ucd) mapping = true.
Proof.
  intros H. apply lookup_In in H.
  unfold wellFormed in Hwf. rewrite !andb_true_iff in Hwf.
  destruct Hwf as [[Hall _] _]. rewrite forallb_forall in Hall.
  specialize (Hall _ H). unfold mappingOk in Hall. simpl in Hall.
  rewrite !andb_true_iff, negb_true_iff in Hall. destruct Hall as [[Hs Hn] Ho].
  split; [exact Hs|]. split; [now destruct mapping | exact Ho].
Qed.

(** The lowercase of a code point is the code point itself, stable, or a
    mapping that [wellFormed] vouches for. *)
Lemma lowerPoint_cases before c after :
  (lowerPoint ucd before c after = [c] /\ stable ucd c = true)
  \/ (lowerPoint ucd before c after <> []
      /\ forallb (outOk ucd) (lowerPoint ucd before c after) = true
      /\ isSurrogate c = false).
Proof.
  unfold lowerPoint. destruct (N.eqb_spec c 931) as [->|Hne].
  - right. destruct stable_sigmas as [H2 H3]. unfold outOk.
    destruct (finalSigma ucd before after); simpl;
      rewrite ?H2, ?H3; repeat split; discriminate.
  - unfold lowercaseMapping.
    destruct (lookup c (lowercase ucd)) as [mapping|] eqn:E.
    + right. destruct (mapping_ok c mapping E) as (Hs & Hn & Ho). tauto.
    + left. split; [reflexivity|]. unfold stable. rewrite E.
      now apply negb_true_iff, N.eqb_neq.
Qed.

Lemma lowerPoint_nonempty before c after : lowerPoint ucd before c after <> [].
Proof.
  destruct (lowerPoint_cases before c after) as [[-> _] | [H _]]; [discriminate | exact H].
Qed.

Lemma lowerFrom_nil before points : lowerFrom ucd before points = [] -> points = [].
Proof.
  destruct points as [|c after]; [reflexivity|]. simpl. intros H.
  apply app_eq_nil in H as [H _]. now apply lowerPoint_nonempty in H.
Qed.

Lemma outOk_stable l : forallb (outOk ucd) l = true -> forallb (stable ucd) l = true.
Proof.
  rewrite !forallb_forall. intros H x Hx. specialize (H x Hx).
  unfold outOk in H. rewrite !andb_true_iff in H. tauto.
Qed.

Lemma outOk_notWhiteSpace l :
  forallb (outOk ucd) l = true -> forallb notWhiteSpace l = true.
Proof.
  rewrite !forallb_forall. intros H x Hx. specialize (H x Hx).
  unfold outOk in H. rewrite !andb_true_iff in H. unfold notWhiteSpace. tauto.
Qed.

Lemma outOk_wellPaired l rest :
  forallb (outOk ucd) l = true -> wellPaired rest = true ->
  wellPaired (l ++ rest)%list = true.
Proof.
  intros Hl Hr. induction l as [|x l IH]; [exact Hr|].
  simpl in Hl. rewrite andb_true_iff in Hl. destruct Hl as [Hx Hl].
  change ((x :: l) ++ rest)%list with (x :: (l ++ rest)%list). simpl.
  rewrite (IH Hl), andb_true_r.
  unfold outOk in Hx. rewrite !andb_true_iff, !negb_true_iff in Hx.
  destruct Hx as [[_ Hs] _]. apply isSurrogate_false in Hs as [-> _]. reflexivity.
Qed.

Lemma outOk_headLow l rest :
  l <> [] -> forallb (outOk ucd) l = true -> headLow (l ++ rest)%list = false.
Proof.
  destruct l as [|x l]; [easy|]. intros _. simpl.
  rewrite andb_true_iff. intros [Hx _].
  unfold outOk in Hx. rewrite !andb_true_iff, !negb_true_iff in Hx.
  destruct Hx as [[_ Hs] _]. now apply isSurrogate_false in Hs as [_ ->].
Qed.

(** Every code point of a lowercased string is stable. *)
Lemma stable_lowerFrom before points :
  forallb (stable ucd) (lowerFrom ucd before points) = true.
Proof.
  revert before. induction points as [|c after IH]; intros before; [reflexivity|].
  simpl. rewrite forallb_app, IH, andb_true_r.
  destruct (lowerPoint_cases before c after) as [[-> Hc] | (_ & Ho & _)].
  - simpl. now rewrite Hc.
  - now apply outOk_stable.
Qed.

(** Stable code points are left as they are, whatever surrounds them. *)
Lemma lowerFrom_stable before points :
  forallb (stable ucd) points = true -> lowerFrom ucd before points = points.
Proof.
  revert before. induction points as [|c after IH]; intros before; [reflexivity|].
  simpl. rewrite andb_true_iff. intros [Hc Ha]. rewrite (IH _ Ha).
  unfold lowerPoint, lowercaseMapping. unfold stable in Hc.
  destruct (lookup c (lowercase ucd)); [discriminate|].
  apply negb_true_iff in Hc. now rewrite Hc.
Qed.

(** Lowercasing brings no high surrogate next to a low one. *)
Lemma wellPaired_lowerFrom before points :
  wellPaired points = true ->
  wellPaired (lowerFrom ucd before points) = true
  /\ (headLow (lowerFrom ucd before points) = true -> headLow points = true).
Proof.
  revert before. induction points as [|c after IH]; intros before; [easy|].
  simpl wellPaired. rewrite andb_true_iff, negb_true_iff. intros [Hc Ha].
  destruct (IH (c :: before) Ha) as [IHw IHh]. simpl lowerFrom.
  destruct (lowerPoint_cases before c after) as [[-> _] | (Hn & Ho & _)].
  - change ([c] ++ lowerFrom ucd (c :: before) after)%list
      with (c :: lowerFrom ucd (c :: before) after).
    split; [|easy]. simpl. rewrite IHw, andb_true_r. apply negb_true_iff.
    destruct (headLow (lowerFrom ucd (c :: before) after)) eqn:E;
      [|now rewrite andb_false_r].
    now rewrite (IHh eq_refl) in Hc.
  - split; [now apply outOk_wellPaired|].
    now rewrite (outOk_headLow _ _ Hn Ho).
Qed.

Lemma headIs_lowerFrom before points :
  headIs notWhiteSpace points = true ->
  headIs notWhiteSpace (lowerFrom ucd before points) = true.
Proof.
  destruct points as [|c after]; [reflexivity|]. simpl. intros Hc.
  rewrite headIs_app by apply lowerPoint_nonempty.
  destruct (lowerPoint_cases before c after) as [[-> _] | (_ & Ho & _)];
    [exact Hc|].
  now apply forallb_headIs, outOk_notWhiteSpace.
Qed.

Lemma lastIs_lowerPoint before c after :
  notWhiteSpace c = true ->
  lastIs notWhiteSpace (lowerPoint ucd before c after) = true.
Proof.
  intros Hc.
  destruct (lowerPoint_cases before c after) as [[-> _] | (_ & Ho & _)];
    [exact Hc|].
  now apply forallb_lastIs, outOk_notWhiteSpace.
Qed.

Lemma lastIs_lowerFrom before points :
  lastIs notWhiteSpace points = true ->
  lastIs notWhiteSpace (lowerFrom ucd before points) = true.
Proof.
  revert before. induction points as [|c after IH]; intros before; [reflexivity|].
  simpl lowerFrom. destruct after as [|d after].
  - simpl lastIs. intros Hc. change (lowerFrom ucd (c :: before) []) with (@nil N).
    rewrite app_nil_r. now apply lastIs_lowerPoint.
  - rewrite lastIs_cons by discriminate. intros H.
    rewrite lastIs_app; [auto|]. intros Hn. now apply lowerFrom_nil in Hn.
Qed.

(** [toLowerCase] is idempotent. *)
Lemma toLowerCaseWith_idem s :
  toLowerCaseWith ucd (toLowerCaseWith ucd s) = toLowerCaseWith ucd s.
Proof.
  unfold toLowerCaseWith.
  rewrite decode_encodeAll
    by apply (wellPaired_lowerFrom [] (decode s) (wellPaired_decode s)).
  now rewrite lowerFrom_stable by apply stable_lowerFrom.
Qed.

(** [toLowerCase] puts no white space at either end of a string that has
    none there. *)
Lemma toLowerCaseWith_clean s :
  headIs notWhiteSpace s = true -> lastIs notWhiteSpace s = true ->
  headIs notWhiteSpace (toLowerCaseWith ucd s) = true
  /\ lastIs notWhiteSpace (toLowerCaseWith ucd s) = true.
Proof.
  intros Hh Hl. unfold toLowerCaseWith. split.
  - now apply headIs_encodeAll, headIs_lowerFrom, headIs_decode.
  - now apply lastIs_encodeAll, lastIs_lowerFrom, lastIs_decode.
Qed.

Lemma prepareDomainWith_unfold d :
  prepareDomainWith ucd d = toLowerCaseWith ucd (trim d).
Proof. now destruct d. Qed.

Lemma prepareDomainWith_trimmed d :
  trim (prepareDomainWith ucd d) = prepareDomainWith ucd d.
Proof.
  rewrite prepareDomainWith_unfold.
  destruct (trim_is_clean d) as [Hh Hl].
  destruct (toLowerCaseWith_clean (trim d) Hh Hl) as [Hh' Hl'].
  now apply trim_fixed.
Qed.

Lemma prepareDomainWith_lowercase d :
  toLowerCaseWith ucd (prepareDomainWith ucd d) = prepareDomainWith ucd d.
Proof. rewrite prepareDomainWith_unfold. apply toLowerCaseWith_idem. Qed.

Lemma prepareDomainWith_idem d :
  prepareDomainWith ucd (prepareDomainWith ucd d) = prepareDomainWith ucd d.
Proof.
  rewrite (prepareDomainWith_unfold (prepareDomainWith ucd d)).
  rewrite prepareDomainWith_trimmed. apply prepareDomainWith_lowercase.
Qed.

End WithData.

Lemma unicode14_wellFormed : wellFormed unicode14 = true.
Proof. vm_compute. reflexivity. Qed.

End LowercaseFacts.

(** ** The router's strings are the strings below U+0100 *)

Module Latin1Facts.

Lemma isWhiteSpace_latin1 c :
  Utf16.isWhiteSpace (N_of_ascii c) = JsString.isWhiteSpace c.
Proof. destruct c as [[] [] [] [] [] [] [] []]; vm_compute; reflexivity. Qed.

Lemma lowerPoint_latin1 before c after :
  Utf16.lowerPoint Utf16.unicode14 before (N_of_ascii c) after
  = [N_of_ascii (JsString.lowerChar c)].
Proof. destruct c as [[] [] [] [] [] [] [] []]; vm_compute; reflexivity. Qed.

Lemma latin1_below c : (N_of_ascii c < 256)%N.
Proof. destruct c as [[] [] [] [] [] [] [] []]; vm_compute; reflexivity. Qed.

Lemma trimStart_latin1 s :
  Utf16.trimStart (Utf16.ofLatin1 s) = Utf16.ofLatin1 (JsString.trimStart s).
Proof.
  induction s as [|c s IH]; [reflexivity|]. simpl.
  rewrite isWhiteSpace_latin1. now destruct (JsString.isWhiteSpace c).
Qed.

Lemma trimEnd_latin1 s :
  Utf16.trimEnd (Utf16.ofLatin1 s) = Utf16.ofLatin1 (JsString.trimEnd s).
Proof.
  induction s as [|c s IH]; [reflexivity|]. simpl.
  rewrite IH, isWhiteSpace_latin1.
  destruct (JsString.trimEnd s); simpl; [|reflexivity].
  now destruct (JsString.isWhiteSpace c).
Qed.

Lemma decode_latin1 s : Utf16.decode (Utf16.ofLatin1 s) = Utf16.ofLatin1 s.
Proof.
  induction s as [|c s IH]; [reflexivity|].
  change (Utf16.ofLatin1 (String c s)) with (N_of_ascii c :: Utf16.ofLatin1 s).
  rewrite Utf16Facts.decode_single; [now rewrite IH|].
  pose proof (latin1_below c). unfold Utf16.isHighSurrogate.
  destruct (N.leb_spec 55296 (N_of_ascii c)); [lia | reflexivity].
Qed.

Lemma lowerFrom_latin1 before s :
  Utf16.lowerFrom Utf16.unicode14 before (Utf16.ofLatin1 s)
  = Utf16.ofLatin1 (JsString.toLowerCase s).
Proof.
  revert before. induction s as [|c s IH]; intros before; [reflexivity|].
  simpl. now rewrite lowerPoint_latin1, IH.
Qed.

Lemma encodeAll_latin1 s :
  Utf16.encodeAll (Utf16.ofLatin1 s) = Utf16.ofLatin1 s.
Proof.
  induction s as [|c s IH]; [reflexivity|].
  change (Utf16.encodeAll (Utf16.ofLatin1 (String c s)))
    with (Utf16.encode (N_of_ascii c) ++ Utf16.encodeAll (Utf16.ofLatin1 s))%list.
  rewrite IH. unfold Utf16.encode. pose proof (latin1_below c).
  destruct (N.ltb_spec (N_of_ascii c) 65536); [reflexivity | lia].
Qed.

Lemma prepareDomain_latin1 s :
  Utf16.prepareDomain (Utf16.ofLatin1 s) = Utf16.ofLatin1 (prepareDomain s).
Proof.
  unfold Utf16.prepareDomain.
  rewrite LowercaseFacts.prepareDomainWith_unfold, prepareDomain_unfold.
  unfold Utf16.trim, JsString.trim, Utf16.toLowerCaseWith.
  now rewrite trimStart_latin1, trimEnd_latin1, decode_latin1, lowerFrom_latin1,
    encodeAll_latin1.
Qed.

End Latin1Facts.

(** * Properties of the specification *)

(** On the router's strings, those below U+0100, the canonicalization is
    idempotent. *)
Theorem prepareDomain_idempotent (d : string) :
  prepareDomain d = prepareDomain (prepareDomain d)
  /\ prepareDomain d = JsString.toLowerCase (JsString.trim d)
  /\ prepareDomain EmptyString = EmptyString.
Proof.
  split; [symmetry; apply prepareDomain_idem|].
  split; [apply prepareDomain_unfold | reflexivity].
Qed.

(** C9: domain canonicalization is idempotent: for every domain string d,
    a sequence of UTF-16 code units, prepareDomain(d) equals
    prepareDomain(prepareDomain(d)).  prepareDomain maps the falsy (empty)
    string to the empty string; it trims and lowercases: d is white space,
    then a middle part with no white space at either end, then white
    space, and prepareDomain(d) is the lowercase of the middle part; its
    result is left as it is by trim and by toLowerCase.  On the strings
    below U+0100 it is the canonicalization of the router.  The idempotence
    holds for the casing data of every version of the Unicode Character
    Database that passes the check wellFormed, as version 14.0.0 does. *)
Theorem prepareDomain_idempotent_on_every_string :
  (forall d : list N,
      Utf16.prepareDomain d = Utf16.prepareDomain (Utf16.prepareDomain d))
  /\ Utf16.prepareDomain [] = []
  /\ (forall d : list N, exists before middle after,
        d = (before ++ middle ++ after)%list
        /\ forallb Utf16.isWhiteSpace before = true
        /\ forallb Utf16.isWhiteSpace after = true
        /\ Utf16.headIs Utf16.notWhiteSpace middle = true
        /\ Utf16.lastIs Utf16.notWhiteSpace middle = true
        /\ Utf16.prepareDomain d = Utf16.toLowerCase middle)
  /\ (forall d : list N,
        Utf16.trim (Utf16.prepareDomain d) = Utf16.prepareDomain d
        /\ Utf16.toLowerCase (Utf16.prepareDomain d) = Utf16.prepareDomain d)
  /\ (forall s : string,
        Utf16.prepareDomain (Utf16.ofLatin1 s) = Utf16.ofLatin1 (prepareDomain s))
  /\ (forall ucd : Utf16.UnicodeData,
        Utf16.wellFormed ucd = true ->
        forall d : list N,
          Utf16.prepareDomainWith ucd d
          = Utf16.prepareDomainWith ucd (Utf16.prepareDomainWith ucd d)).
Proof.
  pose proof LowercaseFacts.unicode14_wellFormed as Hwf.
  split; [intros d; symmetry; now apply LowercaseFacts.prepareDomainWith_idem|].
  split; [reflexivity|].
  split.
  - intros d.
    destruct (Utf16Facts.trimStart_split d) as (before & Hd & Hb).
    destruct (Utf16Facts.trimEnd_split (Utf16.trimStart d)) as (after & Hs & Ha).
    destruct (Utf16Facts.trim_is_clean d) as [Hh Hl].
    exists before, (Utf16.trim d), after.
    split; [rewrite Hd at 1; f_equal; exact Hs|].
    repeat (split; [assumption|]).
    apply LowercaseFacts.prepareDomainWith_unfold.
  - split; [|split].
    + intros d. split.
      * now apply LowercaseFacts.prepareDomainWith_trimmed.
      * now apply LowercaseFacts.prepareDomainWith_lowercase.
    + apply Latin1Facts.prepareDomain_latin1.
    + intros ucd Hucd d. symmetry.
      now apply LowercaseFacts.prepareDomainWith_idem.
Qed.

Lemma prepareDomain_idempotent_on_every_string_witness :
  Utf16.prepareDomain [65279; 8195; 304; 913; 931; 32]%N = [105; 775; 945; 962]%N
  /\ Utf16.prepareDomain
       (Utf16.prepareDomain [65279; 8195; 304; 913; 931; 32]%N)
     = [105; 775; 945; 962]%N
  /\ Utf16.prepareDomainWith Utf16.unicode14 [55297; 56320; 931; 97; 8232]%N
     = Utf16.prepareDomainWith Utf16.unicode14
         (Utf16.prepareDomainWith Utf16.unicode14 [55297; 56320; 931; 97; 8232]%N).
Proof.
  destruct prepareDomain_idempotent_on_every_string
    as (Hidem & _ & _ & _ & _ & Hany).
  split; [vm_compute; reflexivity|].
  split.
  - rewrite <- (Hidem [65279; 8195; 304; 913; 931; 32]%N).
    vm_compute; reflexivity.
  - exact (Hany Utf16.unicode14 LowercaseFacts.unicode14_wellFormed
             [55297; 56320; 931; 97; 8232]%N).
Defined.

Example prepareDomain_sample :
  prepareDomain "  Brad.ETH " = "brad.eth"
  /\ prepareDomain (prepareDomain "  Brad.ETH ") = "brad.eth".
Proof. split; reflexivity. Qed.

(** C1: address(domain, ticker) returns null exactly when
    addressOrThrow(domain, ticker) throws a ResolutionError, returns the
    same string as addressOrThrow when that one returns, and lets an error
    that is no ResolutionError propagate unchanged; it never throws a
    ResolutionError itself. *)
Theorem address_null_iff_addressOrThrow_throws (r : Resolution) (d t : string) :
  (address r d t = Ok None <->
   exists code options,
     addressOrThrow r d t = Throw (ResolutionError code options))
  /\ (forall a, address r d t = Ok (Some a) <-> addressOrThrow r d t = Ok a)
  /\ (forall message,
        address r d t = Throw (PlainError message) <->
        addressOrThrow r d t = Throw (PlainError message))
  /\ (forall code options, address r d t <> Throw (ResolutionError code options)).
Proof.
  unfold address. rewrite addressOrThrow_prepareDomain.
  destruct (addressOrThrow r d t) as [a | [code options | message]]; simpl.
  - split; [split; [discriminate | intros (c & o & H); discriminate]|].
    split; [intros b; split; congruence|].
    split; [intros m; split; discriminate | discriminate].
  - split; [split; [eauto | reflexivity]|].
    split; [intros b; split; discriminate|].
    split; [intros m; split; discriminate | discriminate].
  - split; [split; [discriminate | intros (c & o & H); discriminate]|].
    split; [intros b; split; discriminate|].
    split; [intros m; split; congruence | discriminate].
Qed.

Example address_sample :
  address Sample.blockchainInstance " Brad.ZIL" "ETH" = Ok (Some "0xbrad.zil")
  /\ address Sample.blockchainInstance "brad.zil" "BTC" = Ok None
  /\ address Sample.blockchainInstance "brad.com" "ETH" = Ok None
  /\ address Sample.blockchainInstance "brad.zil" EmptyString
     = Throw (PlainError "Cannot read property of undefined").
Proof. repeat split; reflexivity. Qed.

(** C2: backend selection is a first-match scan in fixed priority order:
    in blockchain mode the configured backends are consulted in the order
    ENS-like, ZNS-like, CNS-like, in API mode the API backend alone; the
    selected backend is the first whose isSupportedDomain returns true on
    the canonicalized domain, and when two configured backends both claim a
    domain the earlier one in this order is selected. *)
Theorem getNamingMethod_fixed_priority (r : Resolution) (d : string) :
  getNamingMethod r d = firstInPriorityOrder r (prepareDomain d)
  /\ (forall m, getNamingMethod r d = Some m ->
       NamingService.isSupportedDomain m (prepareDomain d) = true /\
       exists before after,
         getResolutionMethods r = (before ++ m :: after)%list /\
         forallb (fun x : NamingService =>
                    negb (NamingService.isSupportedDomain x (prepareDomain d)))
                 before = true)
  /\ (forall e, blockchain r = true -> ens r = Some e ->
       NamingService.isSupportedDomain e (prepareDomain d) = true ->
       getNamingMethod r d = Some e)
  /\ (forall z, blockchain r = true ->
       claimedBy (ens r) (prepareDomain d) = false -> zns r = Some z ->
       NamingService.isSupportedDomain z (prepareDomain d) = true ->
       getNamingMethod r d = Some z)
  /\ (blockchain r = false ->
       getResolutionMethods r = omap id [api r]).
Proof.
  split; [apply getNamingMethod_firstInPriorityOrder|].
  split; [intros m H; exact (find_first_match _ _ _ H)|].
  rewrite getNamingMethod_firstInPriorityOrder. unfold firstInPriorityOrder.
  split; [intros e -> He Hc; unfold claimedBy; now rewrite He, Hc|].
  split; [intros z -> -> Hz Hc; unfold claimedBy; now rewrite Hz, Hc|].
  intros Hb. unfold getResolutionMethods. now rewrite Hb.
Qed.

Lemma getNamingMethod_fixed_priority_witness :
  claimedBy (cns Sample.overlappingInstance) (prepareDomain "Brad.ETH") = true
  /\ getNamingMethod Sample.overlappingInstance "Brad.ETH"
     = Some Sample.ensService.
Proof.
  split; [reflexivity|].
  destruct (getNamingMethod_fixed_priority Sample.overlappingInstance "Brad.ETH")
    as (_ & _ & H & _).
  apply H; reflexivity.
Defined.

(** C3: the source normalizer, for every inherited provider p: undefined
    and true give the descriptor with the provider alone; false gives the
    disabled sentinel; a string s gives the descriptor with url s alone, no
    provider and no network; an object o gives the provider merged with o,
    the fields of o overriding; a value whose type is outside this union
    (a number, say) raises the configuration error, which is no
    ResolutionError, and so does the constructor handed such a value as
    one of its three sources, so that no instance exists to resolve with. *)
Theorem normalizeSource_cases (p : JsValue) :
  normalizeSource JUndefined p = Ok (Enabled {[ "provider" := p ]})
  /\ normalizeSource (JBoolean true) p = Ok (Enabled {[ "provider" := p ]})
  /\ normalizeSource (JBoolean false) p = Ok Disabled
  /\ (forall s,
        normalizeSource (JString s) p = Ok (Enabled {[ "url" := JString s ]})
        /\ ({[ "url" := JString s ]} : gmap string JsValue) !! "provider" = None
        /\ ({[ "url" := JString s ]} : gmap string JsValue) !! "network" = None)
  /\ (forall o, exists definition,
        normalizeSource (JObject o) p = Ok (Enabled definition)
        /\ forall k,
             definition !! k =
             match o !! k with
             | Some v => Some v
             | None => if decide (k = "provider") then Some p else None
             end)
  /\ (forall v, inSourceUnion v = false ->
        normalizeSource v p = Throw (PlainError "Unsupported configuration")
        /\ instanceofResolutionError (PlainError "Unsupported configuration") = false
        /\ forall env c a,
             cfg_ens c = v \/ cfg_zns c = v \/ cfg_cns c = v ->
             constructor env (withBlockchain c a)
             = Throw (PlainError "Unsupported configuration")).
Proof.
  repeat (split; [reflexivity|]).
  split; [intros s; repeat split; reflexivity|].
  split.
  - intros o. eexists. split; [reflexivity|]. intros k. simpl.
    rewrite lookup_union. destruct (o !! k) as [v|] eqn:E.
    + now destruct (({[ "provider" := p ]} : gmap string JsValue) !! k).
    + rewrite (left_id None _). case_decide as Hk.
      * subst k. apply lookup_singleton_eq.
      * now apply lookup_singleton_ne.
  - intros v Hv. split; [now apply normalizeSource_outside_union|].
    split; [reflexivity|].
    intros env c a Hc. unfold constructor, withBlockchain; simpl.
    destruct (normalizeSource (cfg_ens c) (cfg_web3Provider c)) as [es|e] eqn:Ee;
      simpl; [|now rewrite (normalizeSource_throws _ _ _ Ee)].
    destruct (normalizeSource (cfg_zns c) JUndefined) as [zs|e] eqn:Ez;
      simpl; [|now rewrite (normalizeSource_throws _ _ _ Ez)].
    destruct (normalizeSource (cfg_cns c) (cfg_web3Provider c)) as [cs|e] eqn:Ec;
      simpl; [|now rewrite (normalizeSource_throws _ _ _ Ec)].
    destruct Hc as [<- | [<- | <-]];
      [ rewrite (normalizeSource_outside_union _ _ Hv) in Ee
      | rewrite (normalizeSource_outside_union _ _ Hv) in Ez
      | rewrite (normalizeSource_outside_union _ _ Hv) in Ec ]; discriminate.
Qed.

Lemma normalizeSource_cases_witness :
  normalizeSource (JNumber 42) JUndefined
  = Throw (PlainError "Unsupported configuration")
  /\ constructor Sample.env (withBlockchain Sample.numberEns None)
     = Throw (PlainError "Unsupported configuration").
Proof.
  destruct (normalizeSource_cases JUndefined) as (_ & _ & _ & _ & _ & H).
  destruct (H (JNumber 42) eq_refl) as (H1 & _ & H2).
  split; [exact H1|].
  apply H2. left. reflexivity.
Defined.

Example normalizeSource_samples :
  normalizeSource (JString "http://x") JUndefined
  = Ok (Enabled {[ "url" := JString "http://x" ]})
  /\ normalizeSource (JObject {[ "network" := JString "mainnet" ]}) (JString "p")
     = Ok (Enabled (<[ "network" := JString "mainnet" ]>
                      {[ "provider" := JString "p" ]}))
  /\ normalizeSource (JObject {[ "provider" := JString "own" ]}) (JString "p")
     = Ok (Enabled {[ "provider" := JString "own" ]}).
Proof. repeat split; reflexivity. Qed.

(** C5: the two construction modes are mutually exclusive: a truthy
    blockchain option yields an instance with at most three backends, of
    the ENS, ZNS and CNS identities, and no API backend; blockchain: false
    yields an instance holding exactly one API backend and no ENS, ZNS or
    CNS backend, whose isSupportedDomain, domain-based selection and
    selection by identity consult that API backend alone. *)
Theorem construction_modes_exclusive (env : Imports) (o : Options) (r : Resolution) :
  constructor env o = Ok r ->
  blockchain r = truthyBlockchain o
  /\ if truthyBlockchain o then
       api r = None
       /\ hasTag (Named ENS) (ens r)
       /\ hasTag (Named ZNS) (zns r)
       /\ hasTag (Named CNS) (cns r)
       /\ getResolutionMethods r = omap id [ens r; zns r; cns r]
       /\ List.length (getResolutionMethods r) <= 3
     else
       ens r = None /\ zns r = None /\ cns r = None
       /\ exists udapi,
            api r = Some udapi
            /\ newUdapi env (default (DefaultAPI env) (opt_api o)) = Ok udapi
            /\ NamingService.name udapi = UDAPI
            /\ getResolutionMethods r = [udapi]
            /\ (forall d,
                 isSupportedDomain r d
                 = NamingService.isSupportedDomain udapi (prepareDomain d))
            /\ (forall d m, getNamingMethod r d = Some m -> m = udapi)
            /\ (forall n,
                 findNamingService r n
                 = Throw (ResolutionError NamingServiceDown (withMethod n))).
Proof.
  intros H. destruct (constructor_tags env o r H) as (He & Hz & Hc & Ha & Hb).
  split; [exact Hb|].
  destruct (truthyBlockchain o) eqn:Ht.
  - destruct (constructor_blockchain_mode env o r Ht H)
      as (_ & _ & _ & _ & _ & _ & _ & _ & _ & _ & Hapi).
    repeat (split; [assumption|]).
    unfold getResolutionMethods. rewrite Hb.
    split; [reflexivity|].
    destruct (ens r), (zns r), (cns r); simpl; lia.
  - destruct (constructor_api_mode env o r Ht H) as (u & Hu & ->). simpl in *.
    repeat (split; [reflexivity|]).
    exists u. repeat (split; [reflexivity || assumption|]).
    split; [|split].
    + intros d. unfold isSupportedDomain.
      rewrite getNamingMethod_prepareDomain, getNamingMethod_firstInPriorityOrder.
      unfold firstInPriorityOrder; simpl.
      now destruct (NamingService.isSupportedDomain u (prepareDomain d)).
    + intros d m. rewrite getNamingMethod_firstInPriorityOrder.
      unfold firstInPriorityOrder; simpl.
      destruct (NamingService.isSupportedDomain u (prepareDomain d));
        [now intros [= <-] | discriminate].
    + intros n. unfold findNamingService, getResolutionMethods. simpl.
      now rewrite Ha.
Qed.

Lemma construction_modes_exclusive_witness :
  blockchain Sample.apiInstance = false
  /\ getResolutionMethods Sample.apiInstance = [Sample.apiService]
  /\ blockchain Sample.blockchainInstance = true
  /\ api Sample.blockchainInstance = None.
Proof.
  pose proof (construction_modes_exclusive
                Sample.env Sample.apiOptions Sample.apiInstance eq_refl) as Ha.
  pose proof (construction_modes_exclusive
                Sample.env Sample.defaultOptions Sample.blockchainInstance eq_refl)
    as Hb.
  simpl in Ha, Hb.
  destruct Ha as (Ha1 & _ & _ & _ & u & [= <-] & _ & _ & Ha2 & _).
  destruct Hb as (Hb1 & Hb2 & _).
  repeat split; assumption.
Defined.

(** C6: reverse(address, ticker) selects its backend by the identity tag
    ENS, with no look at any supported-domain predicate: on a constructed
    instance it forwards to the ENS-like backend whenever that one is
    configured, and throws the ResolutionError NamingServiceDown whenever
    it is not, which is the case of every API-mode instance. *)
Theorem reverse_targets_ens_by_identity
    (env : Imports) (o : Options) (r : Resolution) (a t : string) :
  constructor env o = Ok r ->
  reverse r a t
  = match ens r with
    | Some ensBackend => NamingService.reverse ensBackend a t
    | None => Throw (ResolutionError NamingServiceDown (withMethod ENS))
    end
  /\ (blockchain r = false ->
      reverse r a t = Throw (ResolutionError NamingServiceDown (withMethod ENS)))
  /\ ((exists m, In m (getResolutionMethods r) /\ NamingService.name m = Named ENS)
      <-> ens r <> None).
Proof.
  intros H. destruct (find_ENS_constructed env o r H) as (Hfind & Hapi).
  assert (Hrev : reverse r a t
                 = match ens r with
                   | Some ensBackend => NamingService.reverse ensBackend a t
                   | None => Throw (ResolutionError NamingServiceDown (withMethod ENS))
                   end).
  { unfold reverse, findNamingService. rewrite Hfind. now destruct (ens r). }
  split; [exact Hrev|].
  split; [intros Hb; now rewrite Hrev, (Hapi Hb)|].
  split.
  - intros (m & Hin & Hm) Hnone. rewrite Hnone in Hfind.
    apply (find_none _ _ Hfind) in Hin. simpl in Hin.
    rewrite bool_decide_eq_false in Hin. contradiction.
  - intros Hsome. destruct (ens r) as [e|] eqn:Ee; [|contradiction].
    destruct (find_some _ _ Hfind) as (Hin & Hname).
    rewrite bool_decide_eq_true in Hname. eauto.
Qed.

Lemma reverse_targets_ens_by_identity_witness :
  reverse Sample.apiInstance "0xb0e7" "ETH"
  = Throw (ResolutionError NamingServiceDown (withMethod ENS))
  /\ reverse Sample.noEnsInstance "0xb0e7" "ETH"
     = Throw (ResolutionError NamingServiceDown (withMethod ENS))
  /\ reverse Sample.blockchainInstance "0xb0e7" "ETH"
     = Ok (Some "reverse of 0xb0e7").
Proof.
  destruct (reverse_targets_ens_by_identity
              Sample.env Sample.apiOptions Sample.apiInstance
              "0xb0e7" "ETH" eq_refl) as (_ & Hapi & _).
  destruct (reverse_targets_ens_by_identity
              Sample.env Sample.noEnsOptions Sample.noEnsInstance
              "0xb0e7" "ETH" eq_refl) as (Hnone & _).
  destruct (reverse_targets_ens_by_identity
              Sample.env Sample.defaultOptions Sample.blockchainInstance
              "0xb0e7" "ETH" eq_refl) as (Hsome & _).
  split; [exact (Hapi eq_refl)|].
  split; [exact Hnone | exact Hsome].
Defined.

(** C7: for a domain matched to a backend, resolve(domain) returns the
    record bundle of the backend when it produces one and the unclaimed
    sentinel UnclaimedDomainResponse, as a value, when the backend returns
    null; when no configured backend matches the domain, resolve throws
    the ResolutionError UnsupportedDomain. *)
Theorem resolve_bundle_or_unclaimed (env : Imports) (r : Resolution) (d : string) :
  (forall m bundle,
      getNamingMethod r d = Some m ->
      NamingService.resolve m (prepareDomain d) = Ok (Some bundle) ->
      resolve env r d = Ok bundle)
  /\ (forall m,
      getNamingMethod r d = Some m ->
      NamingService.resolve m (prepareDomain d) = Ok None ->
      resolve env r d = Ok (UnclaimedDomainResponse env))
  /\ (getNamingMethod r d = None ->
      resolve env r d
      = Throw (ResolutionError UnsupportedDomain (withDomain (prepareDomain d)))).
Proof.
  unfold resolve.
  rewrite getNamingMethodOrThrow_prepareDomain, getNamingMethodOrThrow_unfold.
  split; [|split].
  - intros m bundle -> Hres. simpl. now rewrite Hres.
  - intros m -> Hres. simpl. now rewrite Hres.
  - intros ->. reflexivity.
Qed.

Lemma resolve_bundle_or_unclaimed_witness :
  resolve Sample.env Sample.ensOnlyInstance "BRAD.ETH"
  = Ok {[ "domain" := JString "brad.eth" ]}
  /\ resolve Sample.env Sample.ensOnlyInstance "Free.eth" = Ok Sample.unclaimed
  /\ resolve Sample.env Sample.ensOnlyInstance "brad.zil"
     = Throw (ResolutionError UnsupportedDomain (withDomain "brad.zil")).
Proof.
  destruct (resolve_bundle_or_unclaimed Sample.env Sample.ensOnlyInstance "BRAD.ETH")
    as (Hbundle & _).
  destruct (resolve_bundle_or_unclaimed Sample.env Sample.ensOnlyInstance "Free.eth")
    as (_ & Hnull & _).
  destruct (resolve_bundle_or_unclaimed Sample.env Sample.ensOnlyInstance "brad.zil")
    as (_ & _ & Hnone).
  split; [exact (Hbundle Sample.ensService _ eq_refl eq_refl)|].
  split; [exact (Hnull Sample.ensService eq_refl eq_refl)|].
  exact (Hnone eq_refl).
Defined.

(** C8: for every domain d supported by a configured backend, namehash(d)
    returns a hash, and for every string h, isValidHash(d, h) is true if
    and only if that hash equals h as a string, character for character:
    isValidHash(d, namehash(d)) is true and isValidHash(d, h) is false for
    every other h. *)
Theorem isValidHash_iff_namehash (r : Resolution) (d h : string) :
  isSupportedDomain r d = true ->
  exists hash,
    namehash r d = Ok hash
    /\ isValidHash r d hash = Ok true
    /\ (isValidHash r d h = Ok true <-> hash = h)
    /\ (hash <> h -> isValidHash r d h = Ok false).
Proof.
  unfold isSupportedDomain, isValidHash.
  rewrite getNamingMethod_prepareDomain, namehash_prepareDomain.
  unfold namehash.
  rewrite getNamingMethodOrThrow_prepareDomain, getNamingMethodOrThrow_unfold.
  destruct (getNamingMethod r d) as [m|]; [intros _ | discriminate]. simpl.
  eexists. split; [reflexivity|].
  split; [now rewrite String.eqb_refl|].
  split.
  - split.
    + intros [= H]. now apply String.eqb_eq.
    + intros <-. now rewrite String.eqb_refl.
  - intros Hne. apply String.eqb_neq in Hne. now rewrite Hne.
Qed.

Lemma isValidHash_iff_namehash_witness :
  namehash Sample.blockchainInstance " Brad.Crypto" = Ok "0xbrad.crypto"
  /\ isValidHash Sample.blockchainInstance " Brad.Crypto" "0xbrad.crypto" = Ok true
  /\ isValidHash Sample.blockchainInstance " Brad.Crypto" "0xBRAD.crypto" = Ok false.
Proof.
  destruct (isValidHash_iff_namehash
              Sample.blockchainInstance " Brad.Crypto" "0xBRAD.crypto" eq_refl)
    as (hash & Hhash & Hself & _ & Hother).
  injection Hhash as <-.
  split; [reflexivity|].
  split; [exact Hself|].
  apply Hother. discriminate.
Defined.

(** C10: null as a source goes through the object case of the normalizer
    and contributes no field: normalizeSource(null, p) returns the
    descriptor with the provider alone, neither the disabled sentinel nor
    the configuration error, and a constructor handed null as the ENS
    source sets the ENS backend, built from that descriptor. *)
Theorem normalizeSource_null_enables (p : JsValue) :
  typeOf JNull = "object"
  /\ normalizeSource JNull p = Ok (Enabled {[ "provider" := p ]})
  /\ normalizeSource JNull p = normalizeSource JUndefined p
  /\ (forall env c a r,
        cfg_ens c = JNull ->
        constructor env (withBlockchain c a) = Ok r ->
        exists b,
          Ens env {[ "provider" := cfg_web3Provider c ]} = Ok b
          /\ ens r = Some {| NamingService.name := Named ENS;
                             NamingService.backend := b |}).
Proof.
  split; [reflexivity|].
  split.
  - unfold normalizeSource; simpl. now rewrite (left_id ∅ _).
  - split; [unfold normalizeSource; simpl; now rewrite (left_id ∅ _)|].
    intros env c a r Hnull H.
    destruct (constructor_blockchain_mode env (withBlockchain c a) r eq_refl H)
      as (es & zs & cs & He & _ & _ & Hens & _).
    change (blockchainObject (withBlockchain c a)) with c in He.
    rewrite Hnull in He.
    unfold normalizeSource in He; simpl in He. rewrite (left_id ∅ _) in He.
    injection He as <-. simpl in Hens. unfold newEns in Hens.
    destruct (Ens env {[ "provider" := cfg_web3Provider c ]}) as [b|e];
      simpl in Hens; [|discriminate].
    injection Hens as <-. now exists b.
Qed.

Lemma normalizeSource_null_enables_witness :
  exists b,
    Ens Sample.env {[ "provider" := JUndefined ]} = Ok b
    /\ ens Sample.ensOnlyInstance
       = Some {| NamingService.name := Named ENS; NamingService.backend := b |}.
Proof.
  destruct (normalizeSource_null_enables JUndefined) as (_ & _ & _ & H).
  exact (H Sample.env
           {| cfg_ens := JNull; cfg_zns := JBoolean false;
              cfg_cns := JBoolean false; cfg_web3Provider := JUndefined |}
           None Sample.ensOnlyInstance eq_refl eq_refl).
Defined.

(** C4: every public entry point that takes a domain canonicalizes it
    before forwarding it to the selected backend.  ipfsRedirect does not:
    the selection canonicalizes for itself, and the backend is handed the
    domain as the caller wrote it, so that ipfsRedirect on BRAD.ZIL and on
    its canonical form brad.zil differ, where record, asked for the same
    key, hands the backend brad.zil. *)
Theorem ipfsRedirect_forwards_uncanonicalized_domain :
  ipfsRedirect Sample.blockchainInstance "BRAD.ZIL"
  = Ok "ipfs.redirect_domain.value of BRAD.ZIL"
  /\ ipfsRedirect Sample.blockchainInstance (prepareDomain "BRAD.ZIL")
     = Ok "ipfs.redirect_domain.value of brad.zil"
  /\ record Sample.blockchainInstance "BRAD.ZIL" "ipfs.redirect_domain.value"
     = Ok "ipfs.redirect_domain.value of brad.zil"
  /\ ipfsRedirect Sample.blockchainInstance "BRAD.ZIL"
     <> ipfsRedirect Sample.blockchainInstance (prepareDomain "BRAD.ZIL").
Proof.
  rewrite !ipfsRedirect_unfold.
  repeat split; try reflexivity. discriminate.
Qed.

(** * Further properties of the router *)

(** X1: isSupportedDomain(d) is true exactly when some configured backend
    claims the canonical form of d, and the backend that the selection
    returns is a configured one that claims it. *)
Theorem isSupportedDomain_iff_some_backend_claims (r : Resolution) (d : string) :
  isSupportedDomain r d = someBackendClaims r (prepareDomain d)
  /\ (isSupportedDomain r d = true <-> exists m, getNamingMethod r d = Some m)
  /\ (forall m, getNamingMethod r d = Some m ->
        In m (getResolutionMethods r)
        /\ NamingService.isSupportedDomain m (prepareDomain d) = true).
Proof.
  rewrite isSupportedDomain_unfold. split; [|split].
  - unfold someBackendClaims, getNamingMethod.
    destruct (List.find _ _) as [m|] eqn:E.
    + destruct (find_some _ _ E) as [Hin Hm]. symmetry.
      apply existsb_exists. now exists m.
    + symmetry. now apply find_None_existsb.
  - destruct (getNamingMethod r d) as [m|]; split;
      [eauto | reflexivity | discriminate | intros [m [=]]].
  - intros m H. exact (find_some _ _ H).
Qed.

(** X2: on a domain that no configured backend claims, every dispatching
    entry point throws the ResolutionError UnsupportedDomain that carries
    the canonical domain, isValidHash included; address alone returns null
    and isSupportedDomainInNetwork returns false. *)
Theorem unsupported_domain_is_refused (env : Imports) (r : Resolution) (d : string) :
  isSupportedDomain r d = false ->
  resolve env r d = unsupportedDomain d
  /\ (forall t, addressOrThrow r d t = unsupportedDomain d)
  /\ (forall t, address r d t = Ok None)
  /\ chatId r d = unsupportedDomain d
  /\ chatPk r d = unsupportedDomain d
  /\ ipfsHash r d = unsupportedDomain d
  /\ httpUrl r d = unsupportedDomain d
  /\ ipfsRedirect r d = unsupportedDomain d
  /\ email r d = unsupportedDomain d
  /\ resolver r d = unsupportedDomain d
  /\ owner r d = unsupportedDomain d
  /\ (forall k, record r d k = unsupportedDomain d)
  /\ namehash r d = unsupportedDomain d
  /\ (forall h, isValidHash r d h = unsupportedDomain d)
  /\ serviceName r d = unsupportedDomain d
  /\ getAllKeys r d = unsupportedDomain d
  /\ isSupportedDomainInNetwork r d = false.
Proof.
  rewrite isSupportedDomain_unfold.
  destruct (getNamingMethod r d) as [m|] eqn:E; [discriminate|]. intros _.
  pose proof (getNamingMethodOrThrow_canonical_None r d E) as H.
  assert (Ha : forall t, addressOrThrow r d t = unsupportedDomain d).
  { intros t. unfold addressOrThrow. now rewrite H. }
  assert (Hn : namehash r d = unsupportedDomain d).
  { unfold namehash. now rewrite H. }
  unfold resolve, chatId, chatPk, ipfsHash, httpUrl, email, resolver, owner,
    record, serviceName, getAllKeys, isSupportedDomainInNetwork, isValidHash,
    address.
  rewrite ipfsRedirect_unfold, getNamingMethod_prepareDomain, E, ?H.
  repeat split; try reflexivity; try assumption.
  - intros t. rewrite addressOrThrow_prepareDomain, (Ha t). reflexivity.
  - intros h. now rewrite namehash_prepareDomain, Hn.
Qed.

Lemma unsupported_domain_is_refused_witness :
  resolver Sample.noEnsInstance " Brad.ETH"
  = Throw (ResolutionError UnsupportedDomain (withDomain "brad.eth"))
  /\ address Sample.noEnsInstance " Brad.ETH" "ETH" = Ok None
  /\ isValidHash Sample.noEnsInstance " Brad.ETH" "0xbrad.eth"
     = Throw (ResolutionError UnsupportedDomain (withDomain "brad.eth")).
Proof.
  destruct (unsupported_domain_is_refused
              Sample.env Sample.noEnsInstance " Brad.ETH" eq_refl)
    as (_ & _ & Ha & _ & _ & _ & _ & _ & _ & Hr & _ & _ & _ & Hv & _).
  split; [exact Hr|]. split; [exact (Ha "ETH") | exact (Hv "0xbrad.eth")].
Defined.

(** X3: on a domain that a backend is selected for, every dispatching
    entry point that canonicalizes hands the canonical domain to that
    backend and passes its answer on as it is, a thrown error included. *)
Theorem selected_backend_answers (r : Resolution) (d : string) (m : NamingService) :
  getNamingMethod r d = Some m ->
  (forall t, addressOrThrow r d t = NamingService.address m (prepareDomain d) t)
  /\ chatId r d = NamingService.chatId m (prepareDomain d)
  /\ chatPk r d = NamingService.chatpk m (prepareDomain d)
  /\ ipfsHash r d = NamingService.ipfsHash m (prepareDomain d)
  /\ httpUrl r d = NamingService.httpUrl m (prepareDomain d)
  /\ email r d = NamingService.email m (prepareDomain d)
  /\ resolver r d = NamingService.resolver m (prepareDomain d)
  /\ (forall k, record r d k = NamingService.record m (prepareDomain d) k)
  /\ getAllKeys r d = NamingService.getAllKeys m (prepareDomain d)
  /\ namehash r d = Ok (NamingService.namehash m (prepareDomain d))
  /\ serviceName r d = Ok (NamingService.serviceName m (prepareDomain d))
  /\ isSupportedDomainInNetwork r d = NamingService.isSupportedNetwork m.
Proof.
  intros E. pose proof (getNamingMethodOrThrow_canonical_Some r d m E) as H.
  unfold addressOrThrow, chatId, chatPk, ipfsHash, httpUrl, email, resolver,
    record, getAllKeys, namehash, serviceName, isSupportedDomainInNetwork.
  rewrite getNamingMethod_prepareDomain, E, H.
  repeat split; reflexivity.
Qed.

Lemma selected_backend_answers_witness :
  record Sample.blockchainInstance " Brad.Crypto " "crypto.ETH.address"
  = Ok "crypto.ETH.address of brad.crypto"
  /\ addressOrThrow Sample.blockchainInstance " Brad.Crypto " "BTC"
     = Throw (ResolutionError RecordNotFound (withDomain "brad.crypto")).
Proof.
  destruct (selected_backend_answers
              Sample.blockchainInstance " Brad.Crypto " Sample.cnsService eq_refl)
    as (Ha & _ & _ & _ & _ & _ & _ & Hr & _).
  split; [exact (Hr "crypto.ETH.address") | exact (Ha "BTC")].
Defined.

(** X4: owner(domain) never returns the empty string: an owner it returns
    is the non-empty one the selected backend answered, and a backend
    answer of null or of the empty string comes out as null. *)
Theorem owner_never_empty (r : Resolution) (d : string) :
  (forall a, owner r d = Ok (Some a) ->
     a <> EmptyString
     /\ exists m, getNamingMethod r d = Some m
                  /\ NamingService.owner m (prepareDomain d) = Ok (Some a))
  /\ (forall m, getNamingMethod r d = Some m ->
        NamingService.owner m (prepareDomain d) = Ok (Some EmptyString)
        \/ NamingService.owner m (prepareDomain d) = Ok None ->
        owner r d = Ok None).
Proof.
  unfold owner.
  rewrite getNamingMethodOrThrow_prepareDomain, getNamingMethodOrThrow_unfold.
  destruct (getNamingMethod r d) as [m|]; simpl.
  - split.
    + intros a.
      destruct (NamingService.owner m (prepareDomain d)) as [[b|]|e] eqn:Eo;
        simpl; try discriminate.
      destruct b as [|c b]; simpl; [discriminate|]. intros [= <-].
      split; [discriminate | eauto].
    + intros m' [= <-] [-> | ->]; reflexivity.
  - split; [discriminate | intros m' [=]].
Qed.

Lemma owner_never_empty_witness :
  owner Sample2.shadowedInstance "brad.eth" = Ok None
  /\ owner Sample.blockchainInstance "BRAD.eth" = Ok (Some "owner of brad.eth").
Proof.
  destruct (owner_never_empty Sample2.shadowedInstance "brad.eth") as (_ & H).
  split; [|reflexivity].
  apply (H Sample2.offNetworkEns eq_refl). left. reflexivity.
Defined.

(** X5: isSupportedDomainInNetwork(d) asks the network of the selected
    backend, the first claimant, alone: it is true exactly when that
    backend is on a supported network, and it implies isSupportedDomain(d);
    a later claimant on a supported network does not make it true. *)
Theorem isSupportedDomainInNetwork_first_claimant (r : Resolution) (d : string) :
  (isSupportedDomainInNetwork r d = true <->
   exists m, getNamingMethod r d = Some m
             /\ NamingService.isSupportedNetwork m = true)
  /\ (isSupportedDomainInNetwork r d = true -> isSupportedDomain r d = true)
  /\ (forall m, getNamingMethod r d = Some m ->
        NamingService.isSupportedNetwork m = false ->
        isSupportedDomainInNetwork r d = false).
Proof.
  rewrite isSupportedDomain_unfold. unfold isSupportedDomainInNetwork.
  rewrite getNamingMethod_prepareDomain.
  destruct (getNamingMethod r d) as [m|].
  - split; [split; [eauto | intros (m' & [= <-] & H); exact H]|].
    split; [reflexivity | intros m' [= <-] H; exact H].
  - split; [split; [discriminate | intros (m' & [=] & _)]|].
    split; [discriminate | intros m' [=]].
Qed.

Lemma isSupportedDomainInNetwork_first_claimant_witness :
  isSupportedDomainInNetwork Sample2.shadowedInstance "brad.eth" = false
  /\ claimedBy (cns Sample2.shadowedInstance) "brad.eth" = true
  /\ isSupportedDomain Sample2.shadowedInstance "brad.eth" = true.
Proof.
  destruct (isSupportedDomainInNetwork_first_claimant
              Sample2.shadowedInstance "brad.eth") as (_ & _ & H).
  split; [exact (H Sample2.offNetworkEns eq_refl eq_refl)|].
  split; reflexivity.
Defined.

(** X6: on a constructed instance findNamingService(name) returns a
    service exactly when that service is configured and carries the tag:
    the tags of the configured backends are pairwise distinct, the service
    found is the one in the field of that name, and an instance in API mode
    has none, so that the NamingServiceDown error is thrown for every
    name. *)
Theorem findNamingService_by_tag
    (env : Imports) (o : Options) (r : Resolution) (n : NamingServiceName) :
  constructor env o = Ok r ->
  NoDup (map NamingService.name (getResolutionMethods r))
  /\ (forall s, findNamingService r n = Ok s <->
                In s (getResolutionMethods r)
                /\ NamingService.name s = Named n)
  /\ findNamingService r n
     = match fieldOf r n with
       | Some s => Ok s
       | None => Throw (ResolutionError NamingServiceDown (withMethod n))
       end
  /\ (blockchain r = false -> fieldOf r n = None).
Proof.
  intros H. pose proof (constructed_tags_NoDup env o r H) as Hnd.
  split; [exact Hnd|].
  destruct (find_tag_constructed env o r n H) as [Hfind Hapi].
  split; [|split; [|exact Hapi]].
  - intros s. unfold findNamingService. split.
    + destruct (List.find _ _) as [s'|] eqn:E; [intros [= <-] | discriminate].
      destruct (find_some _ _ E) as [Hin Hs].
      now rewrite bool_decide_eq_true in Hs.
    + intros [Hin Hs]. now rewrite (find_unique_tag _ _ s Hnd Hin Hs).
  - unfold findNamingService. rewrite Hfind. now destruct (fieldOf r n).
Qed.

Lemma findNamingService_by_tag_witness :
  findNamingService Sample.noEnsInstance ZNS = Ok Sample.znsService
  /\ findNamingService Sample.noEnsInstance ENS
     = Throw (ResolutionError NamingServiceDown (withMethod ENS))
  /\ fieldOf Sample.apiInstance CNS = None.
Proof.
  destruct (findNamingService_by_tag
              Sample.env Sample.noEnsOptions Sample.noEnsInstance ZNS eq_refl)
    as (_ & _ & Hz & _).
  destruct (findNamingService_by_tag
              Sample.env Sample.noEnsOptions Sample.noEnsInstance ENS eq_refl)
    as (_ & _ & He & _).
  destruct (findNamingService_by_tag
              Sample.env Sample.apiOptions Sample.apiInstance CNS eq_refl)
    as (_ & _ & _ & Ha).
  split; [exact Hz|]. split; [exact He | exact (Ha eq_refl)].
Defined.

(** X7: childhash(parent, label, method) picks its backend by the tag and
    not by any domain: on a constructed instance it returns the child hash
    computed by the backend in the field of that name, throws the
    ResolutionError NamingServiceDown when that backend is not configured,
    and so throws for every name on an instance in API mode. *)
Theorem childhash_by_identity
    (env : Imports) (o : Options) (r : Resolution)
    (parent label : string) (n : NamingServiceName) :
  constructor env o = Ok r ->
  childhash r parent label n
  = match fieldOf r n with
    | Some s => Ok (NamingService.childhash s parent label)
    | None => Throw (ResolutionError NamingServiceDown (withMethod n))
    end
  /\ (blockchain r = false ->
      childhash r parent label n
      = Throw (ResolutionError NamingServiceDown (withMethod n))).
Proof.
  intros H. destruct (find_tag_constructed env o r n H) as [Hfind Hapi].
  assert (Hch : childhash r parent label n
                = match fieldOf r n with
                  | Some s => Ok (NamingService.childhash s parent label)
                  | None => Throw (ResolutionError NamingServiceDown (withMethod n))
                  end).
  { unfold childhash, findNamingService. rewrite Hfind.
    now destruct (fieldOf r n). }
  split; [exact Hch|]. intros Hf. now rewrite Hch, (Hapi Hf).
Qed.

Lemma childhash_by_identity_witness :
  childhash Sample.blockchainInstance "0xparent" "label" CNS = Ok "0xparentlabel"
  /\ childhash Sample.apiInstance "0xparent" "label" CNS
     = Throw (ResolutionError NamingServiceDown (withMethod CNS)).
Proof.
  destruct (childhash_by_identity
              Sample.env Sample.defaultOptions Sample.blockchainInstance
              "0xparent" "label" CNS eq_refl) as (Hb & _).
  destruct (childhash_by_identity
              Sample.env Sample.apiOptions Sample.apiInstance
              "0xparent" "label" CNS eq_refl) as (_ & Ha).
  split; [exact Hb | exact (Ha eq_refl)].
Defined.

(** X8: in blockchain mode a backend is left unset exactly when its source
    is the boolean false: every other source the normalizer accepts
    (absent, true, null, a string, an object, the empty object included)
    yields a constructed backend. *)
Theorem backend_unset_iff_source_false (env : Imports) (o : Options) (r : Resolution) :
  truthyBlockchain o = true ->
  constructor env o = Ok r ->
  (ens r = None <-> cfg_ens (blockchainObject o) = JBoolean false)
  /\ (zns r = None <-> cfg_zns (blockchainObject o) = JBoolean false)
  /\ (cns r = None <-> cfg_cns (blockchainObject o) = JBoolean false).
Proof.
  intros Ht H.
  destruct (constructor_blockchain_mode env o r Ht H)
    as (es & zs & cs & He & Hz & Hc & Hens & Hzns & Hcns & _).
  split; [exact (construct_field_None _ _ _ _ _ He Hens)|].
  split; [exact (construct_field_None _ _ _ _ _ Hz Hzns)|].
  exact (construct_field_None _ _ _ _ _ Hc Hcns).
Qed.

Lemma backend_unset_iff_source_false_witness :
  ens Sample.noEnsInstance = None /\ zns Sample.noEnsInstance <> None.
Proof.
  destruct (backend_unset_iff_source_false
              Sample.env Sample.noEnsOptions Sample.noEnsInstance eq_refl eq_refl)
    as (He & Hz & _).
  split; [now apply He|]. intros Hn. apply Hz in Hn. discriminate Hn.
Defined.

(** X9: the deprecated web3Provider option reaches a backend only through
    a source that does not settle the provider itself: a source that does
    not (absent, true, null, an object without a provider field) gets it
    as its provider, and when the ENS and CNS sources both settle theirs
    (false, a url string, an object with a provider field) the constructor
    does the same whatever web3Provider is; the ZNS source never sees it. *)
Theorem web3Provider_inheritance
    (env : Imports) (c : Blockchain) (a : option JsValue) (w : JsValue) :
  (forall v definition,
      normalizeSource v w = Ok (Enabled definition) ->
      settlesProvider v = false ->
      definition !! "provider" = Some w)
  /\ (settlesProvider (cfg_ens c) = true ->
      settlesProvider (cfg_cns c) = true ->
      constructor env (withBlockchain (withWeb3Provider c w) a)
      = constructor env (withBlockchain c a)).
Proof.
  split; [intros v definition; apply normalizeSource_inherits|].
  intros He Hc. unfold constructor, withBlockchain, withWeb3Provider; simpl.
  rewrite (normalizeSource_settled _ w (cfg_web3Provider c) He).
  rewrite (normalizeSource_settled _ w (cfg_web3Provider c) Hc).
  reflexivity.
Qed.

Lemma web3Provider_inheritance_witness :
  constructor Sample.env
    (withBlockchain (withWeb3Provider Sample2.ownProviders (JString "legacy")) None)
  = constructor Sample.env (withBlockchain Sample2.ownProviders None)
  /\ ({[ "provider" := JString "legacy" ]} : gmap string JsValue) !! "provider"
     = Some (JString "legacy").
Proof.
  destruct (web3Provider_inheritance
              Sample.env Sample2.ownProviders None (JString "legacy"))
    as (Hin & Hframe).
  split; [exact (Hframe eq_refl eq_refl)|].
  exact (Hin JNull _ eq_refl eq_refl).
Defined.

(** X10: with the three sources false the constructor builds the instance
    with no backend, calling no backend constructor; on an instance with
    no configured backend no domain is supported, every domain lookup is
    refused with UnsupportedDomain and every lookup by tag with
    NamingServiceDown. *)
Theorem no_backend_configured
    (env : Imports) (w : JsValue) (a : option JsValue) (r : Resolution) :
  constructor env (withBlockchain (allDisabled w) a) = Ok noBackend
  /\ (getResolutionMethods r = [] ->
      (forall d, isSupportedDomain r d = false)
      /\ (forall d, resolver r d = unsupportedDomain d)
      /\ (forall n, findNamingService r n
                    = Throw (ResolutionError NamingServiceDown (withMethod n)))
      /\ (forall addr t, reverse r addr t
                    = Throw (ResolutionError NamingServiceDown (withMethod ENS)))).
Proof.
  split; [reflexivity|]. intros Hnil.
  assert (Hsel : forall d, getNamingMethod r d = None).
  { intros d. unfold getNamingMethod. now rewrite Hnil. }
  split; [intros d; now rewrite isSupportedDomain_unfold, Hsel|].
  split.
  - intros d. unfold resolver.
    now rewrite (getNamingMethodOrThrow_canonical_None r d (Hsel d)).
  - split; [intros n | intros addr t]; unfold reverse, findNamingService;
      now rewrite Hnil.
Qed.

Lemma no_backend_configured_witness :
  isSupportedDomain noBackend "brad.eth" = false
  /\ resolver noBackend "brad.eth"
     = Throw (ResolutionError UnsupportedDomain (withDomain "brad.eth")).
Proof.
  destruct (no_backend_configured Sample.env JUndefined None noBackend)
    as (_ & H).
  destruct (H eq_refl) as (Hs & Hr & _).
  split; [exact (Hs "brad.eth") | exact (Hr "brad.eth")].
Defined.

(** X11: the constructor's defaults: no argument, blockchain: true and
    blockchain: the empty object construct alike; in blockchain mode the
    api option is not looked at; in API mode an absent api option stands
    for DefaultAPI. *)
Theorem constructor_defaults (env : Imports) (a : option JsValue) :
  constructor env {| opt_blockchain := None; opt_api := a |}
  = constructor env (withBlockchain emptyBlockchain a)
  /\ constructor env {| opt_blockchain := Some (BlockchainFlag true); opt_api := a |}
     = constructor env (withBlockchain emptyBlockchain a)
  /\ (forall o, truthyBlockchain o = true ->
        constructor env {| opt_blockchain := opt_blockchain o; opt_api := a |}
        = constructor env o)
  /\ constructor env {| opt_blockchain := Some (BlockchainFlag false);
                        opt_api := None |}
     = constructor env {| opt_blockchain := Some (BlockchainFlag false);
                          opt_api := Some (DefaultAPI env) |}.
Proof.
  repeat (split; [reflexivity|]). split; [|reflexivity].
  intros [[[[]|c]|] a']; simpl; intros Ht; (discriminate Ht || reflexivity).
Qed.

Lemma constructor_defaults_witness :
  constructor Sample.env {| opt_blockchain := None; opt_api := Some JNull |}
  = Ok Sample.blockchainInstance.
Proof.
  destruct (constructor_defaults Sample.env (Some JNull)) as (_ & _ & H & _).
  exact (H Sample.defaultOptions eq_refl).
Defined.

(** X12: fromEip1193Provider(provider) constructs in blockchain mode with
    the three backends enabled: the ENS and the CNS backend are built from
    the descriptor that holds the given provider and nothing else, the ZNS
    backend from the default descriptor with no provider; the normalizer
    never refuses, so the only errors are those of the backend
    constructors.  The three adapters (web3 0.x, web3 1.x, ethers) do the
    same with the adapted provider. *)
Theorem fromEip1193Provider_backends
    (env : Imports) (factories : Eip1993Factories.t) (p : JsValue) (r : Resolution) :
  (fromEip1193Provider env p = Ok r ->
   builtFrom env {[ "provider" := p ]} {[ "provider" := JUndefined ]}
             {[ "provider" := p ]} r)
  /\ (fromWeb3Version0Provider env factories p = Ok r ->
      builtFrom env
        {[ "provider" := Eip1993Factories.fromWeb3Version0Provider factories p ]}
        {[ "provider" := JUndefined ]}
        {[ "provider" := Eip1993Factories.fromWeb3Version0Provider factories p ]} r)
  /\ (fromWeb3Version1Provider env factories p = Ok r ->
      builtFrom env
        {[ "provider" := Eip1993Factories.fromWeb3Version1Provider factories p ]}
        {[ "provider" := JUndefined ]}
        {[ "provider" := Eip1993Factories.fromWeb3Version1Provider factories p ]} r)
  /\ (fromEthersProvider env factories p = Ok r ->
      builtFrom env
        {[ "provider" := Eip1993Factories.fromEthersProvider factories p ]}
        {[ "provider" := JUndefined ]}
        {[ "provider" := Eip1993Factories.fromEthersProvider factories p ]} r)
  /\ (forall e, fromEip1193Provider env p = Throw e ->
        Ens env {[ "provider" := p ]} = Throw e
        \/ Zns env {[ "provider" := JUndefined ]} = Throw e
        \/ Cns env {[ "provider" := p ]} = Throw e).
Proof.
  assert (H : forall q,
    fromEip1193Provider env q = Ok r ->
    builtFrom env {[ "provider" := q ]} {[ "provider" := JUndefined ]}
              {[ "provider" := q ]} r).
  { intros q. unfold fromEip1193Provider.
    apply (constructor_builtFrom env
             {| cfg_ens := JObject {[ "provider" := q ]};
                cfg_zns := JBoolean true;
                cfg_cns := JObject {[ "provider" := q ]};
                cfg_web3Provider := JUndefined |}); reflexivity. }
  split; [apply H|]. split; [apply H|]. split; [apply H|]. split; [apply H|].
  unfold fromEip1193Provider, constructor; simpl. unfold normalizeSource; simpl.
  unfold newEns, newZns, newCns.
  change (({[ "provider" := p ]} : gmap string JsValue) ∪ {[ "provider" := JUndefined ]})
    with ({[ "provider" := p ]} : gmap string JsValue).
  intros e.
  destruct (Ens env {[ "provider" := p ]}) as [be|e1]; simpl;
    [|intros [= ->]; now left].
  destruct (Zns env {[ "provider" := JUndefined ]}) as [bz|e2]; simpl;
    [|intros [= ->]; right; now left].
  destruct (Cns env {[ "provider" := p ]}) as [bc|e3]; simpl;
    [discriminate | intros [= ->]; right; now right].
Qed.

Lemma fromEip1193Provider_backends_witness :
  builtFrom Sample.env {[ "provider" := JString "wallet" ]}
    {[ "provider" := JUndefined ]} {[ "provider" := JString "wallet" ]}
    Sample.blockchainInstance
  /\ builtFrom Sample.env
       {[ "provider" := JObject {[ "ethers" := JString "wallet" ]} ]}
       {[ "provider" := JUndefined ]}
       {[ "provider" := JObject {[ "ethers" := JString "wallet" ]} ]}
       Sample.blockchainInstance.
Proof.
  destruct (fromEip1193Provider_backends
              Sample.env Sample2.factories (JString "wallet")
              Sample.blockchainInstance) as (H & _ & _ & He & _).
  split; [exact (H eq_refl) | exact (He eq_refl)].
Defined.

(** X13: infura(id, network) constructs in blockchain mode with the three
    backends enabled: the ENS and the CNS backend are both built from the
    descriptor with the signed link of the id and the network as url, the
    network, and no provider; the ZNS backend from the default descriptor;
    an omitted network is mainnet, in the link as in the descriptor. *)
Theorem infura_backends
    (env : Imports) (signedInfuraLink : string -> string -> string)
    (infuraId : string) (network : option string) (r : Resolution) :
  infura env signedInfuraLink infuraId network = Ok r ->
  builtFrom env
    {[ "provider" := JUndefined;
       "url" := JString (signedInfuraLink infuraId (default "mainnet" network));
       "network" := JString (default "mainnet" network) ]}
    {[ "provider" := JUndefined ]}
    {[ "provider" := JUndefined;
       "url" := JString (signedInfuraLink infuraId (default "mainnet" network));
       "network" := JString (default "mainnet" network) ]}
    r
  /\ infura env signedInfuraLink infuraId None
     = infura env signedInfuraLink infuraId (Some "mainnet").
Proof.
  intros H. split; [|reflexivity]. revert H. unfold infura.
  apply (constructor_builtFrom env
           {| cfg_ens :=
                JObject {[ "url" := JString (signedInfuraLink infuraId
                                               (default "mainnet" network));
                           "network" := JString (default "mainnet" network) ]};
              cfg_zns := JUndefined;
              cfg_cns :=
                JObject {[ "url" := JString (signedInfuraLink infuraId
                                               (default "mainnet" network));
                           "network" := JString (default "mainnet" network) ]};
              cfg_web3Provider := JUndefined |}); reflexivity.
Qed.

Lemma infura_backends_witness :
  builtFrom Sample.env
    {[ "provider" := JUndefined;
       "url" := JString "https://mainnet.infura.io/v3/12351245223";
       "network" := JString "mainnet" ]}
    {[ "provider" := JUndefined ]}
    {[ "provider" := JUndefined;
       "url" := JString "https://mainnet.infura.io/v3/12351245223";
       "network" := JString "mainnet" ]}
    Sample.blockchainInstance.
Proof.
  exact (proj1 (infura_backends Sample.env Sample2.signedInfuraLink
                  "12351245223" None Sample.blockchainInstance eq_refl)).
Defined.

(** X14: prepareDomain returns a canonical string, one that neither starts
    nor ends with white space and holds no character with a lowercase
    mapping; the canonical strings are exactly the ones it leaves as they
    are, and its result is never longer than its argument. *)
Theorem prepareDomain_canonical_form (d : string) :
  Canonical.canonical (prepareDomain d) = true
  /\ (prepareDomain d = d <-> Canonical.canonical d = true)
  /\ String.length (prepareDomain d) <= String.length d.
Proof.
  split; [apply prepareDomain_canonical|]. split.
  - split; [|apply prepareDomain_of_canonical].
    intros H. rewrite <- H. apply prepareDomain_canonical.
  - rewrite prepareDomain_unfold, CanonicalFacts.length_toLowerCase.
    unfold JsString.trim.
    pose proof (CanonicalFacts.length_trimEnd (JsString.trimStart d)).
    pose proof (CanonicalFacts.length_trimStart d). lia.
Qed.

(** X15: prepareDomain ignores white space around the domain and the case
    of its letters: padding a domain with white space on either side, or
    replacing it by a string with the same lowercase form, changes nothing;
    a string of white space alone canonicalizes to the empty string. *)
Theorem prepareDomain_ignores_padding_and_case (before d after d' : string) :
  Canonical.allWhiteSpace before = true ->
  Canonical.allWhiteSpace after = true ->
  prepareDomain (before ++ d ++ after) = prepareDomain d
  /\ prepareDomain before = EmptyString
  /\ (JsString.toLowerCase d = JsString.toLowerCase d' ->
      prepareDomain d = prepareDomain d').
Proof.
  intros Hb Ha. rewrite !prepareDomain_unfold. split; [|split].
  - now rewrite CanonicalFacts.trim_padding.
  - unfold JsString.trim.
    now rewrite (CanonicalFacts.trimStart_allWhiteSpace _ Hb).
  - intros H. now rewrite <- !JsStringFacts.trim_toLowerCase, H.
Qed.

Lemma prepareDomain_ignores_padding_and_case_witness :
  prepareDomain (" " ++ "Brad.Zil" ++ "  ") = prepareDomain "Brad.Zil"
  /\ prepareDomain "Brad.Zil" = prepareDomain "bRAD.zIL".
Proof.
  destruct (prepareDomain_ignores_padding_and_case
              " " "Brad.Zil" "  " "bRAD.zIL" eq_refl eq_refl) as (Hp & _ & Hc).
  split; [exact Hp | exact (Hc eq_refl)].
Defined.

(** X16: two domains with the same canonical form are the same domain to
    every entry point that canonicalizes: resolve, address,
    addressOrThrow, the record lookups, the hashing and the predicates
    answer alike on both. *)
Theorem equal_canonical_forms_answer_alike
    (env : Imports) (r : Resolution) (d1 d2 : string) :
  prepareDomain d1 = prepareDomain d2 ->
  resolve env r d1 = resolve env r d2
  /\ (forall t, address r d1 t = address r d2 t)
  /\ (forall t, addressOrThrow r d1 t = addressOrThrow r d2 t)
  /\ chatId r d1 = chatId r d2
  /\ chatPk r d1 = chatPk r d2
  /\ ipfsHash r d1 = ipfsHash r d2
  /\ httpUrl r d1 = httpUrl r d2
  /\ email r d1 = email r d2
  /\ resolver r d1 = resolver r d2
  /\ owner r d1 = owner r d2
  /\ getAllKeys r d1 = getAllKeys r d2
  /\ (forall k, record r d1 k = record r d2 k)
  /\ namehash r d1 = namehash r d2
  /\ (forall h, isValidHash r d1 h = isValidHash r d2 h)
  /\ isSupportedDomain r d1 = isSupportedDomain r d2
  /\ isSupportedDomainInNetwork r d1 = isSupportedDomainInNetwork r d2
  /\ serviceName r d1 = serviceName r d2.
Proof.
  intros H.
  destruct (lookups_prepareDomain r d1)
    as (A1 & A2 & A3 & A4 & A5 & A6 & A7 & A8 & A9).
  destruct (lookups_prepareDomain r d2)
    as (B1 & B2 & B3 & B4 & B5 & B6 & B7 & B8 & B9).
  destruct (predicates_prepareDomain r d1) as (P1 & P2 & P3 & P4).
  destruct (predicates_prepareDomain r d2) as (Q1 & Q2 & Q3 & Q4).
  rewrite <- (resolve_prepareDomain env r d1), <- (resolve_prepareDomain env r d2),
    <- (namehash_prepareDomain r d1), <- (namehash_prepareDomain r d2),
    <- A1, <- A2, <- A3, <- A4, <- A5, <- A6, <- A7, <- A8,
    <- B1, <- B2, <- B3, <- B4, <- B5, <- B6, <- B7, <- B8,
    <- P1, <- P2, <- P3, <- Q1, <- Q2, <- Q3, H.
  repeat split; try reflexivity.
  - intros t. now rewrite <- (address_prepareDomain r d1),
      <- (address_prepareDomain r d2), H.
  - intros t. now rewrite <- (addressOrThrow_prepareDomain r d1),
      <- (addressOrThrow_prepareDomain r d2), H.
  - intros k. now rewrite <- (A9 k), <- (B9 k), H.
  - intros h. now rewrite <- (P4 h), <- (Q4 h), H.
Qed.

Lemma equal_canonical_forms_answer_alike_witness :
  resolve Sample.env Sample.blockchainInstance "  BRAD.ZIL"
  = resolve Sample.env Sample.blockchainInstance "brad.zil "
  /\ namehash Sample.blockchainInstance "  BRAD.ZIL"
     = namehash Sample.blockchainInstance "brad.zil ".
Proof.
  destruct (equal_canonical_forms_answer_alike
              Sample.env Sample.blockchainInstance "  BRAD.ZIL" "brad.zil " eq_refl)
    as (Hr & _ & _ & _ & _ & _ & _ & _ & _ & _ & _ & _ & Hn & _).
  split; [exact Hr | exact Hn].
Defined.

(** X17: ipfsRedirect selects the backend that record selects, and on a
    domain already in canonical form it is record asked for the key
    ipfs.redirect_domain.value; on another domain the two differ in the
    domain string the backend is handed, raw for ipfsRedirect. *)
Theorem ipfsRedirect_is_record_on_canonical_domain (r : Resolution) (d : string) :
  (Canonical.canonical d = true ->
   ipfsRedirect r d = record r d "ipfs.redirect_domain.value")
  /\ (forall m, getNamingMethod r d = Some m ->
        ipfsRedirect r d = NamingService.record m d "ipfs.redirect_domain.value"
        /\ record r d "ipfs.redirect_domain.value"
           = NamingService.record m (prepareDomain d) "ipfs.redirect_domain.value")
  /\ (getNamingMethod r d = None ->
      ipfsRedirect r d = record r d "ipfs.redirect_domain.value").
Proof.
  rewrite ipfsRedirect_unfold. unfold record.
  rewrite getNamingMethodOrThrow_prepareDomain, getNamingMethodOrThrow_unfold.
  split; [|split].
  - intros Hc. rewrite (prepareDomain_of_canonical d Hc).
    now destruct (getNamingMethod r d).
  - intros m ->. split; reflexivity.
  - intros ->. reflexivity.
Qed.

Lemma ipfsRedirect_is_record_on_canonical_domain_witness :
  ipfsRedirect Sample.blockchainInstance "brad.zil"
  = record Sample.blockchainInstance "brad.zil" "ipfs.redirect_domain.value".
Proof.
  destruct (ipfsRedirect_is_record_on_canonical_domain
              Sample.blockchainInstance "brad.zil") as (H & _).
  exact (H eq_refl).
Defined.
